(** * ENSO_metrics: a shallow embedding of lib/EnsoMetricsLib.py and
      plots/driver_portraitplot.py

    The metric functions of [EnsoMetricsLib.py] are straight-line
    pipelines over a climate-data toolkit (cdms2/MV2 arrays, NetCDF
    readers, regridders).  The toolkit is an interface here (class
    [Toolkit]); what the metric functions themselves do -- the handling
    of [**kwargs], the data-sufficiency and configuration checks, the
    order of the steps, the sign-agreement statistic and the returned
    dictionaries -- is translated from the Python text.

    The code is Python 2 ([basestring], [keys()] used as a list), so [/]
    between two ints is floor division and [bool] is a subclass of
    [int]. *)

From Stdlib Require Import ZArith QArith Ascii String List Sorted.
From stdpp Require Import gmap strings list pretty.

Set Warnings "-register-all".
Local Open Scope string_scope.
Local Open Scope Z_scope.

(** ** Python values *)

(** A Python float.  Finite values are kept as rationals: the code only
    compares them, takes their sign and divides a count by a length, all
    of which are exact on the values involved.  [nan] is explicit, since
    [numpy.sign(nan)] is [nan] and [nan == nan] is [False]. *)
Inductive pyfloat : Type :=
| Fin (q : Q)
| PInf
| NInf
| NaN.

Inductive pyval : Type :=
| PyNone
| PyBool (b : bool)
| PyInt (n : Z)
| PyFloat (x : pyfloat)
| PyStr (s : string)
| PyTuple (l : list pyval)
| PyList (l : list pyval)
| PyDict (d : list (string * pyval)).

(** [isinstance(v, int)]: ints and, [bool] being a subclass of [int],
    booleans. *)
Definition isinstance_int (v : pyval) : bool :=
  match v with
  | PyInt _ | PyBool _ => true
  | _ => false
  end.

(** [isinstance(v, dict)] *)
Definition isinstance_dict (v : pyval) : bool :=
  match v with
  | PyDict _ => true
  | _ => false
  end.

(** The integer an [int] instance stands for in a comparison
    ([True] is 1, [False] is 0). *)
Definition int_value (v : pyval) : Z :=
  match v with
  | PyInt n => n
  | PyBool b => if b then 1 else 0
  | _ => 0
  end.

(** [str(v)] for the values the messages are built from. *)
Definition py_str (v : pyval) : string :=
  match v with
  | PyNone => "None"
  | PyBool b => if b then "True" else "False"
  | PyInt n => pretty n
  | PyStr s => s
  | _ => "<object>"
  end.

(** Truth value of a Python object, as [if x:] tests it. *)
Definition truthy (v : pyval) : bool :=
  match v with
  | PyNone => false
  | PyBool b => b
  | PyInt n => negb (n =? 0)%Z
  | PyFloat (Fin q) => negb (Qeq_bool q 0)
  | PyFloat _ => true
  | PyStr s => negb (String.eqb s "")
  | PyTuple l | PyList l => negb (Nat.eqb (length l) 0)
  | PyDict d => negb (Nat.eqb (length d) 0)
  end.

(** ** Exceptions and the error monad *)

(** The exceptions a metric call or the plotting driver can end with.
    [MyError], [TooShortTimePeriod] and [UnknownKeyArg] are the three
    error reporters of [EnsoErrorsWarnings]; the others are Python's. *)
Inductive pyerror : Type :=
| MyError (list_strings : list string)
| TooShortTimePeriod (metric_name : string) (length : Z) (minimum : pyval)
    (stack : string)
| UnknownKeyArg (extra_args : gset string) (stack : string)
| KeyError (key : string)
| TypeError
| IndexError
| NameError
| ValueError
| ZeroDivisionError.

Inductive result (A : Type) : Type :=
| Ok (a : A)
| Raise (e : pyerror).
Arguments Ok {A} a.
Arguments Raise {A} e.

#[global] Instance result_ret : MRet result := fun A a => Ok a.
#[global] Instance result_bind : MBind result := fun A B f m =>
  match m with
  | Ok a => f a
  | Raise e => Raise e
  end.

#[global] Instance result_fmap : FMap result := fun A B f m =>
  match m with
  | Ok a => Ok (f a)
  | Raise e => Raise e
  end.

Definition is_ok {A} (r : result A) : bool :=
  match r with Ok _ => true | Raise _ => false end.

(** [kwargs]: the keyword dictionary of a metric call. *)
Abbreviation kwargs := (gmap string pyval).

(** [d[key]] on a dictionary that must hold [key]. *)
Definition getitem (kw : kwargs) (key : string) : result pyval :=
  match kw !! key with
  | Some v => Ok v
  | None => Raise (KeyError key)
  end.

(** ** Sign agreement (EnsoPrJjaTel, second statistic) *)

(** [numpy.sign] *)
Definition NUMPYsign (x : pyfloat) : pyfloat :=
  match x with
  | Fin q => Fin (inject_Z (Z.sgn (Qnum q)))
  | PInf => Fin 1
  | NInf => Fin (-1)
  | NaN => NaN
  end.

(** [==] on floats: a [nan] is equal to nothing. *)
Definition float_eqb (x y : pyfloat) : bool :=
  match x, y with
  | Fin a, Fin b => Qeq_bool a b
  | PInf, PInf | NInf, NInf => true
  | _, _ => false
  end.

(** Unary minus on floats. *)
Definition float_neg (x : pyfloat) : pyfloat :=
  match x with
  | Fin q => Fin (- q)
  | PInf => NInf
  | NInf => PInf
  | NaN => NaN
  end.

(** [sum] of a list of finite floats. *)
Definition py_sum (l : list Q) : Q := foldr Qplus 0%Q l.

(** The list comprehension of lines 4156-4157:
    [[1. for vmod,vobs in zip(list_composite_model,list_composite_obs)
         if NUMPYsign(vmod)==NUMPYsign(vobs)]] *)
Definition agreeing_regions (list_composite_model list_composite_obs : list pyfloat)
  : list Q :=
  (fun _ => 1%Q) <$>
    List.filter (fun p => float_eqb (NUMPYsign (fst p)) (NUMPYsign (snd p)))
      (zip list_composite_model list_composite_obs).

(** [signAgreement = sum([...])/len(list_composite_model)]; dividing by
    the length of an empty list raises [ZeroDivisionError]. *)
Definition signAgreement (list_composite_model list_composite_obs : list pyfloat)
  : result pyfloat :=
  let total := py_sum (agreeing_regions list_composite_model list_composite_obs) in
  match list_composite_model with
  | [] => Raise ZeroDivisionError
  | _ :: _ =>
      Ok (Fin (total / inject_Z (Z.of_nat (length list_composite_model))))
  end.

(** Two composite differences have the same sign, as line 4157 tests it. *)
Definition same_sign (p : pyfloat * pyfloat) : bool :=
  float_eqb (NUMPYsign (fst p)) (NUMPYsign (snd p)).

Definition not_nan (x : pyfloat) : Prop := x <> NaN.
Definition nonzero (x : pyfloat) : Prop := forall q, x = Fin q -> ~ (q == 0)%Q.

(** ** Default keyword values *)

(** Modelled from the spec: [KeyArgLib.DefaultArgValues] is not under
    src/.  The defaults are the ones every metric docstring states
    ("default value is False" for detrending, normalization, regridding
    and smoothing; "default value is None" for frequency, min_time_steps
    and the time bounds) and section 6 of the specification lists. *)
Definition DefaultArgValues (arg : string) : pyval :=
  if bool_decide (arg ∈ ["detrending"; "normalization"; "regridding"; "smoothing"])
  then PyBool false
  else PyNone.

(** The loop that opens every metric function:
[[
    for arg in needed_kwarg:
        try: kwargs[arg]
        except: kwargs[arg] = DefaultArgValues(arg)
]] *)
Definition fill_defaults (needed_kwarg : list string) (kw : kwargs) : kwargs :=
  foldl (fun kw arg =>
           match kw !! arg with
           | Some _ => kw
           | None => <[arg := DefaultArgValues arg]> kw
           end) kw needed_kwarg.

Definition needed_kwarg_regrid : list string :=
  ["detrending"; "frequency"; "min_time_steps"; "normalization"; "regridding";
   "smoothing"; "time_bounds_model"; "time_bounds_obs"].

Definition needed_kwarg_single : list string :=
  ["detrending"; "frequency"; "min_time_steps"; "normalization"; "smoothing";
   "time_bounds"].

Definition needed_kwarg_event : list string :=
  ["detrending"; "frequency"; "min_time_steps"; "normalization"; "smoothing";
   "time_bounds_model"; "time_bounds_obs"].

(** The keys a [regridding] dictionary may hold (lines 240-241). *)
Definition known_args : gset string :=
  list_to_set ["model_orand_obs"; "newgrid"; "missing"; "order"; "mask";
               "newgrid_name"; "regridder"; "regridTool"; "regridMethod"].

(** [set(d)] for a dictionary [d]: its keys. *)
Definition key_set (d : list (string * pyval)) : gset string :=
  list_to_set (d.*1).

(** [sorted(l, key=f)]: a stable sort on the byte order of the keys. *)
Fixpoint insert_by (f : string -> string) (x : string) (l : list string)
  : list string :=
  match l with
  | [] => [x]
  | y :: l' => if String.leb (f x) (f y) then x :: y :: l'
               else y :: insert_by f x l'
  end.

Definition sorted_by (f : string -> string) (l : list string) : list string :=
  foldr (insert_by f) [] l.

Definition ascii_lower (c : ascii) : ascii :=
  let n := nat_of_ascii c in
  if (Nat.leb 65 n && Nat.leb n 90)%bool then ascii_of_nat (n + 32) else c.

Definition ascii_upper (c : ascii) : ascii :=
  let n := nat_of_ascii c in
  if (Nat.leb 97 n && Nat.leb n 122)%bool then ascii_of_nat (n - 32) else c.

Fixpoint string_map (f : ascii -> ascii) (s : string) : string :=
  match s with
  | EmptyString => EmptyString
  | String c s' => String (f c) (string_map f s')
  end.

(** [str.lower] and [str.upper] *)
Definition str_lower : string -> string := string_map ascii_lower.
Definition str_upper : string -> string := string_map ascii_upper.

(** [str().ljust(n)]: [n] blanks. *)
Fixpoint blanks (n : nat) : string :=
  match n with
  | O => ""
  | S n' => " " ++ blanks n'
  end.

(** [seq[i]] on a tuple, a list or a string. *)
Definition getindex (v : pyval) (i : nat) : result pyval :=
  match v with
  | PyTuple l | PyList l =>
      match l !! i with
      | Some x => Ok x
      | None => Raise IndexError
      end
  | PyStr s =>
      match String.get i s with
      | Some c => Ok (PyStr (String c EmptyString))
      | None => Raise IndexError
      end
  | _ => Raise TypeError
  end.

(** [d[key]] on a Python dictionary literal. *)
Definition dict_getitem (d : list (string * pyval)) (key : string) : result pyval :=
  match (list_to_map d : gmap string pyval) !! key with
  | Some v => Ok v
  | None => Raise (KeyError key)
  end.

(** [-x] on a Python number. *)
Definition py_neg (v : pyval) : result pyval :=
  match v with
  | PyInt n => Ok (PyInt (- n))
  | PyBool b => Ok (PyInt (- (if b then 1 else 0)))
  | PyFloat x => Ok (PyFloat (float_neg x))
  | _ => Raise TypeError
  end.

(** A value used where the code concatenates it to a [str]. *)
Definition as_str (v : pyval) : result string :=
  match v with
  | PyStr s => Ok s
  | _ => Raise TypeError
  end.

(** ** The climate-data toolkit *)

(** The functions the metric library imports from [EnsoUvcdatToolsLib],
    [EnsoCollectionsLib], [EnsoErrorsWarnings] and numpy, none of which is
    under src/.  They are the collaborators of section 6 of the
    specification and are kept abstract: arrays are opaque, and only the
    number of time steps of an array ([len(tab)], which is [tab.shape[0]])
    is observed by the metric functions. *)
Class Toolkit : Type := {
  array : Type;
  array_len : array -> Z;
  (* inspect.stack() as seen from inside the named function, and
     EnsoErrorsWarnings.MessageFormating on such a stack *)
  INSPECTstack : string -> string;
  MessageFormating : string -> string;
  (* str() and arithmetic of floats *)
  float_repr : pyfloat -> string;
  float_add : pyfloat -> pyfloat -> pyfloat;
  float_sub : pyfloat -> pyfloat -> pyfloat;
  float_mul : pyfloat -> pyfloat -> pyfloat;
  float_div : pyfloat -> pyfloat -> pyfloat;
  NUMPYsqrt : Z -> pyfloat;
  (* readers: file, variable name, variable family, box, time_bounds, kwargs *)
  ReadSelectRegionCheckUnits :
    pyval -> pyval -> string -> string -> option pyval -> kwargs -> array;
  ReadAreaSelectRegion : pyval -> pyval -> string -> kwargs -> option array;
  ReadLandmaskSelectRegion : pyval -> pyval -> string -> kwargs -> option array;
  MyDerive : pyval -> string -> list (pyval * array) -> array;
  ReferenceRegions : string -> kwargs;
  (* masking *)
  ApplyLandmask : array -> array -> pyval -> pyval -> array;
  ApplyLandmaskToArea : array -> array -> pyval -> pyval -> array;
  ArrayOnes : array -> array;
  (* the common period of two series (the slicing done by CheckTime) *)
  CommonTimePeriod : array -> array -> kwargs -> array * array;
  (* tab, info, areacell, average, compute_anom, compute_sea_cycle, kwargs *)
  PreProcessTS :
    array -> string -> option array -> pyval -> bool -> bool -> kwargs ->
    array * string;
  (* tab1, tab2, info, region, the regridding dictionary *)
  TwoVarRegrid :
    array -> array -> string -> string -> list (string * pyval) ->
    array * array * string;
  TimeBounds : array -> pyval;
  Std : array -> array;
  SeasonalMean : array -> string -> bool -> array;
  AverageZonal : array -> array;
  AverageMeridional : array -> array;
  array_scale : array -> pyfloat -> array;
  array_div_float : array -> pyfloat -> array;
  array_add : array -> array -> array;
  array_sub : array -> array -> array;
  array_mul : array -> array -> array;
  array_div : array -> array -> array;
  NUMPYsquare : array -> array;
  array_float : array -> pyfloat;
  arrayToList : array -> pyval;
  getAxis : array -> Z -> pyval;
  (* tab1, tab2, centered, biased (None when the call leaves it out) *)
  RmsHorizontal : array -> array -> pyval -> option pyval -> pyfloat;
  RmsMeridional : array -> array -> pyval -> option pyval -> pyfloat;
  RmsZonal : array -> array -> pyval -> option pyval -> pyfloat;
  RmsTemporal : array -> array -> pyval -> option pyval -> pyfloat;
  RmsAxis : list pyfloat -> list pyfloat -> pyval -> pyval -> pyfloat;
  (* slope and standard error: all points, sstA > 0, sstA < 0 *)
  LinearRegressionAndNonlinearity :
    array -> array -> (pyfloat * pyfloat) * (pyfloat * pyfloat) * (pyfloat * pyfloat);
  (* tab, season, threshold, normalization, nino *)
  DetectEvents : array -> string -> pyval -> pyval -> bool -> list Z;
  (* tab, event years, frequency, nbr_years_window *)
  Composite : array -> list Z -> pyval -> option pyval -> array
}.

(** The positional arguments that describe one variable of one dataset. *)
Record dataset : Type := {
  file : pyval;
  name : pyval;
  areafile : pyval;
  areaname : pyval;
  landmaskfile : pyval;
  landmaskname : pyval
}.

(** A returned metric dictionary. *)
Abbreviation metric_record := (gmap string pyval).

Definition py_years (l : list Z) : pyval := PyList (PyInt <$> l).
Definition py_floats (l : list pyfloat) : pyval := PyList (PyFloat <$> l).
Definition py_strings (l : list string) : pyval := PyList (PyStr <$> l).
Definition e3 : pyfloat := Fin 1000.

(** ** The metric functions of EnsoMetricsLib.py *)

Section Metrics.
Context `{T : Toolkit}.

(** [str(v)] *)
Definition str_of (v : pyval) : string :=
  match v with
  | PyFloat x => float_repr x
  | _ => py_str v
  end.

(** "Read areacell": the area file when one is given, else the data
    file. *)
Definition read_areacell (d : dataset) (box : string) (kw : kwargs) : option array :=
  if truthy (areafile d) then ReadAreaSelectRegion (areafile d) (areaname d) box kw
  else ReadAreaSelectRegion (file d) (areaname d) box kw.

(** "Read landmask" *)
Definition read_landmask (d : dataset) (box : string) (kw : kwargs) : option array :=
  if truthy (landmaskfile d)
  then ReadLandmaskSelectRegion (landmaskfile d) (landmaskname d) box kw
  else ReadLandmaskSelectRegion (file d) (landmaskname d) box kw.

(** "Apply landmask": when a land mask was found it is applied to the
    data and to the cell areas (an array of ones when there are none). *)
Definition apply_landmask (tab : array) (areacell landmask : option array)
    (maskland maskocean : pyval) : array * option array :=
  match landmask with
  | Some lm =>
      let tab := ApplyLandmask tab lm maskland maskocean in
      let areacell := match areacell with
                      | None => ArrayOnes lm
                      | Some a => a
                      end in
      (tab, Some (ApplyLandmaskToArea areacell lm maskland maskocean))
  | None => (tab, areacell)
  end.

(** The block every metric starts with for each variable: read it in the
    box, read the cell areas and the land mask, mask. *)
Definition read_masked (d : dataset) (varfamily box : string)
    (time_bounds : option pyval) (maskland maskocean : pyval) (kw : kwargs)
  : array * option array :=
  let tab := ReadSelectRegionCheckUnits (file d) (name d) varfamily box time_bounds kw in
  apply_landmask tab (read_areacell d box kw) (read_landmask d box kw)
    maskland maskocean.

(** The two strings handed to [MyError] when a series is too short (for
    instance lines 208-210). *)
Definition too_short_strings (fn which : string) (len : Z) (mini : pyval)
  : list string :=
  ["ERROR " ++ MessageFormating (INSPECTstack fn) ++ ": too short time-period";
   blanks 5 ++ fn ++ ": the " ++ which ++ " time-period is too short: " ++
     pretty len ++ " (minimum time-period: " ++ str_of mini ++ ")"].

(** "checks if the time-period fulfills the minimum length criterion",
    as the two-dataset metrics write it (for instance lines 205-216).
    Modelled from the spec: [EnsoErrorsWarnings.MyError] is not under
    src/; it ends the metric call (section 7: the error is fatal). *)
Definition check_min_time_steps (fn : string) (kw : kwargs)
    (tab_model tab_obs : array) : result unit :=
  min_time_steps ← getitem kw "min_time_steps";
  if isinstance_int min_time_steps then
    let mini := min_time_steps in
    _ ← (if array_len tab_model <? int_value mini
         then Raise (MyError (too_short_strings fn "modeled" (array_len tab_model) mini))
         else Ok ());
    if array_len tab_obs <? int_value mini
    then Raise (MyError (too_short_strings fn "observed" (array_len tab_obs) mini))
    else Ok ()
  else Ok ().

(** The same check in the single-dataset metrics (lines 3534-3536 and
    4293-4296).  Modelled from the spec:
    [EnsoErrorsWarnings.TooShortTimePeriod] is not under src/; it raises
    the too-short error for the metric, the length and the minimum it is
    given (section 4.1, Failure). *)
Definition check_min_time_steps_single (fn : string) (kw : kwargs) (tab : array)
  : result unit :=
  min_time_steps ← getitem kw "min_time_steps";
  if isinstance_int min_time_steps then
    if array_len tab <? int_value min_time_steps
    then Raise (TooShortTimePeriod fn (array_len tab) min_time_steps (INSPECTstack fn))
    else Ok ()
  else Ok ().

(** Modelled from the spec: [EnsoUvcdatToolsLib.CheckTime] is not under
    src/.  Its call sites say it "checks if the same time period is used
    for both variables and if the minimum number of time steps is
    respected"; section 4.1 (Failure) and section 7 say a series shorter
    than an integer [min_time_steps] raises the too-short error naming
    the metric, the actual length and the required minimum. *)
Definition CheckTime (tab1 tab2 : array) (metric_name : string) (kw : kwargs)
  : result (array * array) :=
  let sliced := CommonTimePeriod tab1 tab2 kw in
  _ ← check_min_time_steps_single metric_name kw (fst sliced);
  Ok sliced.

(** "Regridding" (for instance lines 239-245).  Modelled from the spec:
    [EnsoErrorsWarnings.UnknownKeyArg] is not under src/; it ends the
    metric call, reporting the offending keys (section 7). *)
Definition regrid_step (fn : string) (regridding : pyval)
    (tab_model tab_obs : array) (Method box : string)
  : result (array * array * string) :=
  match regridding with
  | PyDict d =>
      let extra_args := key_set d ∖ known_args in
      if bool_decide (extra_args ≠ ∅)
      then Raise (UnknownKeyArg extra_args (INSPECTstack fn))
      else Ok (TwoVarRegrid tab_model tab_obs Method box d)
  | _ => Ok (tab_model, tab_obs, Method)
  end.

(** [tab.shape[0] / 12] *)
Definition years_of (tab : array) : pyval := PyInt (array_len tab / 12).

(** What a two-dataset metric holds when it reaches the length check:
    the masked model and observed series and their cell areas. *)
Record selection : Type := {
  tab_model : array;
  model_areacell : option array;
  tab_obs : array;
  obs_areacell : option array
}.

(** "Read file and select the right region", "Read areacell", "Read
    landmask", "Apply landmask" for the model and the observations, in
    the box and the time bounds [kwargs] asks for. *)
Definition select_two (model obs : dataset) (varfamily box : string)
    (maskland maskocean : pyval) (kw : kwargs) : result selection :=
  time_bounds_model ← getitem kw "time_bounds_model";
  time_bounds_obs ← getitem kw "time_bounds_obs";
  let '(tab_model, model_areacell) :=
    read_masked model varfamily box (Some time_bounds_model) maskland maskocean kw in
  let '(tab_obs, obs_areacell) :=
    read_masked obs varfamily box (Some time_bounds_obs) maskland maskocean kw in
  Ok {| tab_model := tab_model; model_areacell := model_areacell;
        tab_obs := tab_obs; obs_areacell := obs_areacell |}.

(** *** Bias*Rmse and Seasonal*Rmse *)

Inductive rms_axis : Type := Horizontal | Meridional | Zonal.

(** What distinguishes the thirteen two-dataset RMSE metrics from one
    another. *)
Record rmse_descr : Type := {
  rd_fn : string;              (* the Python function *)
  rd_Name : string;
  rd_Units : string;
  rd_method_head : string;     (* Method = head + box + tail *)
  rd_method_tail : string;
  rd_varfamily : string;
  rd_seasonal : bool;          (* Seasonal*: seasonal cycle, then Std *)
  rd_axis : rms_axis;          (* Lat: zonal mean, RmsMeridional; ... *)
  rd_biased : bool;            (* biased=biased_rmse is passed *)
  rd_e3_arrays : bool;         (* the averaged arrays are multiplied by 1e3 *)
  rd_e3_rmse : bool            (* the rmse is multiplied by 1e3 *)
}.

Definition Ref_regrid_rms : string :=
  "Using CDAT regridding and rms (uncentered and biased) calculation".

(** The function from "Number of years" to its [return]. *)
Definition rmse_compute (d : rmse_descr) (sel : selection) (box : string)
    (centered_rmse biased_rmse : pyval) (kw : kwargs) : result metric_record :=
  let '{| tab_model := tab_model; model_areacell := model_areacell;
          tab_obs := tab_obs; obs_areacell := obs_areacell |} := sel in
  (* Define metric attributes *)
  let Method := rd_method_head d ++ box ++ rd_method_tail d in
  (* Number of years, time period *)
  let yearN_model := years_of tab_model in
  let yearN_obs := years_of tab_obs in
  let actualtimeboundsmodel := TimeBounds tab_model in
  let actualtimeboundsobs := TimeBounds tab_obs in
  (* Preprocess variables *)
  let '(tab_model, Method) :=
    if rd_seasonal d
    then PreProcessTS tab_model Method None (PyBool false) false true kw
    else PreProcessTS tab_model Method model_areacell (PyStr "time") false false kw in
  let '(tab_obs, unneeded) :=
    if rd_seasonal d
    then PreProcessTS tab_obs "" None (PyBool false) false true kw
    else PreProcessTS tab_obs "" obs_areacell (PyStr "time") false false kw in
  (* standard deviation computation *)
  let tab_model := if rd_seasonal d then Std tab_model else tab_model in
  let tab_obs := if rd_seasonal d then Std tab_obs else tab_obs in
  (* Regridding *)
  regridding ← getitem kw "regridding";
  '(tab_model, tab_obs, Method) ←
    regrid_step (rd_fn d) regridding tab_model tab_obs Method box;
  (* Zonal or meridional average *)
  let average tab :=
    let tab := match rd_axis d with
               | Horizontal => tab
               | Meridional => AverageZonal tab
               | Zonal => AverageMeridional tab
               end in
    if rd_e3_arrays d then array_scale tab e3 else tab in
  let tab_model := average tab_model in
  let tab_obs := average tab_obs in
  (* Computes the root mean square difference *)
  let biased := if rd_biased d then Some biased_rmse else None in
  let rmse := match rd_axis d with
              | Horizontal => RmsHorizontal tab_model tab_obs centered_rmse biased
              | Meridional => RmsMeridional tab_model tab_obs centered_rmse biased
              | Zonal => RmsZonal tab_model tab_obs centered_rmse biased
              end in
  let rmse := if rd_e3_rmse d then float_mul rmse e3 else rmse in
  (* Dive down diagnostic *)
  let dive_down_diag :=
    match rd_axis d with
    | Horizontal =>
        PyDict [("model", arrayToList tab_model);
                ("observations", arrayToList tab_obs);
                ("axisLat", getAxis tab_model 0); ("axisLon", getAxis tab_model 1)]
    | _ =>
        PyDict [("model", arrayToList tab_model);
                ("observations", arrayToList tab_obs);
                ("axis", getAxis tab_model 0)]
    end in
  (* Create output *)
  frequency ← getitem kw "frequency";
  Ok (list_to_map
        [("name", PyStr (rd_Name d)); ("value", PyFloat rmse); ("value_error", PyNone);
         ("units", PyStr (rd_Units d)); ("method", PyStr Method);
         ("nyears_model", yearN_model); ("nyears_observations", yearN_obs);
         ("time_frequency", frequency);
         ("time_period_model", actualtimeboundsmodel);
         ("time_period_observations", actualtimeboundsobs);
         ("ref", PyStr Ref_regrid_rms); ("dive_down_diag", dive_down_diag)]).

Definition rmse_metric (d : rmse_descr) (model obs : dataset) (box : string)
    (centered_rmse biased_rmse : pyval) (kwargs0 : kwargs)
  : result metric_record :=
  (* test given kwargs *)
  let kw := fill_defaults needed_kwarg_regrid kwargs0 in
  (* Read file and select the right region, areacell, landmask *)
  sel ← select_two model obs (rd_varfamily d) box (PyBool true) (PyBool false) kw;
  (* checks if the time-period fulfills the minimum length criterion *)
  _ ← check_min_time_steps (rd_fn d) kw (tab_model sel) (tab_obs sel);
  rmse_compute d sel box centered_rmse biased_rmse kw.

Definition BiasSstRmse_descr : rmse_descr :=
  {| rd_fn := "BiasSstRmse"; rd_Name := "ENSO RMSE"; rd_Units := "C";
     rd_method_head := "Spatial root mean square error of ";
     rd_method_tail := " sst"; rd_varfamily := "temperature";
     rd_seasonal := false; rd_axis := Horizontal; rd_biased := true;
     rd_e3_arrays := false; rd_e3_rmse := false |}.
Definition BiasSstRmse := rmse_metric BiasSstRmse_descr.

Definition BiasSstLatRmse_descr : rmse_descr :=
  {| rd_fn := "BiasSstLatRmse"; rd_Name := "ENSO Meridional RMSE"; rd_Units := "C";
     rd_method_head := "Meridional root mean square error of ";
     rd_method_tail := " sst"; rd_varfamily := "temperature";
     rd_seasonal := false; rd_axis := Meridional; rd_biased := false;
     rd_e3_arrays := false; rd_e3_rmse := false |}.
Definition BiasSstLatRmse := rmse_metric BiasSstLatRmse_descr.

Definition BiasSstLonRmse_descr : rmse_descr :=
  {| rd_fn := "BiasSstLonRmse"; rd_Name := "ENSO Zonal RMSE"; rd_Units := "C";
     rd_method_head := "Zonal root mean square error of ";
     rd_method_tail := " sst"; rd_varfamily := "temperature";
     rd_seasonal := false; rd_axis := Zonal; rd_biased := true;
     rd_e3_arrays := false; rd_e3_rmse := false |}.
Definition BiasSstLonRmse := rmse_metric BiasSstLonRmse_descr.

Definition BiasPrRmse_descr : rmse_descr :=
  {| rd_fn := "BiasPrRmse"; rd_Name := "ENSO Pr RMSE"; rd_Units := "mm/day";
     rd_method_head := "Spatial root mean square error of ";
     rd_method_tail := " Pr"; rd_varfamily := "precipitations";
     rd_seasonal := false; rd_axis := Horizontal; rd_biased := true;
     rd_e3_arrays := false; rd_e3_rmse := false |}.
Definition BiasPrRmse := rmse_metric BiasPrRmse_descr.

Definition BiasPrLatRmse_descr : rmse_descr :=
  {| rd_fn := "BiasPrLatRmse"; rd_Name := "ENSO Pr Meridional RMSE"; rd_Units := "mm/day";
     rd_method_head := "Meridional root mean square error of ";
     rd_method_tail := " Pr"; rd_varfamily := "precipitations";
     rd_seasonal := false; rd_axis := Meridional; rd_biased := true;
     rd_e3_arrays := false; rd_e3_rmse := false |}.
Definition BiasPrLatRmse := rmse_metric BiasPrLatRmse_descr.

Definition BiasPrLonRmse_descr : rmse_descr :=
  {| rd_fn := "BiasPrLonRmse"; rd_Name := "ENSO Pr Zonal RMSE"; rd_Units := "mm/day";
     rd_method_head := "Zonal root mean square error of ";
     rd_method_tail := " Pr"; rd_varfamily := "precipitations";
     rd_seasonal := false; rd_axis := Zonal; rd_biased := true;
     rd_e3_arrays := false; rd_e3_rmse := false |}.
Definition BiasPrLonRmse := rmse_metric BiasPrLonRmse_descr.

Definition BiasTauxRmse_descr : rmse_descr :=
  {| rd_fn := "BiasTauxRmse"; rd_Name := "ENSO Taux RMSE"; rd_Units := "1e-3 N/m2";
     rd_method_head := "Spatial root mean square error of ";
     rd_method_tail := " Taux"; rd_varfamily := "wind stress";
     rd_seasonal := false; rd_axis := Horizontal; rd_biased := true;
     rd_e3_arrays := false; rd_e3_rmse := true |}.
Definition BiasTauxRmse := rmse_metric BiasTauxRmse_descr.

Definition BiasTauxLatRmse_descr : rmse_descr :=
  {| rd_fn := "BiasTauxLatRmse"; rd_Name := "ENSO Taux Meridional RMSE"; rd_Units := "1e-3 N/m2";
     rd_method_head := "Meridional root mean square error of ";
     rd_method_tail := " Taux"; rd_varfamily := "wind stress";
     rd_seasonal := false; rd_axis := Meridional; rd_biased := true;
     rd_e3_arrays := true; rd_e3_rmse := false |}.
Definition BiasTauxLatRmse := rmse_metric BiasTauxLatRmse_descr.

Definition BiasTauxLonRmse_descr : rmse_descr :=
  {| rd_fn := "BiasTauxLonRmse"; rd_Name := "ENSO Taux Zonal RMSE"; rd_Units := "1e-3 N/m2";
     rd_method_head := "Zonal root mean square error of ";
     rd_method_tail := " Taux"; rd_varfamily := "wind stress";
     rd_seasonal := false; rd_axis := Zonal; rd_biased := true;
     rd_e3_arrays := true; rd_e3_rmse := false |}.
Definition BiasTauxLonRmse := rmse_metric BiasTauxLonRmse_descr.

Definition SeasonalPrLatRmse_descr : rmse_descr :=
  {| rd_fn := "SeasonalPrLatRmse"; rd_Name := "PR meridional seasonality RMSE"; rd_Units := "mm/day";
     rd_method_head := "Meridional root mean square error of ";
     rd_method_tail := " climatological pr STD"; rd_varfamily := "precipitations";
     rd_seasonal := true; rd_axis := Meridional; rd_biased := true;
     rd_e3_arrays := false; rd_e3_rmse := false |}.
Definition SeasonalPrLatRmse := rmse_metric SeasonalPrLatRmse_descr.

Definition SeasonalPrLonRmse_descr : rmse_descr :=
  {| rd_fn := "SeasonalPrLonRmse"; rd_Name := "PR zonal seasonality RMSE"; rd_Units := "mm/day";
     rd_method_head := "Zonal root mean square error of ";
     rd_method_tail := " climatological pr STD"; rd_varfamily := "precipitations";
     rd_seasonal := true; rd_axis := Zonal; rd_biased := true;
     rd_e3_arrays := false; rd_e3_rmse := false |}.
Definition SeasonalPrLonRmse := rmse_metric SeasonalPrLonRmse_descr.

Definition SeasonalSstLatRmse_descr : rmse_descr :=
  {| rd_fn := "SeasonalSstLatRmse"; rd_Name := "SST meridional seasonality RMSE"; rd_Units := "C";
     rd_method_head := "Meridional root mean square error of ";
     rd_method_tail := " climatological sst STD"; rd_varfamily := "temperature";
     rd_seasonal := true; rd_axis := Meridional; rd_biased := true;
     rd_e3_arrays := false; rd_e3_rmse := false |}.
Definition SeasonalSstLatRmse := rmse_metric SeasonalSstLatRmse_descr.

Definition SeasonalSstLonRmse_descr : rmse_descr :=
  {| rd_fn := "SeasonalSstLonRmse"; rd_Name := "SST zonal seasonality RMSE"; rd_Units := "C";
     rd_method_head := "Zonal root mean square error of ";
     rd_method_tail := " climatological sst STD"; rd_varfamily := "temperature";
     rd_seasonal := true; rd_axis := Zonal; rd_biased := true;
     rd_e3_arrays := false; rd_e3_rmse := false |}.
Definition SeasonalSstLonRmse := rmse_metric SeasonalSstLonRmse_descr.


(** *** EnsoAlpha* and EnsoMu: feedback regressions *)

Record feedback_descr : Type := {
  fd_fn : string;
  fd_Name : string;
  fd_Units : string;
  fd_var : string;             (* lhf, lwr, shf, swr, thf, taux *)
  fd_varfamily : string;
  fd_derived : bool;           (* the flux may be derived from several files *)
  fd_e3 : bool                 (* EnsoMu: slopes and errors times 1e3 *)
}.

(** [for ii in range(len(files)): dict_var[names[ii]] = Read(files[ii], ...)] *)
Fixpoint read_each (files : list pyval) (names : pyval) (ii : nat)
    (box : string) (kw : kwargs) : result (list (pyval * array)) :=
  match files with
  | [] => Ok []
  | filename :: files' =>
      varname ← getindex names ii;
      rest ← read_each files' names (S ii) box kw;
      Ok ((varname, ReadSelectRegionCheckUnits filename varname "heat flux" box None kw)
            :: rest)
  end.

(** The loop of lines 2630-2633: the first file that gives something
    other than [None]; [last] is what the variable holds so far (it is
    unbound, a [NameError] at its first use, before the first turn). *)
Fixpoint read_first (files : list pyval) (names : pyval) (ii : nat)
    (box : string) (kw : kwargs) (last : result (option array))
  : result (option array) :=
  match files with
  | [] => last
  | filename :: files' =>
      areaname ← getindex names ii;
      match ReadAreaSelectRegion filename areaname box kw with
      | Some a => Ok (Some a)
      | None => read_first files' names (S ii) box kw (Ok None)
      end
  end.

(** Lines 2626-2641 and 2659-2675: cell areas and land mask of a flux
    that may come from several files; both are read with
    [ReadAreaSelectRegion]. *)
Definition read_area_of (files names : pyval) (box : string) (kw : kwargs)
  : result (option array) :=
  match files with
  | PyStr _ => Ok (ReadAreaSelectRegion files names box kw)
  | PyList fs | PyTuple fs => read_first fs names 0 box kw (Raise NameError)
  | _ => Raise TypeError
  end.

(** The flux of a feedback metric: the series, its cell areas, its land
    mask. *)
Definition read_flux (d : feedback_descr) (flux : dataset) (box : string)
    (kw : kwargs) : result (array * option array * option array) :=
  if fd_derived d then
    dict_var ← match file flux with
               | PyStr _ =>
                   Ok [(name flux,
                        ReadSelectRegionCheckUnits (file flux) (name flux)
                          "heat flux" box None kw)]
               | PyList fs | PyTuple fs => read_each fs (name flux) 0 box kw
               | _ => Raise TypeError
               end;
    interpreter ← getitem kw "project_interpreter_var2";
    let tab := MyDerive interpreter (fd_var d) dict_var in
    areacell ← (if truthy (areafile flux)
                then read_area_of (areafile flux) (areaname flux) box kw
                else read_area_of (file flux) (areaname flux) box kw);
    landmask ← (if truthy (landmaskfile flux)
                then read_area_of (landmaskfile flux) (landmaskname flux) box kw
                else read_area_of (file flux) (landmaskname flux) box kw);
    Ok (tab, areacell, landmask)
  else
    Ok (ReadSelectRegionCheckUnits (file flux) (name flux) (fd_varfamily d) box None kw,
        read_areacell flux box kw, read_landmask flux box kw).

Definition Method_NL : string :=
  "The nonlinearity is the regression computed when sstA<0 minus the regression computed when sstA>0".

(** Reading and masking of the two variables of a feedback metric: the
    SST series and areas, the flux series and areas. *)
Definition feedback_select (d : feedback_descr) (sst : dataset) (sstbox : string)
    (flux : dataset) (fluxbox : string) (kw : kwargs)
  : result (array * option array * array * option array) :=
  let tab_sst := ReadSelectRegionCheckUnits (file sst) (name sst) "temperature"
                   sstbox None kw in
  '(tab_flux, flux_areacell, flux_landmask) ← read_flux d flux fluxbox kw;
  (* Apply landmask *)
  let '(tab_sst, sst_areacell) :=
    apply_landmask tab_sst (read_areacell sst sstbox kw) (read_landmask sst sstbox kw)
      (PyBool true) (PyBool false) in
  let '(tab_flux, flux_areacell) :=
    apply_landmask tab_flux flux_areacell flux_landmask (PyBool true) (PyBool false) in
  Ok (tab_sst, sst_areacell, tab_flux, flux_areacell).

(** The function from "Number of years" to its [return], on the two
    series [CheckTime] gives back. *)
Definition feedback_compute (d : feedback_descr) (sstbox fluxbox : string)
    (tab_sst : array) (sst_areacell : option array)
    (tab_flux : array) (flux_areacell : option array) (kw : kwargs)
  : result metric_record :=
  (* Define metric attributes *)
  let Method := "Regression of " ++ fluxbox ++ " " ++ fd_var d ++ "A over " ++
                sstbox ++ " sstA" in
  (* Number of years, time period *)
  let yearN := years_of tab_sst in
  let actualtimebounds := TimeBounds tab_sst in
  (* Preprocess variables *)
  let '(tab_sst, Method) :=
    PreProcessTS tab_sst Method sst_areacell (PyStr "horizontal") true false kw in
  let '(tab_flux, unneeded) :=
    PreProcessTS tab_flux "" flux_areacell (PyStr "horizontal") true false kw in
  (* linear regression for all points, for SSTA >=0 and for SSTA<=0 *)
  let '(alpha, alphaPos, alphaNeg) := LinearRegressionAndNonlinearity tab_flux tab_sst in
  (* Change units *)
  let scale (p : pyfloat * pyfloat) :=
    if fd_e3 d then (float_mul (fst p) e3, float_mul (snd p) e3) else p in
  let alpha := scale alpha in
  let alphaPos := scale alphaPos in
  let alphaNeg := scale alphaNeg in
  (* Create output *)
  frequency ← getitem kw "frequency";
  Ok (list_to_map
        [("name", PyStr (fd_Name d)); ("value", PyFloat (fst alpha));
         ("value_error", PyFloat (snd alpha)); ("units", PyStr (fd_Units d));
         ("method", PyStr Method); ("method_nonlinearity", PyStr Method_NL);
         ("nyears", yearN); ("time_frequency", frequency);
         ("time_period", actualtimebounds);
         ("ref", PyStr "Using CDAT regression calculation");
         ("nonlinearity", PyFloat (float_sub (fst alphaNeg) (fst alphaPos)));
         ("nonlinearity_error", PyFloat (float_add (snd alphaNeg) (snd alphaPos)))]).

Definition feedback_metric (d : feedback_descr) (sst : dataset) (sstbox : string)
    (flux : dataset) (fluxbox : string) (kwargs0 : kwargs)
  : result metric_record :=
  (* test given kwargs *)
  let kw := fill_defaults needed_kwarg_single kwargs0 in
  (* Read file and select the right region, areacell, landmask *)
  '(tab_sst, sst_areacell, tab_flux, flux_areacell) ←
    feedback_select d sst sstbox flux fluxbox kw;
  (* same time period for both variables, minimum number of time steps *)
  '(tab_sst, tab_flux) ← CheckTime tab_sst tab_flux (fd_fn d) kw;
  feedback_compute d sstbox fluxbox tab_sst sst_areacell tab_flux flux_areacell kw.

Definition EnsoAlphaLhf_descr : feedback_descr :=
  {| fd_fn := "EnsoAlphaLhf"; fd_Name := "Latent feedback (alpha_lh)";
     fd_Units := "W/m2/C"; fd_var := "lhf"; fd_varfamily := "heat flux";
     fd_derived := false; fd_e3 := false |}.
Definition EnsoAlphaLhf := feedback_metric EnsoAlphaLhf_descr.

Definition EnsoAlphaLwr_descr : feedback_descr :=
  {| fd_fn := "EnsoAlphaLwr"; fd_Name := "Longwave feedback (alpha_lwr)";
     fd_Units := "W/m2/C"; fd_var := "lwr"; fd_varfamily := "heat flux";
     fd_derived := true; fd_e3 := false |}.
Definition EnsoAlphaLwr := feedback_metric EnsoAlphaLwr_descr.

Definition EnsoAlphaShf_descr : feedback_descr :=
  {| fd_fn := "EnsoAlphaShf"; fd_Name := "Sensible feedback (alpha_sh)";
     fd_Units := "W/m2/C"; fd_var := "shf"; fd_varfamily := "heat flux";
     fd_derived := false; fd_e3 := false |}.
Definition EnsoAlphaShf := feedback_metric EnsoAlphaShf_descr.

Definition EnsoAlphaSwr_descr : feedback_descr :=
  {| fd_fn := "EnsoAlphaSwr"; fd_Name := "Shortwave feedback (alpha_swr)";
     fd_Units := "W/m2/C"; fd_var := "swr"; fd_varfamily := "heat flux";
     fd_derived := true; fd_e3 := false |}.
Definition EnsoAlphaSwr := feedback_metric EnsoAlphaSwr_descr.

Definition EnsoAlphaThf_descr : feedback_descr :=
  {| fd_fn := "EnsoAlphaThf"; fd_Name := "Heat flux feedback (alpha)";
     fd_Units := "W/m2/C"; fd_var := "thf"; fd_varfamily := "heat flux";
     fd_derived := true; fd_e3 := false |}.
Definition EnsoAlphaThf := feedback_metric EnsoAlphaThf_descr.

Definition EnsoMu_descr : feedback_descr :=
  {| fd_fn := "EnsoMu"; fd_Name := "Bjerknes feedback (mu)";
     fd_Units := "10e-3 N/m2/C"; fd_var := "taux"; fd_varfamily := "wind stress";
     fd_derived := false; fd_e3 := true |}.
Definition EnsoMu := feedback_metric EnsoMu_descr.

(** *** EnsoAmpl and EnsoSeasonality *)

Definition EnsoAmpl_compute (sstbox : string) (tab : array)
    (sst_areacell : option array) (kw : kwargs) : result metric_record :=
  let Method := "Standard deviation of " ++ sstbox ++ " sstA" in
  let yearN := array_len tab / 12 in
  let actualtimebounds := TimeBounds tab in
  let '(tab, Method) :=
    PreProcessTS tab Method sst_areacell (PyStr "horizontal") true false kw in
  (* Computes the standard deviation and its standard error *)
  let sstStd := array_float (Std tab) in
  let sstStdErr := float_div sstStd (NUMPYsqrt yearN) in
  frequency ← getitem kw "frequency";
  Ok (list_to_map
        [("name", PyStr "ENSO amplitude"); ("value", PyFloat sstStd);
         ("value_error", PyFloat sstStdErr); ("units", PyStr "C");
         ("method", PyStr Method); ("nyears", PyInt yearN);
         ("time_frequency", frequency); ("time_period", actualtimebounds);
         ("ref", PyStr "Using CDAT regression calculation")]).

Definition EnsoAmpl (sst : dataset) (sstbox : string) (kwargs0 : kwargs)
  : result metric_record :=
  (* test given kwargs *)
  let kw := fill_defaults needed_kwarg_single kwargs0 in
  (* Read file and select the right region, areacell, landmask *)
  let '(tab, sst_areacell) :=
    read_masked sst "temperature" sstbox None (PyBool true) (PyBool false) kw in
  (* checks if the time-period fulfills the minimum length criterion *)
  _ ← check_min_time_steps_single "EnsoAmpl" kw tab;
  EnsoAmpl_compute sstbox tab sst_areacell kw.

Definition EnsoSeasonality_compute (sstbox : string) (tab : array)
    (sst_areacell : option array) (kw : kwargs) : result metric_record :=
  let Method := "Ratio between NDJ and MAM standard deviation " ++ sstbox ++ " sstA" in
  let yearN := array_len tab / 12 in
  let actualtimebounds := TimeBounds tab in
  let '(tab, Method) :=
    PreProcessTS tab Method sst_areacell (PyStr "horizontal") false false kw in
  (* Seasonal mean, std dev and ratio *)
  let sst_NDJ_std := Std (SeasonalMean tab "NDJ" true) in
  let sst_MAM_std := Std (SeasonalMean tab "MAM" true) in
  let ratioStd := array_float (array_div sst_NDJ_std sst_MAM_std) in
  (* Standard Error of the Standard Deviation (function of nyears) *)
  let sst_NDJ_std_err := array_div_float sst_NDJ_std (NUMPYsqrt (yearN - 1)) in
  let sst_MAM_std_err := array_div_float sst_MAM_std (NUMPYsqrt yearN) in
  let ratio_std_err :=
    array_float
      (array_div (array_add (array_mul sst_MAM_std sst_NDJ_std_err)
                            (array_mul sst_NDJ_std sst_MAM_std_err))
                 (NUMPYsquare sst_MAM_std)) in
  frequency ← getitem kw "frequency";
  Ok (list_to_map
        [("name", PyStr "ENSO seasonality"); ("value", PyFloat ratioStd);
         ("value_error", PyFloat ratio_std_err); ("units", PyStr "");
         ("method", PyStr Method); ("nyears", PyInt yearN);
         ("time_frequency", frequency); ("time_period", actualtimebounds);
         ("ref", PyStr "Using CDAT std dev calculation")]).

Definition EnsoSeasonality (sst : dataset) (sstbox : string) (kwargs0 : kwargs)
  : result metric_record :=
  (* test given kwargs *)
  let kw := fill_defaults needed_kwarg_single kwargs0 in
  (* Read file and select the right region, areacell, landmask *)
  let '(tab, sst_areacell) :=
    read_masked sst "temperature" sstbox None (PyBool true) (PyBool false) kw in
  (* checks if the time-period fulfills the minimum length criterion *)
  _ ← check_min_time_steps_single "EnsoSeasonality" kw tab;
  EnsoSeasonality_compute sstbox tab sst_areacell kw.


(** *** Metrics built on ENSO events *)

(** "setting variables": the three entries of [event_definition]. *)
Definition setting_variables (event_definition : list (string * pyval))
  : result (pyval * pyval * pyval) :=
  region_ev ← dict_getitem event_definition "region_ev";
  season_ev ← dict_getitem event_definition "season_ev";
  threshold ← dict_getitem event_definition "threshold";
  Ok (region_ev, season_ev, threshold).

(** A loop over a list whose body may raise. *)
Fixpoint for_each {A S : Type} (body : S -> A -> result S) (l : list A) (st : S)
  : result S :=
  match l with
  | [] => Ok st
  | x :: l' => st' ← body st x; for_each body l' st'
  end.

(** The attributes an event metric defines before it reads anything:
    the event definition as strings, [Method], [Units], and the
    normalization flag. *)
Record event_setup : Type := {
  ev_region : string;
  ev_season : string;
  ev_threshold : pyval;
  ev_Method : string;
  ev_Units : string;
  ev_normalization : pyval
}.

(** **** EnsoPrJjaTel *)

(** "Define metric attributes" (lines 3900-3909). *)
Definition EnsoPrJjaTel_attributes (region_ev season_ev threshold : pyval)
    (kw : kwargs) : result event_setup :=
  region_ev ← as_str region_ev;
  season_ev ← as_str season_ev;
  let Method :=
    "Nino events = " ++ region_ev ++ " sstA > " ++ str_of threshold ++
    ", Nina events = " ++ region_ev ++ " sstA < -" ++ str_of threshold ++
    " during " ++ season_ev ++ "; Precipitations associated with El Nino/La Nina" ++
    "events during the preceding JJA are composited and the difference (El Niño PR - La Niña PR) is" ++
    "computed in each region" in
  normalization ← getitem kw "normalization";
  Ok {| ev_region := region_ev; ev_season := season_ev; ev_threshold := threshold;
        ev_Method := Method;
        ev_Units := if truthy normalization then "" else "mm/day";
        ev_normalization := normalization |}.

(** One turn of the loop over the precipitation regions (lines
    4046-4147): the state is [Method] and the two lists of composite
    differences. *)
Definition pr_region (pr_model pr_obs : dataset)
    (nina_years_model nino_years_model nina_years_obs nino_years_obs : list Z)
    (kw : kwargs) (st : string * list pyfloat * list pyfloat) (reg : string)
  : result (string * list pyfloat * list pyfloat) :=
  let '(Method, list_composite_model, list_composite_obs) := st in
  (* land region, oceanic region, or both *)
  let dict_reg := ReferenceRegions reg in
  let maskland := default (PyBool false) (dict_reg !! "maskland") in
  let maskocean := default (PyBool false) (dict_reg !! "maskocean") in
  (* Read file and select the right region, areacell, landmask *)
  sel ← select_two pr_model pr_obs "precipitations" reg maskland maskocean kw;
  (* Preprocess *)
  let '(tab_model, Method) :=
    PreProcessTS (tab_model sel) Method (model_areacell sel) (PyStr "horizontal")
      false false kw in
  let '(tab_obs, unneeded) :=
    PreProcessTS (tab_obs sel) "" (obs_areacell sel) (PyStr "horizontal")
      false false kw in
  (* Seasonal mean *)
  let tab_model := SeasonalMean tab_model "JJA" false in
  let tab_obs := SeasonalMean tab_obs "JJA" false in
  (* composites *)
  frequency ← getitem kw "frequency";
  let composite_nina_model := Composite tab_model nina_years_model frequency None in
  let composite_nino_model := Composite tab_model nino_years_model frequency None in
  let composite_nina_obs := Composite tab_obs nina_years_obs frequency None in
  let composite_nino_obs := Composite tab_obs nino_years_obs frequency None in
  (* list composites *)
  Ok (Method,
      (list_composite_model ++
         [array_float (array_sub composite_nino_model composite_nina_model)])%list,
      (list_composite_obs ++
         [array_float (array_sub composite_nino_obs composite_nina_obs)])%list).

(** [if not isinstance(prbox, list): prbox = [prbox]], then
    [sorted(prbox, key=str.lower)]. *)
Definition sorted_prbox (prbox : pyval) : result (list string) :=
  let prbox := match prbox with
               | PyList l => l
               | _ => [prbox]
               end in
  prbox ← mapM as_str prbox;
  Ok (sorted_by str_lower prbox).

(** The composite phase (lines 4038-4150), on the event years found: it
    runs on a [kwargs] whose smoothing entry is [False], and hands back
    [Method], the two lists and the [kwargs] with the entry restored. *)
Definition EnsoPrJjaTel_composites (pr_model pr_obs : dataset) (prbox : list string)
    (nina_years_model nino_years_model nina_years_obs nino_years_obs : list Z)
    (Method : string) (kw : kwargs)
  : result (string * list pyfloat * list pyfloat * kwargs) :=
  (* smoothing is not applied *)
  let smooth := kw !! "smoothing" in
  let kw := match smooth with
            | Some _ => <["smoothing" := PyBool false]> kw
            | None => kw
            end in
  '(Method, list_composite_model, list_composite_obs) ←
    for_each (pr_region pr_model pr_obs nina_years_model nino_years_model
                nina_years_obs nino_years_obs kw) prbox (Method, [], []);
  kw ← match kw !! "smoothing", smooth with
       | Some _, Some v => Ok (<["smoothing" := v]> kw)
       | Some _, None => Raise NameError
       | None, _ => Ok kw
       end;
  Ok (Method, list_composite_model, list_composite_obs, kw).

(** The function from "Number of years" to its [return]; with the metric
    comes the [kwargs] dictionary as the function leaves it. *)
Definition EnsoPrJjaTel_compute (ev : event_setup) (sel : selection)
    (pr_model pr_obs : dataset) (prbox : pyval)
    (centered_rmse biased_rmse : pyval) (kw : kwargs)
  : result (metric_record * kwargs) :=
  let yearN_model := years_of (tab_model sel) in
  let yearN_obs := years_of (tab_obs sel) in
  let actualtimeboundsmodel := TimeBounds (tab_model sel) in
  let actualtimeboundsobs := TimeBounds (tab_obs sel) in
  (* Preprocess sst *)
  let '(sst_model, unneeded) :=
    PreProcessTS (tab_model sel) "" (model_areacell sel) (PyStr "horizontal")
      true false kw in
  let '(sst_obs, unneeded) :=
    PreProcessTS (tab_obs sel) "" (obs_areacell sel) (PyStr "horizontal")
      true false kw in
  (* Lists event years *)
  minus_threshold ← py_neg (ev_threshold ev);
  let nina_years_model :=
    DetectEvents sst_model (ev_season ev) minus_threshold (ev_normalization ev) false in
  let nino_years_model :=
    DetectEvents sst_model (ev_season ev) (ev_threshold ev) (ev_normalization ev) true in
  let nina_years_obs :=
    DetectEvents sst_obs (ev_season ev) minus_threshold (ev_normalization ev) false in
  let nino_years_obs :=
    DetectEvents sst_obs (ev_season ev) (ev_threshold ev) (ev_normalization ev) true in
  (* compute composite *)
  prbox ← sorted_prbox prbox;
  '(Method, list_composite_model, list_composite_obs, kw) ←
    EnsoPrJjaTel_composites pr_model pr_obs prbox nina_years_model nino_years_model
      nina_years_obs nino_years_obs (ev_Method ev) kw;
  (* Computes the root mean square difference *)
  let compositeRmse :=
    RmsAxis list_composite_model list_composite_obs centered_rmse biased_rmse in
  (* regions where observations and model agree on the sign *)
  signAgreement ← signAgreement list_composite_model list_composite_obs;
  (* Dive down diagnostic *)
  let dive_down_diag :=
    PyDict [("model", py_floats list_composite_model);
            ("observations", py_floats list_composite_obs);
            ("axis", py_strings prbox)] in
  (* Create output *)
  frequency ← getitem kw "frequency";
  Ok (list_to_map
        [("name", PyStr "Nino composite minus Nina composite during JJA preceding the events in each region");
         ("value", PyFloat compositeRmse); ("value_error", PyNone);
         ("units", PyStr (ev_Units ev)); ("method", PyStr Method);
         ("value2", PyFloat signAgreement); ("value_error2", PyNone);
         ("units2", PyStr "%");
         ("nyears_model", yearN_model); ("nyears_observations", yearN_obs);
         ("nina_model", py_years nina_years_model);
         ("nino_model", py_years nino_years_model);
         ("nina_observations", py_years nina_years_obs);
         ("nino_observations", py_years nino_years_obs);
         ("time_frequency", frequency);
         ("time_period_model", actualtimeboundsmodel);
         ("time_period_observations", actualtimeboundsobs);
         ("ref", PyStr Ref_regrid_rms); ("dive_down_diag", dive_down_diag)],
      kw).

Definition EnsoPrJjaTel_run (sst_model pr_model sst_obs pr_obs : dataset)
    (sstbox : string) (prbox : pyval) (event_definition : list (string * pyval))
    (centered_rmse biased_rmse : pyval) (kwargs0 : kwargs)
  : result (metric_record * kwargs) :=
  (* setting variables *)
  '(region_ev, season_ev, threshold) ← setting_variables event_definition;
  (* test given kwargs *)
  let kw := fill_defaults needed_kwarg_event kwargs0 in
  (* Define metric attributes *)
  ev ← EnsoPrJjaTel_attributes region_ev season_ev threshold kw;
  (* detect events: read, mask *)
  sel ← select_two sst_model sst_obs "temperature" (ev_region ev)
          (PyBool true) (PyBool false) kw;
  (* checks if the time-period fulfills the minimum length criterion *)
  _ ← check_min_time_steps "EnsoPrJjaTel" kw (tab_model sel) (tab_obs sel);
  EnsoPrJjaTel_compute ev sel pr_model pr_obs prbox centered_rmse biased_rmse kw.

Definition EnsoPrJjaTel (sst_model pr_model sst_obs pr_obs : dataset)
    (sstbox : string) (prbox : pyval) (event_definition : list (string * pyval))
    (centered_rmse biased_rmse : pyval) (kwargs0 : kwargs)
  : result metric_record :=
  fst <$> EnsoPrJjaTel_run sst_model pr_model sst_obs pr_obs sstbox prbox
            event_definition centered_rmse biased_rmse kwargs0.

(** **** NinaSstLonRmse and NinoSstLonRmse *)

Definition event_lon_fn (nino : bool) : string :=
  if nino then "NinoSstLonRmse" else "NinaSstLonRmse".

Definition event_Name (nino : bool) : string :=
  if nino then "Nino Composite Time Series" else "Nina Composite Time Series".

(** "Define metric attributes" (lines 4444-4452 and 4810-4818). *)
Definition event_lon_attributes (nino : bool) (region_ev season_ev threshold : pyval)
    (kw : kwargs) : result event_setup :=
  lat ← getitem (ReferenceRegions "equatorial_pacific") "latitude";
  region_ev ← as_str region_ev;
  season_ev ← as_str season_ev;
  lat0 ← getindex lat 0;
  lat1 ← getindex lat 1;
  let Method :=
    (if nino then "Nino events = " else "Nina events = ") ++ region_ev ++
    " sstA > " ++ str_of threshold ++ " during " ++ season_ev ++ ", zonal SSTA " ++
    "(meridional averaged [" ++ str_of lat0 ++ " ; " ++ str_of lat1 ++ "]" in
  normalization ← getitem kw "normalization";
  Ok {| ev_region := region_ev; ev_season := season_ev; ev_threshold := threshold;
        ev_Method := Method;
        ev_Units := if truthy normalization then "" else "C";
        ev_normalization := normalization |}.

(** The function from "Number of years" to its [return].  "Regridding"
    (lines 4659 and 5026) reads [kwargs['regridding']]. *)
Definition event_lon_compute (nino : bool) (ev : event_setup) (sel : selection)
    (model obs : dataset) (box : string) (centered_rmse biased_rmse : pyval)
    (kw : kwargs) : result metric_record :=
  let yearN_model := years_of (tab_model sel) in
  let yearN_obs := years_of (tab_obs sel) in
  let actualtimeboundsmodel := TimeBounds (tab_model sel) in
  let actualtimeboundsobs := TimeBounds (tab_obs sel) in
  (* Preprocess sst *)
  let '(sst_model, unneeded) :=
    PreProcessTS (tab_model sel) "" (model_areacell sel) (PyStr "horizontal")
      true false kw in
  let '(sst_obs, unneeded) :=
    PreProcessTS (tab_obs sel) "" (obs_areacell sel) (PyStr "horizontal")
      true false kw in
  (* Lists event years *)
  let event_years_model :=
    DetectEvents sst_model (ev_season ev) (ev_threshold ev) (ev_normalization ev) nino in
  let event_years_obs :=
    DetectEvents sst_obs (ev_season ev) (ev_threshold ev) (ev_normalization ev) nino in
  (* compute composite: read, mask in [box] *)
  sel ← select_two model obs "temperature" box (PyBool true) (PyBool false) kw;
  let '(sst_model, Method) :=
    PreProcessTS (tab_model sel) (ev_Method ev) (model_areacell sel) (PyBool false)
      true false kw in
  let '(sst_obs, unneeded) :=
    PreProcessTS (tab_obs sel) "" (obs_areacell sel) (PyBool false) true false kw in
  (* Seasonal mean *)
  let sst_model := SeasonalMean sst_model (ev_season ev) false in
  let sst_obs := SeasonalMean sst_obs (ev_season ev) false in
  (* Regridding *)
  regridding ← getitem kw "regridding";
  '(sst_model, sst_obs, Method) ←
    regrid_step (event_lon_fn nino) regridding sst_model sst_obs Method box;
  (* Meridional average *)
  let sst_model := AverageMeridional sst_model in
  let sst_obs := AverageMeridional sst_obs in
  (* composites *)
  frequency ← getitem kw "frequency";
  let composite_model := Composite sst_model event_years_model frequency None in
  let composite_obs := Composite sst_obs event_years_obs frequency None in
  (* Computes the root mean square difference *)
  let compositeRmse := RmsZonal composite_model composite_obs centered_rmse
                         (Some biased_rmse) in
  (* Dive down diagnostic *)
  let dive_down_diag :=
    PyDict [("model", arrayToList composite_model);
            ("observations", arrayToList composite_obs);
            ("axis", getAxis composite_model 0)] in
  (* Create output *)
  Ok (list_to_map
        [("name", PyStr (event_Name nino)); ("value", PyFloat compositeRmse);
         ("value_error", PyNone); ("units", PyStr (ev_Units ev)); ("method", PyStr Method);
         ("nyears_model", yearN_model); ("nyears_observations", yearN_obs);
         ("events_model", py_years event_years_model);
         ("events_observations", py_years event_years_obs);
         ("time_frequency", frequency);
         ("time_period_model", actualtimeboundsmodel);
         ("time_period_observations", actualtimeboundsobs);
         ("ref", PyStr Ref_regrid_rms); ("dive_down_diag", dive_down_diag)]).

(** The needed-keyword list of these two functions (lines 4435-4436 and
    4801-4802) is [needed_kwarg_event]: it has no "regridding" entry. *)
Definition event_lon_metric (nino : bool) (model obs : dataset) (box : string)
    (event_definition : list (string * pyval))
    (centered_rmse biased_rmse : pyval) (kwargs0 : kwargs)
  : result metric_record :=
  (* setting variables *)
  '(region_ev, season_ev, threshold) ← setting_variables event_definition;
  (* test given kwargs *)
  let kw := fill_defaults needed_kwarg_event kwargs0 in
  (* Define metric attributes *)
  ev ← event_lon_attributes nino region_ev season_ev threshold kw;
  (* detect events: read, mask *)
  sel ← select_two model obs "temperature" (ev_region ev)
          (PyBool true) (PyBool false) kw;
  (* checks if the time-period fulfills the minimum length criterion *)
  _ ← check_min_time_steps (event_lon_fn nino) kw (tab_model sel) (tab_obs sel);
  event_lon_compute nino ev sel model obs box centered_rmse biased_rmse kw.

Definition NinaSstLonRmse := event_lon_metric false.
Definition NinoSstLonRmse := event_lon_metric true.

(** **** NinaSstTsRmse and NinoSstTsRmse *)

Definition event_ts_fn (nino : bool) : string :=
  if nino then "NinoSstTsRmse" else "NinaSstTsRmse".

(** "Define metric attributes" (lines 5180-5187 and 5435-5442). *)
Definition event_ts_attributes (nino : bool) (region_ev season_ev threshold : pyval)
    (nbr_years_window : pyval) (kw : kwargs) : result event_setup :=
  region_ev ← as_str region_ev;
  season_ev ← as_str season_ev;
  let Method :=
    (if nino then "Nino events = " else "Nina events = ") ++ region_ev ++
    (if nino then " sstA > " else " sstA < ") ++ str_of threshold ++
    " during " ++ season_ev ++ ", time series of " ++ str_of nbr_years_window ++
    " years (centered on events)" in
  normalization ← getitem kw "normalization";
  Ok {| ev_region := region_ev; ev_season := season_ev; ev_threshold := threshold;
        ev_Method := Method;
        ev_Units := if truthy normalization then "" else "C";
        ev_normalization := normalization |}.

(** The function from "Number of years" to its [return]. *)
Definition event_ts_compute (nino : bool) (ev : event_setup) (sel : selection)
    (nbr_years_window : pyval) (centered_rmse biased_rmse : pyval) (kw : kwargs)
  : result metric_record :=
  let yearN_model := years_of (tab_model sel) in
  let yearN_obs := years_of (tab_obs sel) in
  let actualtimeboundsmodel := TimeBounds (tab_model sel) in
  let actualtimeboundsobs := TimeBounds (tab_obs sel) in
  (* Preprocess sst *)
  let '(sst_model, Method) :=
    PreProcessTS (tab_model sel) (ev_Method ev) (model_areacell sel)
      (PyStr "horizontal") true false kw in
  let '(sst_obs, unneeded) :=
    PreProcessTS (tab_obs sel) "" (obs_areacell sel) (PyStr "horizontal")
      true false kw in
  (* Lists event years *)
  let event_years_model :=
    DetectEvents sst_model (ev_season ev) (ev_threshold ev) (ev_normalization ev) nino in
  let event_years_obs :=
    DetectEvents sst_obs (ev_season ev) (ev_threshold ev) (ev_normalization ev) nino in
  (* composites *)
  frequency ← getitem kw "frequency";
  let composite_model :=
    Composite sst_model event_years_model frequency (Some nbr_years_window) in
  let composite_obs :=
    Composite sst_obs event_years_obs frequency (Some nbr_years_window) in
  (* Computes the root mean square difference *)
  let compositeRmse := RmsTemporal composite_model composite_obs centered_rmse
                         (Some biased_rmse) in
  (* Dive down diagnostic *)
  let dive_down_diag :=
    PyDict [("model", arrayToList composite_model);
            ("observations", arrayToList composite_obs);
            ("axis", getAxis composite_model 0)] in
  (* Create output *)
  Ok (list_to_map
        [("name", PyStr (event_Name nino)); ("value", PyFloat compositeRmse);
         ("value_error", PyNone); ("units", PyStr (ev_Units ev)); ("method", PyStr Method);
         ("nyears_model", yearN_model); ("nyears_observations", yearN_obs);
         ("events_model", py_years event_years_model);
         ("events_observations", py_years event_years_obs);
         ("time_frequency", frequency);
         ("time_period_model", actualtimeboundsmodel);
         ("time_period_observations", actualtimeboundsobs);
         ("ref", PyStr "Using CDAT rms (uncentered and biased) calculation");
         ("dive_down_diag", dive_down_diag)]).

Definition event_ts_metric (nino : bool) (model obs : dataset) (box : string)
    (event_definition : list (string * pyval)) (nbr_years_window : pyval)
    (centered_rmse biased_rmse : pyval) (kwargs0 : kwargs)
  : result metric_record :=
  (* setting variables *)
  '(region_ev, season_ev, threshold) ← setting_variables event_definition;
  (* test given kwargs *)
  let kw := fill_defaults needed_kwarg_event kwargs0 in
  (* Define metric attributes *)
  ev ← event_ts_attributes nino region_ev season_ev threshold nbr_years_window kw;
  (* Read file and select the right region, areacell, landmask *)
  sel ← select_two model obs "temperature" (ev_region ev)
          (PyBool true) (PyBool false) kw;
  (* checks if the time-period fulfills the minimum length criterion *)
  _ ← check_min_time_steps (event_ts_fn nino) kw (tab_model sel) (tab_obs sel);
  event_ts_compute nino ev sel nbr_years_window centered_rmse biased_rmse kw.

Definition NinaSstTsRmse := event_ts_metric false.
Definition NinoSstTsRmse := event_ts_metric true.


(** *** The catalogue: every metric function of the library *)

(** The thirteen two-dataset RMSE metrics and the six feedback metrics,
    by name. *)
Inductive rmse_function : Type :=
| fBiasSstRmse
| fBiasSstLatRmse
| fBiasSstLonRmse
| fBiasPrRmse
| fBiasPrLatRmse
| fBiasPrLonRmse
| fBiasTauxRmse
| fBiasTauxLatRmse
| fBiasTauxLonRmse
| fSeasonalPrLatRmse
| fSeasonalPrLonRmse
| fSeasonalSstLatRmse
| fSeasonalSstLonRmse.

Definition rmse_descr_of (f : rmse_function) : rmse_descr :=
  match f with
  | fBiasSstRmse => BiasSstRmse_descr
  | fBiasSstLatRmse => BiasSstLatRmse_descr
  | fBiasSstLonRmse => BiasSstLonRmse_descr
  | fBiasPrRmse => BiasPrRmse_descr
  | fBiasPrLatRmse => BiasPrLatRmse_descr
  | fBiasPrLonRmse => BiasPrLonRmse_descr
  | fBiasTauxRmse => BiasTauxRmse_descr
  | fBiasTauxLatRmse => BiasTauxLatRmse_descr
  | fBiasTauxLonRmse => BiasTauxLonRmse_descr
  | fSeasonalPrLatRmse => SeasonalPrLatRmse_descr
  | fSeasonalPrLonRmse => SeasonalPrLonRmse_descr
  | fSeasonalSstLatRmse => SeasonalSstLatRmse_descr
  | fSeasonalSstLonRmse => SeasonalSstLonRmse_descr
  end.

Inductive feedback_function : Type :=
| fEnsoAlphaLhf
| fEnsoAlphaLwr
| fEnsoAlphaShf
| fEnsoAlphaSwr
| fEnsoAlphaThf
| fEnsoMu.

Definition feedback_descr_of (f : feedback_function) : feedback_descr :=
  match f with
  | fEnsoAlphaLhf => EnsoAlphaLhf_descr
  | fEnsoAlphaLwr => EnsoAlphaLwr_descr
  | fEnsoAlphaShf => EnsoAlphaShf_descr
  | fEnsoAlphaSwr => EnsoAlphaSwr_descr
  | fEnsoAlphaThf => EnsoAlphaThf_descr
  | fEnsoMu => EnsoMu_descr
  end.

(** A call of one of the twenty-seven metric functions, with its
    positional arguments. *)
Inductive metric_call : Type :=
| CallRmse (f : rmse_function) (model obs : dataset) (box : string)
    (centered_rmse biased_rmse : pyval)
| CallFeedback (f : feedback_function) (sst : dataset) (sstbox : string)
    (flux : dataset) (fluxbox : string)
| CallEnsoAmpl (sst : dataset) (sstbox : string)
| CallEnsoSeasonality (sst : dataset) (sstbox : string)
| CallEnsoPrJjaTel (sst_model pr_model sst_obs pr_obs : dataset)
    (sstbox : string) (prbox : pyval) (event_definition : list (string * pyval))
    (centered_rmse biased_rmse : pyval)
| CallSstLonRmse (nino : bool) (model obs : dataset) (box : string)
    (event_definition : list (string * pyval)) (centered_rmse biased_rmse : pyval)
| CallSstTsRmse (nino : bool) (model obs : dataset) (box : string)
    (event_definition : list (string * pyval)) (nbr_years_window : pyval)
    (centered_rmse biased_rmse : pyval).

(** The name of the Python function a call is a call of. *)
Definition function_name (c : metric_call) : string :=
  match c with
  | CallRmse f _ _ _ _ _ => rd_fn (rmse_descr_of f)
  | CallFeedback f _ _ _ _ => fd_fn (feedback_descr_of f)
  | CallEnsoAmpl _ _ => "EnsoAmpl"
  | CallEnsoSeasonality _ _ => "EnsoSeasonality"
  | CallEnsoPrJjaTel _ _ _ _ _ _ _ _ _ => "EnsoPrJjaTel"
  | CallSstLonRmse nino _ _ _ _ _ _ => event_lon_fn nino
  | CallSstTsRmse nino _ _ _ _ _ _ _ => event_ts_fn nino
  end.

(** Its [needed_kwarg] list. *)
Definition needed_kwarg (c : metric_call) : list string :=
  match c with
  | CallRmse _ _ _ _ _ _ => needed_kwarg_regrid
  | CallFeedback _ _ _ _ _ | CallEnsoAmpl _ _ | CallEnsoSeasonality _ _ =>
      needed_kwarg_single
  | _ => needed_kwarg_event
  end.

(** The call itself. *)
Definition run (c : metric_call) (kwargs0 : kwargs) : result metric_record :=
  match c with
  | CallRmse f model obs box centered_rmse biased_rmse =>
      rmse_metric (rmse_descr_of f) model obs box centered_rmse biased_rmse kwargs0
  | CallFeedback f sst sstbox flux fluxbox =>
      feedback_metric (feedback_descr_of f) sst sstbox flux fluxbox kwargs0
  | CallEnsoAmpl sst sstbox => EnsoAmpl sst sstbox kwargs0
  | CallEnsoSeasonality sst sstbox => EnsoSeasonality sst sstbox kwargs0
  | CallEnsoPrJjaTel sst_model pr_model sst_obs pr_obs sstbox prbox
      event_definition centered_rmse biased_rmse =>
      EnsoPrJjaTel sst_model pr_model sst_obs pr_obs sstbox prbox
        event_definition centered_rmse biased_rmse kwargs0
  | CallSstLonRmse nino model obs box event_definition centered_rmse biased_rmse =>
      event_lon_metric nino model obs box event_definition
        centered_rmse biased_rmse kwargs0
  | CallSstTsRmse nino model obs box event_definition nbr_years_window
      centered_rmse biased_rmse =>
      event_ts_metric nino model obs box event_definition nbr_years_window
        centered_rmse biased_rmse kwargs0
  end.



(** *** The three phases of a metric call *)

(** Every metric function is: fill the defaults and read and mask the
    data; compare the length of the series read with [min_time_steps];
    compute.  [prepared] is the state between the first phase and the
    second: the [kwargs] with their defaults, the series the check looks
    at, in the order it does, each under the word its message uses, and
    what the rest of the function returns. *)
Record prepared : Type := {
  p_kwargs : kwargs;
  p_series : list (string * array);
  p_compute : result metric_record
}.

Definition two_series (sel : selection) : list (string * array) :=
  [("modeled", tab_model sel); ("observed", tab_obs sel)].

Definition prepare (c : metric_call) (kwargs0 : kwargs) : result prepared :=
  let kw := fill_defaults (needed_kwarg c) kwargs0 in
  match c with
  | CallRmse f model obs box centered_rmse biased_rmse =>
      let d := rmse_descr_of f in
      sel ← select_two model obs (rd_varfamily d) box (PyBool true) (PyBool false) kw;
      Ok {| p_kwargs := kw; p_series := two_series sel;
            p_compute := rmse_compute d sel box centered_rmse biased_rmse kw |}
  | CallFeedback f sst sstbox flux fluxbox =>
      let d := feedback_descr_of f in
      '(tab_sst, sst_areacell, tab_flux, flux_areacell) ←
        feedback_select d sst sstbox flux fluxbox kw;
      let sliced := CommonTimePeriod tab_sst tab_flux kw in
      Ok {| p_kwargs := kw; p_series := [("", fst sliced)];
            p_compute := feedback_compute d sstbox fluxbox (fst sliced) sst_areacell
                           (snd sliced) flux_areacell kw |}
  | CallEnsoAmpl sst sstbox =>
      let '(tab, sst_areacell) :=
        read_masked sst "temperature" sstbox None (PyBool true) (PyBool false) kw in
      Ok {| p_kwargs := kw; p_series := [("", tab)];
            p_compute := EnsoAmpl_compute sstbox tab sst_areacell kw |}
  | CallEnsoSeasonality sst sstbox =>
      let '(tab, sst_areacell) :=
        read_masked sst "temperature" sstbox None (PyBool true) (PyBool false) kw in
      Ok {| p_kwargs := kw; p_series := [("", tab)];
            p_compute := EnsoSeasonality_compute sstbox tab sst_areacell kw |}
  | CallEnsoPrJjaTel sst_model pr_model sst_obs pr_obs sstbox prbox
      event_definition centered_rmse biased_rmse =>
      '(region_ev, season_ev, threshold) ← setting_variables event_definition;
      ev ← EnsoPrJjaTel_attributes region_ev season_ev threshold kw;
      sel ← select_two sst_model sst_obs "temperature" (ev_region ev)
              (PyBool true) (PyBool false) kw;
      Ok {| p_kwargs := kw; p_series := two_series sel;
            p_compute := fst <$> EnsoPrJjaTel_compute ev sel pr_model pr_obs prbox
                                   centered_rmse biased_rmse kw |}
  | CallSstLonRmse nino model obs box event_definition centered_rmse biased_rmse =>
      '(region_ev, season_ev, threshold) ← setting_variables event_definition;
      ev ← event_lon_attributes nino region_ev season_ev threshold kw;
      sel ← select_two model obs "temperature" (ev_region ev)
              (PyBool true) (PyBool false) kw;
      Ok {| p_kwargs := kw; p_series := two_series sel;
            p_compute := event_lon_compute nino ev sel model obs box
                           centered_rmse biased_rmse kw |}
  | CallSstTsRmse nino model obs box event_definition nbr_years_window
      centered_rmse biased_rmse =>
      '(region_ev, season_ev, threshold) ← setting_variables event_definition;
      ev ← event_ts_attributes nino region_ev season_ev threshold nbr_years_window kw;
      sel ← select_two model obs "temperature" (ev_region ev)
              (PyBool true) (PyBool false) kw;
      Ok {| p_kwargs := kw; p_series := two_series sel;
            p_compute := event_ts_compute nino ev sel nbr_years_window
                           centered_rmse biased_rmse kw |}
  end.

(** The first series shorter than [mini], if any. *)
Fixpoint first_short (mini : pyval) (series : list (string * array))
  : option (string * array) :=
  match series with
  | [] => None
  | (which, tab) :: series' =>
      if array_len tab <? int_value mini then Some (which, tab)
      else first_short mini series'
  end.

(** The too-short error of a call: the two-dataset functions build the
    message themselves and hand it to [MyError]; the others call
    [TooShortTimePeriod] (directly, or through [CheckTime]). *)
Definition too_short_error (c : metric_call) (which : string) (len : Z)
    (mini : pyval) : pyerror :=
  let fn := function_name c in
  match c with
  | CallFeedback _ _ _ _ _ | CallEnsoAmpl _ _ | CallEnsoSeasonality _ _ =>
      TooShortTimePeriod fn len mini (INSPECTstack fn)
  | _ => MyError (too_short_strings fn which len mini)
  end.

(** The length check of a call, on the series [prepare] lists. *)
Definition length_check (c : metric_call) (kw : kwargs)
    (series : list (string * array)) : result unit :=
  mini ← getitem kw "min_time_steps";
  if isinstance_int mini then
    match first_short mini series with
    | Some (which, tab) => Raise (too_short_error c which (array_len tab) mini)
    | None => Ok ()
    end
  else Ok ().

End Metrics.

(** ** Event detection and compositing *)

(** [DetectEvents] and [Composite] belong to [EnsoUvcdatToolsLib], which
    is not under src/: the metric functions above only call them.  The
    two definitions below follow sections 4.2 and 4.3 of the
    specification. *)
Module EventModel.

Section Detection.
(** Section 4.2 reduces the monthly index to "one value per year by
    averaging the named season's months", and normalises by "the
    series' overall standard deviation"; both reductions are the
    toolkit's and are taken as given. *)
Variable seasonal_values : list Q -> string -> list (Z * Q).
Variable overall_std : list Q -> Q.

(** [seasonal_value >= threshold] for the warm sign,
    [seasonal_value <= threshold] for the cold sign. *)
Definition crosses (nino : bool) (threshold seasonal_value : Q) : bool :=
  if nino then Qle_bool threshold seasonal_value
  else Qle_bool seasonal_value threshold.

(** The value compared with the threshold. *)
Definition compared_value (index_series : list Q) (normalized : bool)
    (seasonal_value : Q) : Q :=
  if normalized then (seasonal_value / overall_std index_series)%Q
  else seasonal_value.

(** Modelled from the spec: [DetectEvents] is not under src/.  Section
    4.2: "A year is an event when seasonal_value >= threshold (warm/El
    Niño sign) or seasonal_value <= threshold (cold/La Niña sign,
    threshold given as a negative number).  When normalized is true,
    seasonal_value is first divided by the series' overall standard
    deviation before comparison." *)
Definition DetectEvents (index_series : list Q) (season : string)
    (threshold : Q) (normalized nino : bool) : list Z :=
  fst <$>
    List.filter
      (fun ys => crosses nino threshold
                   (compared_value index_series normalized (snd ys)))
      (seasonal_values index_series season).

End Detection.

(** A monthly record that starts in January of [first_year]. *)
Record monthly_record : Type := {
  first_year : Z;
  months : list Q
}.

(** Index, in the record, of the first month of the window of an event
    of year [year]: the window has [12*W] months and the event's
    December, month [12*(year - first_year) + 11] of the record, is at
    position [12*(W/2) + 11] of the window. *)
Definition window_start (r : monthly_record) (W year : Z) : Z :=
  12 * (year - first_year r) + 11 - (12 * (W / 2) + 11).

(** The window lies within the record. *)
Definition window_fits (r : monthly_record) (W year : Z) : bool :=
  (0 <=? window_start r W year) &&
  (window_start r W year + 12 * W <=? Z.of_nat (length (months r))).

(** The [12*W] consecutive monthly values of the window. *)
Definition window (r : monthly_record) (W year : Z) : list Q :=
  take (Z.to_nat (12 * W)) (drop (Z.to_nat (window_start r W year)) (months r)).

Definition mean (l : list Q) : Q :=
  (foldr Qplus 0 l / inject_Z (Z.of_nat (length l)))%Q.

(** Value [i] of each window. *)
Definition column (windows : list (list Q)) (i : nat) : list Q :=
  (fun w => nth i w 0%Q) <$> windows.

(** Modelled from the spec: [Composite] is not under src/.  Section 4.3,
    windowed mode: "for each event year, extract 12*W consecutive monthly
    values centered so the event's December falls at position
    12*floor(W/2) + 11; years whose window exceeds the available record
    bounds are excluded from the average; return the pointwise mean
    across all retained windows as a 12*W-length series"; and "zero
    retained windows yields an undefined/NaN-filled composite". *)
Definition Composite (r : monthly_record) (event_years : list Z) (W : Z)
  : list pyfloat :=
  let retained := List.filter (window_fits r W) event_years in
  let windows := window r W <$> retained in
  match retained with
  | [] => replicate (Z.to_nat (12 * W)) NaN
  | _ :: _ => (fun i => Fin (mean (column windows i))) <$> seq 0 (Z.to_nat (12 * W))
  end.

End EventModel.

(** ** plots/driver_portraitplot.py *)

Module Driver.

(** Parsed JSON, as [json.load] returns it. *)
Inductive json : Type :=
| JNull
| JBool (b : bool)
| JNum (x : pyfloat)
| JStr (s : string)
| JArr (l : list json)
| JObj (members : list (string * json)).

(** [data[key]] *)
Definition json_getitem (data : json) (key : string) : result json :=
  match data with
  | JObj members =>
      match (list_to_map members : gmap string json) !! key with
      | Some v => Ok v
      | None => Raise (KeyError key)
      end
  | _ => Raise TypeError
  end.

(** [data.keys()] *)
Definition json_keys (data : json) : result (list string) :=
  match data with
  | JObj members => Ok (members.*1)
  | _ => Raise TypeError
  end.

(** [needle in s] on strings. *)
Fixpoint contains (needle s : string) : bool :=
  String.prefix needle s ||
  match s with
  | EmptyString => false
  | String _ s' => contains needle s'
  end.

(** [s.replace(old, "")] for a non-empty [old]; [fuel] bounds the scan by
    the length of [s]. *)
Fixpoint remove_all (fuel : nat) (old s : string) : string :=
  match fuel with
  | O => s
  | S fuel' =>
      if String.prefix old s
      then remove_all fuel' old
             (String.substring (String.length old)
                (String.length s - String.length old) s)
      else match s with
           | EmptyString => EmptyString
           | String c s' => String c (remove_all fuel' old s')
           end
  end.

Definition replace_empty (old s : string) : string :=
  remove_all (S (String.length s)) old s.

(** [fnmatch.fnmatch], for patterns made of literal characters, [?] and
    [*] (bracket classes are not modelled; the driver's pattern has
    none). *)
Fixpoint fnmatch (pat name : string) {struct pat} : bool :=
  match pat with
  | EmptyString => match name with EmptyString => true | _ => false end
  | String c pat' =>
      if Ascii.eqb c "?" then
        match name with
        | EmptyString => false
        | String _ name' => fnmatch pat' name'
        end
      else if Ascii.eqb c "*" then
        (fix star (name : string) : bool :=
           fnmatch pat' name ||
           match name with
           | EmptyString => false
           | String _ name' => star name'
           end) name
      else
        match name with
        | EmptyString => false
        | String d name' => Ascii.eqb c d && fnmatch pat' name'
        end
  end.

Definition starts_with_dot (s : string) : bool := String.prefix "." s.

(** [os.path.join] of a directory and a relative name. *)
Definition OSpath__join (a b : string) : string := a ++ "/" ++ b.

(** [glob.iglob(os.path.join(dirname, pattern))] for a pattern with a
    wildcard in its last component: the names of the directory, in the
    order [os.listdir] gives them, hidden ones left out unless the
    pattern starts with a dot, that match. *)
Definition GLOBiglob (listdir : list string) (dirname pattern : string)
  : list string :=
  let names := if starts_with_dot pattern then listdir
               else List.filter (fun x => negb (starts_with_dot x)) listdir in
  OSpath__join dirname <$> List.filter (fnmatch pattern) names.

(** Arguments (lines 37-47). *)
Definition metric_collections : list string := ["ENSO_perf"; "ENSO_tel"; "ENSO_proc"].
Definition experiment : string := "historical".
Definition list_project : list string := ["cmip5"; "cmip6"].
Definition path_in : string :=
  "/Users/yannplanton/Documents/Yann/Fac/2016_2018_postdoc_LOCEAN/2018_06_ENSO_metrics/2019_10_report".

(** The mask value, [1e20]. *)
Definition masked : json := JNum (Fin (inject_Z (10 ^ 20))).

Definition to_remove (mc : string) : list string :=
  if String.eqb mc "ENSO_perf" then
    ["BiasTauxLatRmse"; "BiasTauxLonRmse"; "EnsoPrTsRmse"; "EnsoTauxTsRmse";
     "NinaSstDur_1"; "NinaSstDur_2"; "NinaSstLonRmse_1"; "NinaSstLonRmse_2";
     "NinaSstTsRmse_1"; "NinaSstTsRmse_2"; "NinoSstDiversity_1"; "NinoSstDur_1";
     "NinoSstDur_2"; "NinoSstLonRmse_1"; "NinoSstLonRmse_2"; "NinoSstTsRmse_1";
     "NinoSstTsRmse_2"]
  else if String.eqb mc "ENSO_proc" then
    ["EnsodSstOce_1"; "EnsoFbSstLhf"; "EnsoFbSstLwr"; "EnsoFbSstShf"]
  else
    ["EnsoPrMapStd"; "EnsoSlpMapCorr"; "EnsoSlpMapRmse"; "EnsoSlpMapStd";
     "EnsoSstMapStd";
     "NinaPrMap_1Corr"; "NinaPrMap_1Rmse"; "NinaPrMap_1Std";
     "NinaPrMap_2Corr"; "NinaPrMap_2Rmse"; "NinaPrMap_2Std";
     "NinaSlpMap_1Corr"; "NinaSlpMap_1Rmse"; "NinaSlpMap_1Std";
     "NinaSlpMap_2Corr"; "NinaSlpMap_2Rmse"; "NinaSlpMap_2Std";
     "NinaSstMap_1Corr"; "NinaSstMap_1Rmse"; "NinaSstMap_1Std";
     "NinaSstMap_2Corr"; "NinaSstMap_2Rmse"; "NinaSstMap_2Std";
     "NinaSstLonRmse_1"; "NinaSstLonRmse_2";
     "NinoPrMap_1Corr"; "NinoPrMap_1Rmse"; "NinoPrMap_1Std";
     "NinoPrMap_2Corr"; "NinoPrMap_2Rmse"; "NinoPrMap_2Std";
     "NinoSlpMap_1Corr"; "NinoSlpMap_1Rmse"; "NinoSlpMap_1Std";
     "NinoSlpMap_2Corr"; "NinoSlpMap_2Rmse"; "NinoSlpMap_2Std";
     "NinoSstMap_1Corr"; "NinoSstMap_1Rmse"; "NinoSstMap_1Std";
     "NinoSstMap_2Corr"; "NinoSstMap_2Rmse"; "NinoSstMap_2Std";
     "NinoSstLonRmse_1"; "NinoSstLonRmse_2"].

(** [remove_metrics]: the metrics of [to_remove] go, then those whose
    name has "Ssh", "Slp", "Nina" or "Std" in it.  (The function tests
    the global [mc], which is the collection it is called with.) *)
Definition remove_metrics (list_met : list string) (mc : string) : list string :=
  List.filter
    (fun met =>
       negb (bool_decide (met ∈ to_remove mc)) &&
       negb (contains "Ssh" met) && negb (contains "Slp" met) &&
       negb (contains "Nina" met) && negb (contains "Std" met))
    list_met.

Section Main.
(** What the driver takes from outside: the directory [path_in] as
    [os.listdir] lists it and [json.load] reads its files ([None]: not
    valid JSON); [plot_param(mc, met)['metric_reference']] of
    [EnsoPlotLib] ([None]: the lookup raises); the text of
    [MessageFormating(INSPECTstack())]; [str] of a list of names. *)
Variable listdir : list string.
Variable json_load : string -> option json.
Variable metric_reference : string -> string -> option string.
Variable stack_message : string.
Variable str_list : list string -> string.

(** [read_data] (lines 297-304) *)
Definition read_data (project metric_collection : string)
  : result (string * json) :=
  let lname := project ++ "_" ++ experiment ++ "_" ++ metric_collection ++
               "_v2019????_modified.json" in
  match GLOBiglob listdir path_in lname with
  | [] => Raise IndexError
  | filename_js :: _ =>
      match json_load filename_js with
      | None => Raise ValueError
      | Some data =>
          results ← json_getitem data "RESULTS";
          model ← json_getitem results "model";
          Ok (filename_js, model)
      end
  end.

(** [get_reference] (lines 165-170); [None] when it raises. *)
Definition get_reference (metric_collection metric : string) : option string :=
  let my_met :=
    if String.eqb metric_collection "ENSO_tel" && contains "Map" metric
    then replace_empty "Std" (replace_empty "Rmse" (replace_empty "Corr" metric))
    else metric in
  metric_reference metric_collection my_met.

Definition where_strings (proj mc mdl met : string) : string :=
  blanks 5 ++ "project '" ++ proj ++ "', MC '" ++ mc ++ "', model '" ++ mdl ++
  "', metric '" ++ met ++ "'".

Definition reference_error (proj mc mdl met : string) (list_ref : list string)
  : list string :=
  ["ERROR" ++ stack_message ++ ": cannot fing a proper reference";
   where_strings proj mc mdl met;
   blanks 10 ++ "input references = " ++ str_list list_ref].

Definition reference_warning (proj mc mdl met my_ref ref : string) : list string :=
  ["WARNING" ++ stack_message ++ ": reference changed";
   where_strings proj mc mdl met;
   blanks 10 ++ "reference set to '" ++ my_ref ++ "' instead of '" ++ ref ++ "'"].

(** Lines 331-352: the reference to read, and the warning printed on the
    way ([MyWarning] prints and goes on; modelled from the spec:
    [EnsoErrorsWarnings.MyError] is not under src/ and ends the run,
    section 7). *)
Definition choose_reference (proj mc mdl met ref : string) (list_ref : list string)
  : result (string * list (list string)) :=
  if bool_decide (ref ∈ list_ref) then Ok (ref, [])
  else
    my_ref ← (if bool_decide ("ERA-Interim" ∈ list_ref) then Ok "ERA-Interim"
              else if bool_decide ("ERA-Interim_ERA-Interim" ∈ list_ref)
                   then Ok "ERA-Interim_ERA-Interim"
                   else Raise (MyError (reference_error proj mc mdl met list_ref)));
    Ok (my_ref, [reference_warning proj mc mdl met my_ref ref]).

(** The body of the loop over the metrics (lines 327-356): the number to
    plot for [met] and the warnings printed. *)
Definition read_metric (proj mc mdl : string) (data_mod : json) (met : string)
  : result (json * list (list string)) :=
  let ref := default "Tropflux" (get_reference mc met) in
  entry ← json_getitem data_mod met;
  data_met ← json_getitem entry "metric";
  keys ← json_keys data_met;
  let list_ref := sorted_by str_upper keys in
  '(my_ref, warnings) ← choose_reference proj mc mdl met ref list_ref;
  if contains "Taux" met && String.eqb mdl "BCC-ESM1" then Ok (masked, warnings)
  else
    entry ← json_getitem data_met my_ref;
    value ← json_getitem entry "value";
    match value with
    | JNull => Ok (masked, warnings)
    | _ => Ok (value, warnings)
    end.

(** The loop over the metrics of a model: [dict2] and the warnings. *)
Definition read_model (proj mc : string) (data_json : json) (mdl : string)
  : result (gmap string json * list (list string)) :=
  entry ← json_getitem data_json mdl;
  data_mod ← json_getitem entry "value";
  keys ← json_keys data_mod;
  let list_metrics := remove_metrics (sorted_by str_upper keys) mc in
  for_each
    (fun '(dict2, warnings) met =>
       '(value, new) ← read_metric proj mc mdl data_mod met;
       Ok (<[met := value]> dict2, (warnings ++ new)%list))
    list_metrics (∅, []).

(** The loop over the projects of a metric collection (lines 315-360):
    [dict1] and the warnings. *)
Definition read_collection (mc : string)
  : result (gmap string (gmap string json) * list (list string)) :=
  for_each
    (fun '(dict1, warnings) proj =>
       '(filename_js, data_json) ← read_data proj mc;
       keys ← json_keys data_json;
       let list_models := sorted_by str_upper keys in
       for_each
         (fun '(dict1, warnings) mdl =>
            '(dict2, new) ← read_model proj mc data_json mdl;
            Ok (<[mdl := dict2]> dict1, (warnings ++ new)%list))
         list_models (dict1, warnings))
    list_project (∅, []).

(** The number at RESULTS, model, [mdl], value, [met], metric, [ref],
    value of a parsed file. *)
Definition json_path (data : json) (path : list string) : result json :=
  for_each json_getitem path data.

End Main.

End Driver.

(** ** A concrete toolkit *)

(** A small toolkit on which calls can be evaluated: an array is a
    series of rationals, a data file is named by the number of monthly
    steps it holds, there are no cell areas and no land masks, and the
    processing steps leave a series as it is. *)
Definition example_read (filename : pyval) : list Q :=
  match filename with
  | PyInt n => replicate (Z.to_nat n) 0%Q
  | _ => []
  end.

Definition example_float (a : list Q) : pyfloat :=
  match a with
  | [q] => Fin q
  | _ => NaN
  end.

Definition example_toolkit : Toolkit := {|
  array := list Q;
  array_len := fun a => Z.of_nat (length a);
  INSPECTstack := fun fn => fn;
  MessageFormating := fun stack => " " ++ stack;
  float_repr := fun _ => "float";
  float_add := fun x _ => x;
  float_sub := fun x _ => x;
  float_mul := fun x _ => x;
  float_div := fun x _ => x;
  NUMPYsqrt := fun n => Fin (inject_Z n);
  ReadSelectRegionCheckUnits := fun filename _ _ _ _ _ => example_read filename;
  ReadAreaSelectRegion := fun _ _ _ _ => None;
  ReadLandmaskSelectRegion := fun _ _ _ _ => None;
  MyDerive := fun _ _ dict_var =>
    match dict_var with
    | (_, a) :: _ => a
    | [] => []
    end;
  ReferenceRegions := fun _ => {[ "latitude" := PyTuple [PyInt (-5); PyInt 5] ]};
  ApplyLandmask := fun tab _ _ _ => tab;
  ApplyLandmaskToArea := fun area _ _ _ => area;
  ArrayOnes := fun a => a;
  CommonTimePeriod := fun a b _ => (a, b);
  PreProcessTS := fun tab info _ _ _ _ _ => (tab, info);
  TwoVarRegrid := fun a b info _ _ => (a, b, info);
  TimeBounds := fun a => PyTuple [PyInt 0; PyInt (Z.of_nat (length a))];
  Std := fun a => a;
  SeasonalMean := fun a _ _ => a;
  AverageZonal := fun a => a;
  AverageMeridional := fun a => a;
  array_scale := fun a _ => a;
  array_div_float := fun a _ => a;
  array_add := fun a _ => a;
  array_sub := fun a _ => a;
  array_mul := fun a _ => a;
  array_div := fun a _ => a;
  NUMPYsquare := fun a => a;
  array_float := example_float;
  arrayToList := fun a => PyList ((fun q => PyFloat (Fin q)) <$> a);
  getAxis := fun _ _ => PyList [];
  RmsHorizontal := fun _ _ _ _ => Fin 0;
  RmsMeridional := fun _ _ _ _ => Fin 0;
  RmsZonal := fun _ _ _ _ => Fin 0;
  RmsTemporal := fun _ _ _ _ => Fin 0;
  RmsAxis := fun _ _ _ _ => Fin 0;
  LinearRegressionAndNonlinearity := fun _ _ =>
    ((Fin 0, Fin 0), (Fin 0, Fin 0), (Fin 0, Fin 0));
  DetectEvents := fun _ _ _ _ _ => [];
  Composite := fun tab _ _ _ => take 1 tab
|}.

(** A dataset held in one file of [n] monthly steps. *)
Definition example_dataset (n : Z) : dataset :=
  {| file := PyInt n; name := PyStr "ts"; areafile := PyNone; areaname := PyNone;
     landmaskfile := PyNone; landmaskname := PyNone |}.

Definition example_event_definition : list (string * pyval) :=
  [("region_ev", PyStr "nino3"); ("season_ev", PyStr "DEC");
   ("threshold", PyFloat (Fin (3 # 4)))].

(** ** The keys of the returned dictionaries *)




Definition two_datasets {T : Toolkit} (c : metric_call) : bool :=
  match c with
  | CallFeedback _ _ _ _ _ | CallEnsoAmpl _ _ | CallEnsoSeasonality _ _ => false
  | _ => true
  end.











(** ** Example calls *)

(** A call of [BiasSstRmse] on a 12-step model series and a 24-step
    observed series, with [min_time_steps=360]. *)
Definition short_call : metric_call :=
  CallRmse fBiasSstRmse (example_dataset 12) (example_dataset 24)
    "tropical_pacific" (PyInt 0) (PyInt 1).

(** [min_time_steps=360] *)
Definition short_kwargs : kwargs := {[ "min_time_steps" := PyInt 360 ]}.




(** The precipitation regions of the example calls of [EnsoPrJjaTel]. *)
Definition tel_boxes : pyval := PyList [PyStr "SEAS"; PyStr "CAS"].

(** A call of [EnsoPrJjaTel] on precipitation files of [n] time steps. *)
Definition tel_run (n : Z) (kwargs0 : kwargs) : result (metric_record * kwargs) :=
  EnsoPrJjaTel_run (T := example_toolkit) (example_dataset 360) (example_dataset n)
    (example_dataset 360) (example_dataset n) "nino3" tel_boxes
    example_event_definition (PyInt 0) (PyInt 1) kwargs0.

(** The same call, for the metric alone. *)
Definition tel_call (n : Z) (kwargs0 : kwargs) : result metric_record :=
  EnsoPrJjaTel (T := example_toolkit) (example_dataset 360) (example_dataset n)
    (example_dataset 360) (example_dataset n) "nino3" tel_boxes
    example_event_definition (PyInt 0) (PyInt 1) kwargs0.

(** [smoothing=5] *)
Definition smoothed : kwargs := {[ "smoothing" := PyInt 5 ]}.

(** Seasonal values just below, at and just above the threshold 1/2. *)
Definition example_seasonal_values : list Q -> string -> list (Z * Q) :=
  fun _ _ => [(2001, ((1 # 2) - (1 # 4))%Q); (2002, 1 # 2); (2003, ((1 # 2) + (1 # 4))%Q)].


(** A model record of a results file: one metric, with two references. *)
Definition example_record : Driver.json :=
  Driver.JObj
    [("BiasSstLonRmse",
      Driver.JObj
        [("metric",
          Driver.JObj
            [("HadISST", Driver.JObj [("value", Driver.JNull)]);
             ("ERA-Interim", Driver.JObj [("value", Driver.JNum (Fin 2))])])])].

(** A results file that holds this record for one model. *)
Definition example_file : Driver.json :=
  Driver.JObj
    [("RESULTS",
      Driver.JObj
        [("model",
          Driver.JObj [("CNRM-CM5", Driver.JObj [("value", example_record)])])])].

(** A listing of the input directory. *)
Definition example_listdir : list string :=
  ["notes.txt"; "cmip5_historical_ENSO_perf_v20190901_modified.json";
   "cmip5_historical_ENSO_perf_v20191001_modified.json"].

(** The first file of the listing that the pattern of cmip5 and
    ENSO_perf matches. *)
Definition example_filename : string :=
  Driver.path_in ++ "/cmip5_historical_ENSO_perf_v20190901_modified.json".

(** [json.load] on that directory: one file is read. *)
Definition example_json_load (filename : string) : option Driver.json :=
  if String.eqb filename example_filename then Some example_file else None.

(** ** The loops of the plotting driver *)

(** [remove_metrics] as it is written (lines 100-162): five passes, each
    over a copy of the list, that take a metric out of the list with
    [list.remove] as long as it is in it. *)
Module DriverLoops.

(** [l.remove(x)]: the first [x] goes.  (On a list without [x] Python
    raises [ValueError]; the driver calls it under [while x in l].) *)
Fixpoint list_remove (x : string) (l : list string) : list string :=
  match l with
  | [] => []
  | y :: l' => if String.eqb y x then l' else y :: list_remove x l'
  end.

(** [while met in list_met1: list_met1.remove(met)]; [None] when the
    loop is still running after [fuel] turns. *)
Fixpoint remove_while (fuel : nat) (met : string) (list_met1 : list string)
  : option (list string) :=
  if bool_decide (met ∈ list_met1) then
    match fuel with
    | O => None
    | S fuel' => remove_while fuel' met (list_remove met list_met1)
    end
  else Some list_met1.

(** One pass:
[[
    list_met2 = deepcopy(list_met1)
    for met in list_met2:
        if test(met):
            while met in list_met1:
                list_met1.remove(met)
]] *)
Definition remove_pass (test : string -> bool) (list_met1 : list string)
  : option (list string) :=
  foldl (fun acc met =>
           list_met1 ← acc;
           if test met then remove_while (length list_met1) met list_met1
           else Some list_met1)
        (Some list_met1) list_met1.

(** [remove_metrics]; [mc] is the global the function tests. *)
Definition remove_metrics (list_met : list string) (mc : string)
  : option (list string) :=
  list_met1 ← remove_pass (fun met => bool_decide (met ∈ Driver.to_remove mc)) list_met;
  list_met1 ← remove_pass (Driver.contains "Ssh") list_met1;
  list_met1 ← remove_pass (Driver.contains "Slp") list_met1;
  list_met1 ← remove_pass (Driver.contains "Nina") list_met1;
  remove_pass (Driver.contains "Std") list_met1.

End DriverLoops.

(** A name without the characters [fnmatch] reads as wildcards. *)
Fixpoint plain (s : string) : bool :=
  match s with
  | EmptyString => true
  | String c s' =>
      negb (Ascii.eqb c "?") && negb (Ascii.eqb c "*") && negb (Ascii.eqb c "[")
      && plain s'
  end.

(** [needle] occurs in [s]. *)
Definition occurs_in (needle s : string) : Prop :=
  exists before after, s = before ++ needle ++ after.

(** The shaping of the table of a metric collection (lines 362-378). *)
Module Shaping.

Definition my_models : list string :=
  ["ACCESS1-0"; "ACCESS1-3"; "BCC-CSM1-1"; "BCC-CSM1-1-M"; "BCC-ESM1";
   "BNU-ESM"; "CCSM4"; "CESM1-BGC"; "CESM1-CAM5"; "CESM1-FASTCHEM";
   "CESM1-WACCM"; "CESM2"; "CESM2-WACCM"; "CMCC-CESM"; "CMCC-CM"; "CMCC-CMS";
   "CNRM-CM5"; "CNRM-CM5-2"; "CSIRO-Mk3-6-0"; "CanCM4"; "CanESM2";
   "EC-Earth3-Veg"; "FGOALS-g2"; "GFDL-CM2p1"; "GFDL-CM3"; "GFDL-CM4";
   "GFDL-ESM2G"; "GFDL-ESM2M"; "GISS-E2-H"; "GISS-E2-H-CC"; "GISS-E2-R";
   "GISS-E2-R-CC"; "GISS-E2-1-G"; "GISS-E2-1-G-CC"; "GISS-E2-1-H"; "HadCM3";
   "HadGEM2-AO"; "HadGEM2-CC"; "HadGEM2-ES"; "INMCM4"; "IPSL-CM5A-LR";
   "IPSL-CM5A-MR"; "IPSL-CM5B-LR"; "IPSL-CM6A-LR"; "MIROC4h"; "MIROC5";
   "MIROC6"; "MIROC-ESM"; "MIROC-ESM-CHEM"; "MPI-ESM-LR"; "MPI-ESM-MR";
   "MPI-ESM-P"; "MRI-ESM2-0"; "NorESM1-M"; "NorESM1-ME"; "SAM0-UNICON"].

Section Shape.
(** Python leaves two orders open, and the driver depends on neither:
    the order of [d.keys()] and the order of [list(set(l))]. *)
Variable dict_keys : gmap string Driver.json -> list string.
Variable list_of_set : list string -> list string.

(** Lines 371-377: the metrics of the models of [my_models] that
    [dict1] has, one after the other; [None] is the unbound name.
[[
    for mod in my_models:
        try: dict1[mod]
        except: pass
        else:
            try: my_metrics
            except: my_metrics = dict1[mod].keys()
            else: my_metrics += dict1[mod].keys()
]] *)
Definition gather_metrics (dict1 : gmap string (gmap string Driver.json))
  : option (list string) :=
  foldl (fun my_metrics mdl =>
           match dict1 !! mdl with
           | None => my_metrics
           | Some dict2 =>
               match my_metrics with
               | None => Some (dict_keys dict2)
               | Some l => Some (l ++ dict_keys dict2)%list
               end
           end) None my_models.

(** Line 378: [sorted(list(set(my_metrics)), key=lambda v: v.upper())]. *)
Definition my_metrics (dict1 : gmap string (gmap string Driver.json))
  : result (list string) :=
  match gather_metrics dict1 with
  | None => Raise NameError
  | Some l => Ok (sorted_by str_upper (list_of_set l))
  end.

End Shape.
End Shaping.

(** The rows of the grid of [multiportraitplot] (lines 237-281); [tab]
    is given by the number of rows of each of its panels. *)
Module Layout.

(** [sum([len(tab[ii]) for ii in range(len(tab))]) + (len(tab) - 1) * 3] *)
Definition nbrl (tab : list nat) : Z :=
  foldr Z.add 0 (Z.of_nat <$> tab) + (Z.of_nat (length tab) - 1) * 3.

(** The rows [gs[count: count + len(tmp), 0]] of the panels, in the
    order of the loop, which ends a turn with [count += len(tmp) + 3]. *)
Fixpoint panel_rows (count : Z) (tab : list nat) : list (Z * Z) :=
  match tab with
  | [] => []
  | len_tmp :: tab' =>
      (count, count + Z.of_nat len_tmp)
        :: panel_rows (count + Z.of_nat len_tmp + 3) tab'
  end.

(** The rows above panel [k]: the panels before it, and three rows
    after each. *)
Definition rows_above (tab : list nat) (k : nat) : Z :=
  foldr Z.add 0 (Z.of_nat <$> take k tab) + 3 * Z.of_nat k.

End Layout.

(** The order [sorted(l, key=f)] sorts by. *)
Definition key_le (f : string -> string) (x y : string) : Prop :=
  String.leb (f x) (f y) = true.

(** The [event_definition] argument of a call, for the functions that
    have one. *)
Definition event_definition_of {T : Toolkit} (c : metric_call)
  : option (list (string * pyval)) :=
  match c with
  | CallEnsoPrJjaTel _ _ _ _ _ _ event_definition _ _
  | CallSstLonRmse _ _ _ _ event_definition _ _
  | CallSstTsRmse _ _ _ _ event_definition _ _ _ => Some event_definition
  | _ => None
  end.

(** ** Example inputs of the driver and of the flux metrics *)

(** Metric names as a results file may hold them. *)
Definition example_metrics : list string :=
  ["NinaSstDur_1"; "EnsoAmpl"; "EnsoSstMapStd"; "BiasTauxLonRmse"; "EnsoSeasonality"].

(** The models of a results file. *)
Definition example_models : Driver.json :=
  Driver.JObj [("CNRM-CM5", Driver.JObj [("value", example_record)])].

(** An input directory with a file of each project. *)
Definition both_projects : list string :=
  ["cmip5_historical_ENSO_perf_v20190901_modified.json";
   "cmip6_historical_ENSO_perf_v20190901_modified.json"].

(** [d.keys()] and [list(set(l))], in one of the orders Python may give. *)
Definition example_dict_keys (d : gmap string Driver.json) : list string :=
  (map_to_list d).*1.

Definition example_list_of_set (l : list string) : list string := remove_dups l.

(** A longwave flux given as one file. *)
Definition example_flux : dataset :=
  {| file := PyStr "rlds.nc"; name := PyStr "rlds"; areafile := PyNone;
     areaname := PyNone; landmaskfile := PyNone; landmaskname := PyNone |}.

(** An event definition without its season. *)
Definition example_no_season : list (string * pyval) :=
  [("region_ev", PyStr "nino3"); ("threshold", PyFloat (Fin (3 # 4)))].

(** * Properties *)


Ltac in_list :=
  repeat (first [apply list_elem_of_here | apply list_elem_of_further]).

Ltac not_in_list :=
  let H := fresh in
  intros H;
  repeat (apply elem_of_cons in H as [H|H]; [discriminate H|]);
  inversion H.

Ltac record_lookup :=
  unfold list_to_map; cbn [foldr fst snd];
  repeat (rewrite lookup_insert_ne by discriminate);
  first [apply lookup_insert_eq | apply lookup_empty].

(** *** Sign agreement *)

Lemma py_sum_ones {A} (l : list A) :
  (py_sum ((fun _ => 1%Q) <$> l) == inject_Z (Z.of_nat (length l)))%Q.
Proof.
  induction l as [|a l IH]; [reflexivity|].
  cbn [fmap list_fmap py_sum foldr length]. fold (py_sum ((fun _ => 1%Q) <$> l)).
  rewrite IH, Nat2Z.inj_succ, <- Z.add_1_l, inject_Z_plus. reflexivity.
Qed.

Lemma count_le (lm lo : list pyfloat) :
  (length (List.filter same_sign (zip lm lo)) <= length lm)%nat.
Proof.
  etransitivity; [apply List.filter_length_le|].
  rewrite length_zip_with. lia.
Qed.

Lemma fraction_bounds (a b : nat) :
  (a <= b)%nat -> (0 < b)%nat ->
  (0 <= inject_Z (Z.of_nat a) / inject_Z (Z.of_nat b))%Q /\
  (inject_Z (Z.of_nat a) / inject_Z (Z.of_nat b) <= 1)%Q.
Proof.
  intros Hab Hb.
  assert (Hpos : (0 < inject_Z (Z.of_nat b))%Q).
  { change 0%Q with (inject_Z 0). rewrite <- Zlt_Qlt. lia. }
  split.
  - apply Qle_shift_div_l; [exact Hpos|]. rewrite Qmult_0_l.
    change 0%Q with (inject_Z 0). rewrite <- Zle_Qle. lia.
  - apply Qle_shift_div_r; [exact Hpos|]. rewrite Qmult_1_l.
    rewrite <- Zle_Qle. lia.
Qed.

Lemma same_sign_refl (x : pyfloat) : not_nan x -> same_sign (x, x) = true.
Proof.
  destruct x; intros H; cbn; try reflexivity.
  - apply Qeq_bool_refl.
  - exfalso. apply H. reflexivity.
Qed.

Lemma same_sign_neg (x : pyfloat) : nonzero x -> same_sign (x, float_neg x) = false.
Proof.
  destruct x as [q| | |]; intros H; cbn; try reflexivity.
  destruct (Qeq_bool _ _) eqn:E; [|reflexivity]. exfalso.
  apply Qeq_bool_eq in E. apply (H q eq_refl).
  unfold Qeq in *. cbn in *. destruct q as [n d]. cbn in *. lia.
Qed.

Lemma filter_all {A} (f : A -> bool) (l : list A) :
  Forall (fun x => f x = true) l -> List.filter f l = l.
Proof.
  induction 1 as [|x l Hx _ IH]; [reflexivity|]. cbn. rewrite Hx, IH. reflexivity.
Qed.

Lemma filter_none {A} (f : A -> bool) (l : list A) :
  Forall (fun x => f x = false) l -> List.filter f l = [].
Proof.
  induction 1 as [|x l Hx _ IH]; [reflexivity|]. cbn. rewrite Hx, IH. reflexivity.
Qed.

Lemma zip_self_same_sign (l : list pyfloat) :
  Forall not_nan l -> Forall (fun p => same_sign p = true) (zip l l).
Proof.
  induction 1 as [|x l Hx _ IH]; constructor; [apply same_sign_refl, Hx|exact IH].
Qed.

Lemma zip_neg_same_sign (l : list pyfloat) :
  Forall nonzero l -> Forall (fun p => same_sign p = false) (zip l (float_neg <$> l)).
Proof.
  induction 1 as [|x l Hx _ IH]; constructor; [apply same_sign_neg, Hx|exact IH].
Qed.

Lemma signAgreement_fraction (lm lo : list pyfloat) :
  lm <> [] ->
  exists q,
    signAgreement lm lo = Ok (Fin q) /\
    (q == inject_Z (Z.of_nat (length (List.filter same_sign (zip lm lo))))
          / inject_Z (Z.of_nat (length lm)))%Q /\
    (0 <= q)%Q /\ (q <= 1)%Q /\
    (lo = lm -> Forall not_nan lm -> (q == 1)%Q) /\
    (lo = float_neg <$> lm -> Forall nonzero lm -> (q == 0)%Q).
Proof.
  intros Hne. unfold signAgreement, agreeing_regions.
  fold same_sign. destruct lm as [|x lm']; [congruence|].
  set (lm := x :: lm') in *. eexists. split; [reflexivity|].
  assert (Hq : (py_sum ((fun _ => 1%Q) <$> List.filter same_sign (zip lm lo))
                / inject_Z (Z.of_nat (length lm))
                == inject_Z (Z.of_nat (length (List.filter same_sign (zip lm lo))))
                   / inject_Z (Z.of_nat (length lm)))%Q).
  { rewrite py_sum_ones. reflexivity. }
  assert (Hlen : (0 < length lm)%nat) by (cbn; lia).
  split; [exact Hq|]. rewrite Hq.
  destruct (fraction_bounds _ _ (count_le lm lo) Hlen) as [H0 H1].
  split; [exact H0|]. split; [exact H1|]. split.
  - intros -> Hnan. rewrite (filter_all _ _ (zip_self_same_sign lm Hnan)).
    rewrite length_zip_with, Nat.min_id.
    apply Qmult_inv_r. change 0%Q with (inject_Z 0). rewrite inject_Z_injective. lia.
  - intros -> Hnz. rewrite (filter_none _ _ (zip_neg_same_sign lm Hnz)).
    cbn [length]. unfold Qdiv. rewrite Qmult_0_l. reflexivity.
Qed.

Section MetricsFacts.
Context `{T : Toolkit}.

Lemma bind_Ok {A B} (a : A) (f : A -> result B) : (Ok a ≫= f) = f a.
Proof. reflexivity. Qed.

Lemma bind_Raise {A B} (e : pyerror) (f : A -> result B) :
  (Raise e ≫= f) = Raise e.
Proof. reflexivity. Qed.

Lemma check_two_length_check (c : metric_call) (kw : kwargs) (sel : selection) :
  too_short_error c = (fun which len mini =>
     MyError (too_short_strings (function_name c) which len mini)) ->
  check_min_time_steps (function_name c) kw (tab_model sel) (tab_obs sel)
  = length_check c kw (two_series sel).
Proof.
  intros Herr. unfold check_min_time_steps, length_check.
  destruct (getitem kw "min_time_steps") as [mini|e]; [|reflexivity].
  rewrite !bind_Ok. destruct (isinstance_int mini); [|reflexivity].
  simpl. rewrite Herr.
  destruct (array_len (tab_model sel) <? int_value mini); [reflexivity|].
  simpl. destruct (array_len (tab_obs sel) <? int_value mini); reflexivity.
Qed.

Lemma check_single_length_check (c : metric_call) (kw : kwargs) (tab : array) :
  too_short_error c = (fun which len mini =>
     TooShortTimePeriod (function_name c) len mini (INSPECTstack (function_name c))) ->
  check_min_time_steps_single (function_name c) kw tab
  = length_check c kw [("", tab)].
Proof.
  intros Herr. unfold check_min_time_steps_single, length_check.
  destruct (getitem kw "min_time_steps") as [mini|e]; [|reflexivity].
  rewrite !bind_Ok. destruct (isinstance_int mini); [|reflexivity].
  simpl. rewrite Herr.
  destruct (array_len tab <? int_value mini); reflexivity.
Qed.

(** Every metric function is its three phases in sequence. *)
Lemma run_phases (c : metric_call) (kwargs0 : kwargs) :
  run c kwargs0 =
  (p ← prepare c kwargs0;
   _ ← length_check c (p_kwargs p) (p_series p);
   p_compute p).
Proof.
  destruct c; cbn [run prepare needed_kwarg].
  - unfold rmse_metric.
    destruct (select_two _ _ _ _ _ _ _) as [sel|e]; [|reflexivity].
    rewrite !bind_Ok. cbn [p_kwargs p_series p_compute].
    rewrite <- (check_two_length_check
                  (CallRmse f model obs box centered_rmse biased_rmse))
      by reflexivity.
    reflexivity.
  - unfold feedback_metric.
    destruct (feedback_select _ _ _ _ _ _) as [[[[a b] c] d]|e]; [|reflexivity].
    rewrite !bind_Ok. cbn [p_kwargs p_series p_compute]. unfold CheckTime.
    rewrite (check_single_length_check (CallFeedback f sst sstbox flux fluxbox))
      by reflexivity.
    destruct (CommonTimePeriod a c _) as [s1 s2]. cbn [fst snd].
    destruct (length_check _ _ _); reflexivity.
  - unfold EnsoAmpl.
    destruct (read_masked _ _ _ _ _ _ _) as [tab area].
    rewrite bind_Ok. cbn [p_kwargs p_series p_compute].
    rewrite (check_single_length_check (CallEnsoAmpl sst sstbox)) by reflexivity.
    reflexivity.
  - unfold EnsoSeasonality.
    destruct (read_masked _ _ _ _ _ _ _) as [tab area].
    rewrite bind_Ok. cbn [p_kwargs p_series p_compute].
    rewrite (check_single_length_check (CallEnsoSeasonality sst sstbox))
      by reflexivity.
    reflexivity.
  - unfold EnsoPrJjaTel, EnsoPrJjaTel_run.
    destruct (setting_variables _) as [[[r se] th]|e]; [|reflexivity].
    rewrite !bind_Ok.
    destruct (EnsoPrJjaTel_attributes _ _ _ _) as [ev|e]; [|reflexivity].
    rewrite !bind_Ok.
    destruct (select_two _ _ _ _ _ _ _) as [sel|e]; [|reflexivity].
    rewrite !bind_Ok. cbn [p_kwargs p_series p_compute].
    rewrite <- (check_two_length_check
                  (CallEnsoPrJjaTel sst_model pr_model sst_obs pr_obs sstbox prbox
                     event_definition centered_rmse biased_rmse))
      by reflexivity.
    cbn [function_name].
    destruct (check_min_time_steps _ _ _ _); reflexivity.
  - unfold event_lon_metric.
    destruct (setting_variables _) as [[[r se] th]|e]; [|reflexivity].
    rewrite !bind_Ok.
    destruct (event_lon_attributes _ _ _ _ _) as [ev|e]; [|reflexivity].
    rewrite !bind_Ok.
    destruct (select_two _ _ _ _ _ _ _) as [sel|e]; [|reflexivity].
    rewrite !bind_Ok. cbn [p_kwargs p_series p_compute].
    rewrite <- (check_two_length_check
                  (CallSstLonRmse nino model obs box event_definition
                     centered_rmse biased_rmse))
      by reflexivity.
    reflexivity.
  - unfold event_ts_metric.
    destruct (setting_variables _) as [[[r se] th]|e]; [|reflexivity].
    rewrite !bind_Ok.
    destruct (event_ts_attributes _ _ _ _ _ _) as [ev|e]; [|reflexivity].
    rewrite !bind_Ok.
    destruct (select_two _ _ _ _ _ _ _) as [sel|e]; [|reflexivity].
    rewrite !bind_Ok. cbn [p_kwargs p_series p_compute].
    rewrite <- (check_two_length_check
                  (CallSstTsRmse nino model obs box event_definition nbr_years_window
                     centered_rmse biased_rmse))
      by reflexivity.
    reflexivity.
Qed.

(** *** Defaults *)

Lemma fill_defaults_Some (l : list string) (kw : kwargs) (k : string) (v : pyval) :
  kw !! k = Some v -> fill_defaults l kw !! k = Some v.
Proof.
  revert kw. induction l as [|a l IH]; intros kw Hk; [exact Hk|].
  cbn [fill_defaults foldl]. apply IH.
  destruct (kw !! a) eqn:Ha; [exact Hk|].
  rewrite lookup_insert_ne; [exact Hk|]. intros ->. congruence.
Qed.

Lemma fill_defaults_None_in (l : list string) (kw : kwargs) (k : string) :
  kw !! k = None -> k ∈ l -> fill_defaults l kw !! k = Some (DefaultArgValues k).
Proof.
  revert kw. induction l as [|a l IH]; intros kw Hk Hin.
  - inversion Hin.
  - cbn [fill_defaults foldl].
    destruct (decide (a = k)) as [->|Hne].
    + rewrite Hk. apply fill_defaults_Some. apply lookup_insert_eq.
    + apply IH.
      * destruct (kw !! a); [exact Hk|]. rewrite lookup_insert_ne; auto.
      * apply elem_of_cons in Hin as [Heq|Hin]; [congruence|exact Hin].
Qed.

Lemma fill_defaults_None_notin (l : list string) (kw : kwargs) (k : string) :
  kw !! k = None -> k ∉ l -> fill_defaults l kw !! k = None.
Proof.
  revert kw. induction l as [|a l IH]; intros kw Hk Hin; [exact Hk|].
  cbn [fill_defaults foldl]. apply not_elem_of_cons in Hin as [Hne Hin].
  apply IH; [|exact Hin].
  destruct (kw !! a); [exact Hk|]. rewrite lookup_insert_ne; auto.
Qed.

Lemma min_time_steps_needed (c : metric_call) : "min_time_steps" ∈ needed_kwarg c.
Proof.
  destruct c; cbn [needed_kwarg];
    unfold needed_kwarg_regrid, needed_kwarg_single, needed_kwarg_event;
    repeat (first [apply list_elem_of_here | apply list_elem_of_further]).
Qed.

Lemma prepare_kwargs (c : metric_call) (kwargs0 : kwargs) (p : prepared) :
  prepare c kwargs0 = Ok p -> p_kwargs p = fill_defaults (needed_kwarg c) kwargs0.
Proof.
  unfold prepare. generalize (fill_defaults (needed_kwarg c) kwargs0) as kw.
  intros kw H. destruct c;
    repeat match type of H with
      | (?m ≫= _) = Ok _ => destruct m; [rewrite bind_Ok in H|discriminate H]
      | (let '(_, _) := ?x in _) = _ => destruct x
      | (match ?x with _ => _ end) = _ => destruct x
      end;
    injection H as <-; reflexivity.
Qed.

(** *** C1: the length check *)

Lemma first_short_spec (mini : pyval) (series : list (string * array)) :
  match first_short mini series with
  | Some (which, tab) =>
      (which, tab) ∈ series ∧ array_len tab < int_value mini
  | None => Forall (fun s => int_value mini <= array_len (snd s)) series
  end.
Proof.
  induction series as [|[which tab] series IH]; cbn [first_short].
  - constructor.
  - destruct (Z.ltb_spec (array_len tab) (int_value mini)) as [Hlt|Hge].
    + split; [apply list_elem_of_here|exact Hlt].
    + destruct (first_short mini series) as [[w t]|].
      * destruct IH as [Hin Hlt]. split; [apply list_elem_of_further, Hin|exact Hlt].
      * constructor; [exact Hge|exact IH].
Qed.

(** C1.  For every metric function: once the data are read ([prepare]
    succeeds with the series [p_series p]), if the caller supplies a
    [min_time_steps] that is an [int] and one of the series has fewer
    time steps, the call fails with the too-short error, which names the
    function, the length of a too-short series and the minimum; if the
    caller supplies no [min_time_steps] (its default is [None]) or one
    that is not an [int], there is no length check: the call returns what
    the rest of the function computes. *)
Theorem min_time_steps_check (c : metric_call) (kwargs0 : kwargs) (p : prepared) :
  prepare c kwargs0 = Ok p ->
  (∀ mini : pyval,
      kwargs0 !! "min_time_steps" = Some mini ->
      isinstance_int mini = true ->
      (∃ s, s ∈ p_series p ∧ array_len (snd s) < int_value mini) ->
      ∃ which tab,
        (which, tab) ∈ p_series p ∧ array_len tab < int_value mini ∧
        run c kwargs0 = Raise (too_short_error c which (array_len tab) mini))
  ∧ (∀ which len mini,
      match too_short_error c which len mini with
      | MyError [_; line] =>
          line = blanks 5 ++ function_name c ++ ": the " ++ which ++
                 " time-period is too short: " ++ pretty len ++
                 " (minimum time-period: " ++ str_of mini ++ ")"
      | TooShortTimePeriod metric_name length minimum _ =>
          metric_name = function_name c ∧ length = len ∧ minimum = mini
      | _ => False
      end)
  ∧ (kwargs0 !! "min_time_steps" = None ∨
     (∃ v, kwargs0 !! "min_time_steps" = Some v ∧ isinstance_int v = false) ->
     run c kwargs0 = p_compute p).
Proof.
  intros Hp. pose proof (prepare_kwargs _ _ _ Hp) as Hkw.
  rewrite run_phases, Hp, bind_Ok. unfold length_check, getitem.
  split; [|split].
  - intros mini Hmini Hint [s [Hs Hlt]].
    rewrite Hkw, (fill_defaults_Some _ _ _ _ Hmini), bind_Ok, Hint.
    pose proof (first_short_spec mini (p_series p)) as Hfs.
    destruct (first_short mini (p_series p)) as [[which tab]|].
    + exists which, tab. destruct Hfs as [Hin Hlt']. split; [exact Hin|].
      split; [exact Hlt'|reflexivity].
    + exfalso. rewrite Forall_forall in Hfs. specialize (Hfs s Hs). lia.
  - intros which len mini.
    destruct c; cbn [too_short_error]; unfold too_short_strings; auto.
  - intros [Hnone|[v [Hv Hint]]].
    + rewrite Hkw, (fill_defaults_None_in _ _ _ Hnone (min_time_steps_needed c)).
      reflexivity.
    + rewrite Hkw, (fill_defaults_Some _ _ _ _ Hv), bind_Ok, Hint. reflexivity.
Qed.

(** *** C2, C9: the regridding step *)

Lemma getitem_Some (kw : kwargs) (k : string) (v : pyval) :
  kw !! k = Some v -> getitem kw k = Ok v.
Proof. intros H. unfold getitem. rewrite H. reflexivity. Qed.

Lemma getitem_None (kw : kwargs) (k : string) :
  kw !! k = None -> getitem kw k = Raise (KeyError k).
Proof. intros H. unfold getitem. rewrite H. reflexivity. Qed.





Lemma fill_defaults_is_Some (l : list string) (kw : kwargs) (k : string) :
  k ∈ l -> is_Some (fill_defaults l kw !! k).
Proof.
  intros Hin. destruct (kw !! k) as [v|] eqn:Hk.
  - exists v. apply fill_defaults_Some, Hk.
  - eexists. apply fill_defaults_None_in; assumption.
Qed.






End MetricsFacts.

Lemma min_time_steps_check_witness :
  ∃ (which : string) (tab : list Q),
    run (T := example_toolkit) short_call short_kwargs
    = Raise (too_short_error (T := example_toolkit) short_call which
               (Z.of_nat (length tab)) (PyInt 360)).
Proof.
  assert (Hs : p_series <$> prepare (T := example_toolkit) short_call short_kwargs
               = Ok [("modeled", replicate 12 0%Q); ("observed", replicate 24 0%Q)])
    by (vm_compute; reflexivity).
  destruct (prepare (T := example_toolkit) short_call short_kwargs)
    as [p|e] eqn:Hp; [|discriminate Hs].
  injection Hs as Hs.
  destruct (min_time_steps_check (T := example_toolkit) _ _ _ Hp) as [H _].
  destruct (H (PyInt 360)) as (which & tab & _ & _ & Hrun).
  - apply lookup_singleton_eq.
  - reflexivity.
  - rewrite Hs. exists ("modeled", replicate 12 0%Q).
    split; [apply list_elem_of_here|reflexivity].
  - exists which, tab. exact Hrun.
Defined.





Section TelFacts.
Context `{T : Toolkit}.

Lemma Ok_inj {A} (x y : A) : Ok x = Ok y -> x = y.
Proof. intros H. injection H. auto. Qed.

Lemma Ok_pair_inj {A B} (a a' : A) (b b' : B) :
  Ok (a, b) = Ok (a', b') -> a = a' /\ b = b'.
Proof. intros H. injection H. auto. Qed.

Lemma pr_region_lengths (pr_model pr_obs : dataset) (y1 y2 y3 y4 : list Z)
    (kw : kwargs) (regs : list string) (M M' : string) (lm lo lm' lo' : list pyfloat) :
  for_each (pr_region pr_model pr_obs y1 y2 y3 y4 kw) regs (M, lm, lo)
  = Ok (M', lm', lo') ->
  length lm' = (length lm + length regs)%nat /\
  length lo' = (length lo + length regs)%nat.
Proof.
  revert M lm lo. induction regs as [|reg regs IH]; intros M lm lo H.
  - cbn in H. injection H as <- <- <-. cbn. lia.
  - cbn [for_each] in H.
    destruct (pr_region _ _ _ _ _ _ _ _ reg) as [[[M1 lm1] lo1]|e] eqn:Hr;
      [|discriminate H].
    rewrite bind_Ok in H. apply IH in H as [H1 H2].
    unfold pr_region in Hr.
    destruct (select_two _ _ _ _ _ _ _) as [sel|e]; [|discriminate Hr].
    rewrite bind_Ok in Hr.
    destruct (PreProcessTS (tab_model sel) _ _ _ _ _ _) as [a b].
    destruct (PreProcessTS (tab_obs sel) _ _ _ _ _ _) as [c d].
    destruct (getitem kw "frequency") as [fr|e]; [|discriminate Hr].
    rewrite bind_Ok in Hr. injection Hr as <- <- <-.
    rewrite length_app in H1, H2. cbn in *. lia.
Qed.

Lemma EnsoPrJjaTel_compute_value2 (ev : event_setup) (sel : selection)
    (pr_model pr_obs : dataset) (prbox : pyval) (centered_rmse biased_rmse : pyval)
    (kw kw' : kwargs) (r : metric_record) :
  EnsoPrJjaTel_compute ev sel pr_model pr_obs prbox centered_rmse biased_rmse kw
  = Ok (r, kw') ->
  exists (regions : list string) (lm lo : list pyfloat) (v : pyfloat),
    sorted_prbox prbox = Ok regions /\
    length lm = length regions /\ length lo = length regions /\
    r !! "dive_down_diag" =
      Some (PyDict [("model", py_floats lm); ("observations", py_floats lo);
                    ("axis", py_strings regions)]) /\
    signAgreement lm lo = Ok v /\
    r !! "value2" = Some (PyFloat v).
Proof.
  unfold EnsoPrJjaTel_compute. intros H.
  destruct (PreProcessTS (tab_model sel) _ _ _ _ _ _) as [sm u1].
  destruct (PreProcessTS (tab_obs sel) _ _ _ _ _ _) as [so u2].
  destruct (py_neg _) as [mt|e]; [|discriminate H]. rewrite bind_Ok in H.
  destruct (sorted_prbox prbox) as [regions|e]; [|discriminate H].
  rewrite bind_Ok in H.
  destruct (EnsoPrJjaTel_composites _ _ _ _ _ _ _ _ _) as [[[[M lm] lo] k]|e] eqn:Hc;
    [|discriminate H].
  rewrite bind_Ok in H.
  destruct (signAgreement lm lo) as [v|e] eqn:Hv; [|discriminate H].
  rewrite bind_Ok in H.
  destruct (getitem k "frequency") as [fr|e]; [|discriminate H].
  rewrite bind_Ok in H. apply Ok_pair_inj in H as [<- <-].
  exists regions, lm, lo, v. split; [reflexivity|].
  unfold EnsoPrJjaTel_composites in Hc.
  destruct (for_each _ _ _) as [[[M1 lm1] lo1]|e] eqn:Hf; [|discriminate Hc].
  rewrite bind_Ok in Hc.
  destruct (match _ with Some _ => _ | None => _ end) as [k1|e] in Hc;
    [|discriminate Hc].
  rewrite bind_Ok in Hc. injection Hc as <- <- <- <-.
  apply pr_region_lengths in Hf as [Hl1 Hl2]. cbn in Hl1, Hl2.
  split; [exact Hl1|]. split; [exact Hl2|].
  split; [record_lookup|]. split; [exact Hv|record_lookup].
Qed.

(** C5 (amended).  The second statistic of EnsoPrJjaTel, returned under
    "value2", is the fraction of the precipitation regions for which the
    model and the observed composite differences (the two lists of the
    dive-down diagnostic) have the same sign.  It lies in [0, 1]; it is
    1 when the two lists are elementwise identical and hold no NaN; it is
    0 when one list is the elementwise negation of the other and no
    element is zero. *)
Theorem EnsoPrJjaTel_sign_agreement (sst_model pr_model sst_obs pr_obs : dataset)
    (sstbox : string) (prbox : pyval) (event_definition : list (string * pyval))
    (centered_rmse biased_rmse : pyval) (kwargs0 : kwargs) (r : metric_record) :
  EnsoPrJjaTel sst_model pr_model sst_obs pr_obs sstbox prbox event_definition
    centered_rmse biased_rmse kwargs0 = Ok r ->
  exists (regions : list string) (lm lo : list pyfloat) (q : Q),
    sorted_prbox prbox = Ok regions /\ regions <> [] /\
    length lm = length regions /\ length lo = length regions /\
    r !! "dive_down_diag" =
      Some (PyDict [("model", py_floats lm); ("observations", py_floats lo);
                    ("axis", py_strings regions)]) /\
    r !! "value2" = Some (PyFloat (Fin q)) /\
    (q == inject_Z (Z.of_nat (length (List.filter same_sign (zip lm lo))))
          / inject_Z (Z.of_nat (length regions)))%Q /\
    (0 <= q)%Q /\ (q <= 1)%Q /\
    (lo = lm -> Forall not_nan lm -> (q == 1)%Q) /\
    (lo = float_neg <$> lm -> Forall nonzero lm -> (q == 0)%Q).
Proof.
  unfold EnsoPrJjaTel, EnsoPrJjaTel_run. intros H.
  destruct (setting_variables _) as [[[re se] th]|e]; [|discriminate H].
  rewrite bind_Ok in H.
  destruct (EnsoPrJjaTel_attributes _ _ _ _) as [ev|e]; [|discriminate H].
  rewrite bind_Ok in H.
  destruct (select_two _ _ _ _ _ _ _) as [sel|e]; [|discriminate H].
  rewrite bind_Ok in H.
  destruct (check_min_time_steps _ _ _ _) as [[]|e]; [|discriminate H].
  rewrite bind_Ok in H.
  destruct (EnsoPrJjaTel_compute _ _ _ _ _ _ _ _) as [[r' kw']|e] eqn:Hc;
    [|discriminate H].
  apply Ok_inj in H. cbn [fst] in H. subst r'.
  apply EnsoPrJjaTel_compute_value2 in Hc
    as (regions & lm & lo & v & Hreg & Hlm & Hlo & Hdiag & Hv & Hval).
  assert (Hne : lm <> []).
  { intros ->. cbn in Hv. discriminate Hv. }
  destruct (signAgreement_fraction lm lo Hne)
    as (q & Hq & Hfrac & H0 & H1 & Hsame & Hneg).
  rewrite Hq in Hv. apply Ok_inj in Hv. subst v.
  exists regions, lm, lo, q. split; [exact Hreg|]. split.
  { intros ->. destruct lm; [congruence|discriminate Hlm]. }
  rewrite Hlm in Hfrac. repeat (split; [assumption|]). assumption.
Qed.

Lemma restore_smoothing (kw : kwargs) (v : pyval) :
  kw !! "smoothing" = Some v ->
  <["smoothing" := v]> (<["smoothing" := PyBool false]> kw) = kw.
Proof. intros H. rewrite insert_insert_eq. apply insert_id, H. Qed.

(** The composite phase is the loop over the regions on a [kwargs]
    whose smoothing entry is [False]; it ends with the [kwargs] it
    started with. *)
Lemma EnsoPrJjaTel_composites_unsmoothed (pr_model pr_obs : dataset)
    (regions : list string) (y1 y2 y3 y4 : list Z) (Method : string) (kw : kwargs) :
  is_Some (kw !! "smoothing") ->
  EnsoPrJjaTel_composites pr_model pr_obs regions y1 y2 y3 y4 Method kw
  = (fun st => (st, kw)) <$>
      for_each (pr_region pr_model pr_obs y1 y2 y3 y4
                  (<["smoothing" := PyBool false]> kw)) regions (Method, [], []).
Proof.
  intros [v Hv]. unfold EnsoPrJjaTel_composites. rewrite Hv.
  destruct (for_each _ _ _) as [[[M lm] lo]|e]; [|reflexivity].
  rewrite bind_Ok, lookup_insert_eq, bind_Ok, (restore_smoothing _ _ Hv).
  reflexivity.
Qed.

(** C10.  EnsoPrJjaTel runs its whole precipitation read-and-composite
    phase on a [kwargs] whose smoothing entry is [False] and restores the
    entry before it returns: the lists of composite differences do not
    depend on the smoothing option, which reaches only the preprocessing
    of the SST index the events are detected on, and the [kwargs] the
    function ends with hold the caller's smoothing value. *)
Theorem EnsoPrJjaTel_smoothing (sst_model pr_model sst_obs pr_obs : dataset)
    (sstbox : string) (prbox : pyval) (event_definition : list (string * pyval))
    (centered_rmse biased_rmse : pyval) (kwargs0 kwargs1 : kwargs)
    (r : metric_record) :
  EnsoPrJjaTel_run sst_model pr_model sst_obs pr_obs sstbox prbox event_definition
    centered_rmse biased_rmse kwargs0 = Ok (r, kwargs1) ->
  kwargs1 = fill_defaults needed_kwarg_event kwargs0
  /\ (forall v, kwargs0 !! "smoothing" = Some v -> kwargs1 !! "smoothing" = Some v)
  /\ (forall regions y1 y2 y3 y4 Method,
        EnsoPrJjaTel_composites pr_model pr_obs regions y1 y2 y3 y4 Method kwargs1
        = (fun st => (st, kwargs1)) <$>
            for_each (pr_region pr_model pr_obs y1 y2 y3 y4
                        (<["smoothing" := PyBool false]> kwargs1))
              regions (Method, [], []))
  /\ (forall regions y1 y2 y3 y4 Method v,
        fst <$> EnsoPrJjaTel_composites pr_model pr_obs regions y1 y2 y3 y4 Method
                  (<["smoothing" := v]> kwargs1)
        = fst <$> EnsoPrJjaTel_composites pr_model pr_obs regions y1 y2 y3 y4 Method
                    kwargs1).
Proof.
  unfold EnsoPrJjaTel_run.
  assert (Hsm : is_Some (fill_defaults needed_kwarg_event kwargs0 !! "smoothing"))
    by (apply fill_defaults_is_Some; unfold needed_kwarg_event; in_list).
  revert Hsm. generalize (fill_defaults_Some needed_kwarg_event kwargs0 "smoothing").
  generalize (fill_defaults needed_kwarg_event kwargs0) as kw. intros kw Hkeep Hsm H.
  destruct (setting_variables _) as [[[re se] th]|e]; [|discriminate H].
  rewrite bind_Ok in H.
  destruct (EnsoPrJjaTel_attributes _ _ _ _) as [ev|e]; [|discriminate H].
  rewrite bind_Ok in H.
  destruct (select_two _ _ _ _ _ _ _) as [sel|e]; [|discriminate H].
  rewrite bind_Ok in H.
  destruct (check_min_time_steps _ _ _ _) as [[]|e]; [|discriminate H].
  rewrite bind_Ok in H. unfold EnsoPrJjaTel_compute in H.
  destruct (PreProcessTS (tab_model sel) _ _ _ _ _ _) as [sm u1].
  destruct (PreProcessTS (tab_obs sel) _ _ _ _ _ _) as [so u2].
  destruct (py_neg _) as [mt|e]; [|discriminate H]. rewrite bind_Ok in H.
  destruct (sorted_prbox prbox) as [regions|e]; [|discriminate H].
  rewrite bind_Ok in H.
  rewrite (EnsoPrJjaTel_composites_unsmoothed _ _ _ _ _ _ _ _ _ Hsm) in H.
  destruct (for_each _ _ _) as [[[M lm] lo]|e]; [|discriminate H].
  cbn [fmap result_fmap] in H. rewrite bind_Ok in H.
  destruct (signAgreement lm lo) as [v|e]; [|discriminate H].
  rewrite bind_Ok in H.
  destruct (getitem kw "frequency") as [fr|e]; [|discriminate H].
  rewrite bind_Ok in H. apply Ok_pair_inj in H as [_ <-].
  split; [reflexivity|]. split; [exact Hkeep|]. split.
  - intros. apply EnsoPrJjaTel_composites_unsmoothed, Hsm.
  - intros regions' y1 y2 y3 y4 Method v'.
    rewrite !EnsoPrJjaTel_composites_unsmoothed;
      [|exact Hsm|rewrite lookup_insert_eq; eexists; reflexivity].
    rewrite insert_insert_eq.
    destruct (for_each _ _ _); reflexivity.
Qed.

End TelFacts.

Section RecordFacts.
Context `{T : Toolkit}.













End RecordFacts.


Lemma EnsoPrJjaTel_sign_agreement_witness :
  exists (r : metric_record) (q : Q),
    tel_call 360 ∅ = Ok r /\ r !! "value2" = Some (PyFloat (Fin q)) /\
    (0 <= q)%Q /\ (q <= 1)%Q.
Proof.
  assert (Hok : is_ok (tel_call 360 ∅) = true) by (vm_compute; reflexivity).
  destruct (tel_call 360 ∅) as [r|e] eqn:Hr; [|discriminate Hok].
  pose proof Hr as Hrun. unfold tel_call in Hrun.
  destruct (EnsoPrJjaTel_sign_agreement (T := example_toolkit) _ _ _ _ _ _ _ _ _ _ _ Hrun)
    as (regions & lm & lo & q & _ & _ & _ & _ & _ & Hv & _ & H0 & H1 & _).
  exists r, q. split; [reflexivity|]. split; [exact Hv|]. split; assumption.
Defined.

(** C5 as stated fails on composites that are not numbers: with
    precipitation files of no time step the composite differences of the
    model and of the observations are the same list of two NaN, and the
    sign agreement is 0, not 1 ([sign(nan)] is NaN, and NaN is not equal
    to itself). *)
Lemma nan_composites_disagree :
  signAgreement [NaN; NaN] [NaN; NaN] = Ok (Fin (0 # 2))
  /\ (fun r : metric_record => (r !! "dive_down_diag", r !! "value2")) <$> tel_call 0 ∅
     = Ok (Some (PyDict [("model", py_floats [NaN; NaN]);
                         ("observations", py_floats [NaN; NaN]);
                         ("axis", py_strings ["CAS"; "SEAS"])]),
           Some (PyFloat (Fin (0 # 2))))
  /\ ~ (0 # 2 == 1)%Q.
Proof.
  split; [vm_compute; reflexivity|]. split; [vm_compute; reflexivity|].
  intros H. discriminate H.
Qed.

Lemma EnsoPrJjaTel_smoothing_witness :
  exists (r : metric_record) (kwargs1 : kwargs),
    tel_run 360 smoothed = Ok (r, kwargs1) /\
    kwargs1 !! "smoothing" = Some (PyInt 5).
Proof.
  assert (Hok : is_ok (tel_run 360 smoothed) = true) by (vm_compute; reflexivity).
  destruct (tel_run 360 smoothed) as [[r kwargs1]|e] eqn:Hr; [|discriminate Hok].
  pose proof Hr as Hrun. unfold tel_run in Hrun.
  destruct (EnsoPrJjaTel_smoothing (T := example_toolkit) _ _ _ _ _ _ _ _ _ _ _ _ Hrun)
    as (_ & Hkeep & _).
  exists r, kwargs1. split; [reflexivity|].
  apply Hkeep. apply lookup_singleton_eq.
Defined.

(** *** Event detection and composites *)

Section EventFacts.
Import EventModel.
Variable seasonal_values : list Q -> string -> list (Z * Q).
Variable overall_std : list Q -> Q.

Lemma crosses_spec (nino : bool) (threshold v : Q) :
  crosses nino threshold v = true <->
  if nino then (threshold <= v)%Q else (v <= threshold)%Q.
Proof. unfold crosses. destruct nino; apply Qle_bool_iff. Qed.

Lemma crosses_at_threshold (nino : bool) (threshold : Q) :
  crosses nino threshold threshold = true.
Proof. apply crosses_spec. destruct nino; apply Qle_refl. Qed.

Lemma crosses_nino_below (threshold eps : Q) :
  (0 < eps)%Q -> crosses true threshold (threshold - eps) = false.
Proof.
  intros Heps. apply not_true_is_false. intros H. apply crosses_spec in H.
  apply (Qlt_not_le _ _ Heps). apply (Qplus_le_r _ _ (threshold - eps)).
  ring_simplify. exact H.
Qed.

Lemma crosses_nino_above (threshold eps : Q) :
  (0 < eps)%Q -> crosses true threshold (threshold + eps) = true.
Proof.
  intros Heps. apply crosses_spec.
  rewrite <- (Qplus_0_r threshold) at 1. apply Qplus_le_r, Qlt_le_weak, Heps.
Qed.

(** C3.  A year is an event exactly when its seasonal value, divided by
    the overall standard deviation of the series when normalization is
    requested, is at least the threshold (El Nino) or at most the
    threshold (La Nina).  A seasonal value equal to the threshold counts,
    one just below it does not: on the seasonal values threshold - eps,
    threshold, threshold + eps the years of the last two are the El Nino
    events. *)
Theorem DetectEvents_threshold (index_series : list Q) (season : string)
    (threshold : Q) (normalized nino : bool) :
  (forall year,
     year ∈ DetectEvents seasonal_values overall_std index_series season threshold
              normalized nino <->
     exists seasonal_value,
       (year, seasonal_value) ∈ seasonal_values index_series season /\
       let value := if normalized
                    then (seasonal_value / overall_std index_series)%Q
                    else seasonal_value in
       if nino then (threshold <= value)%Q else (value <= threshold)%Q)
  /\ (forall year1 year2 year3 eps,
        (0 < eps)%Q ->
        seasonal_values index_series season
        = [(year1, threshold - eps); (year2, threshold); (year3, threshold + eps)]%Q ->
        DetectEvents seasonal_values overall_std index_series season threshold
          false true = [year2; year3]).
Proof.
  split.
  - intros year. unfold DetectEvents, compared_value.
    rewrite list_elem_of_fmap. split.
    + intros [[y v] [-> Hin]]. apply list_elem_of_In, filter_In in Hin as [Hin Hc].
      exists v. split; [apply list_elem_of_In, Hin|].
      apply crosses_spec in Hc. exact Hc.
    + intros [v [Hin Hc]]. exists (year, v). split; [reflexivity|].
      apply list_elem_of_In, filter_In. split; [apply list_elem_of_In, Hin|].
      apply crosses_spec. exact Hc.
  - intros year1 year2 year3 eps Heps Hsv. unfold DetectEvents, compared_value.
    rewrite Hsv. cbn [List.filter snd].
    rewrite (crosses_nino_below _ _ Heps), crosses_at_threshold,
      (crosses_nino_above _ _ Heps).
    reflexivity.
Qed.

End EventFacts.

Section CompositeFacts.
Import EventModel.





Lemma filter_filter_same {A} (f : A -> bool) (l : list A) :
  List.filter f (List.filter f l) = List.filter f l.
Proof.
  induction l as [|x l IH]; [reflexivity|]. cbn [List.filter].
  destruct (f x) eqn:Hx; [|exact IH]. cbn [List.filter]. rewrite Hx, IH. reflexivity.
Qed.


End CompositeFacts.

Lemma DetectEvents_threshold_witness :
  EventModel.DetectEvents example_seasonal_values (fun _ => 1%Q) [] "DEC" (1 # 2)
    false true = [2002; 2003].
Proof.
  apply (proj2 (DetectEvents_threshold example_seasonal_values (fun _ => 1%Q) []
                  "DEC" (1 # 2) false true) 2001 2002 2003 (1 # 4)); reflexivity.
Defined.


(** *** The plotting driver *)

Lemma filter_first {A} (f : A -> bool) (l : list A) (x : A) (rest : list A) :
  List.filter f l = x :: rest ->
  exists l1 l2, l = (l1 ++ x :: l2)%list /\ (forall y, y ∈ l1 -> f y = false) /\
                f x = true.
Proof.
  induction l as [|a l IH]; [discriminate|]. cbn [List.filter].
  destruct (f a) eqn:Ha.
  - intros H. injection H as -> _. exists [], l. split; [reflexivity|].
    split; [|exact Ha]. intros y Hy. inversion Hy.
  - intros H. destruct (IH H) as (l1 & l2 & -> & Hl1 & Hx).
    exists (a :: l1), l2. split; [reflexivity|]. split; [|exact Hx].
    intros y Hy. apply elem_of_cons in Hy as [->|Hy]; [exact Ha|exact (Hl1 y Hy)].
Qed.

Lemma filter_first_app {A} (f : A -> bool) (l1 l2 : list A) (x : A) :
  (forall y, y ∈ l1 -> f y = false) -> f x = true ->
  List.filter f (l1 ++ x :: l2) = x :: List.filter f l2.
Proof.
  intros Hl1 Hx. induction l1 as [|a l1 IH]; cbn [app List.filter].
  - rewrite Hx. reflexivity.
  - rewrite (Hl1 a) by apply list_elem_of_here. apply IH.
    intros y Hy. apply Hl1, list_elem_of_further, Hy.
Qed.

Lemma insert_by_elem (f : string -> string) (x y : string) (l : list string) :
  y ∈ insert_by f x l <-> y = x \/ y ∈ l.
Proof.
  induction l as [|a l IH]; cbn [insert_by].
  - rewrite list_elem_of_singleton, elem_of_nil. tauto.
  - destruct (String.leb (f x) (f a)).
    + apply elem_of_cons.
    + rewrite !elem_of_cons, IH. tauto.
Qed.

Lemma sorted_by_elem (f : string -> string) (y : string) (l : list string) :
  y ∈ sorted_by f l <-> y ∈ l.
Proof.
  unfold sorted_by. induction l as [|a l IH]; cbn [foldr]; [reflexivity|].
  rewrite insert_by_elem, IH, elem_of_cons. reflexivity.
Qed.

Section DriverFacts.
Import Driver.
Variable listdir : list string.
Variable json_load : string -> option json.
Variable metric_reference : string -> string -> option string.
Variable stack_message : string.
Variable str_list : list string -> string.


Ltac follow H := rewrite H, bind_Ok; cbv beta.

Lemma json_path_cons (data : json) (key : string) (path : list string) :
  json_path data (key :: path) = json_getitem data key ≫= fun d => json_path d path.
Proof. reflexivity. Qed.

Lemma json_path_nil (data : json) : json_path data [] = Ok data.
Proof. reflexivity. Qed.

Lemma json_path_app (data : json) (p1 p2 : list string) :
  json_path data (p1 ++ p2) = json_path data p1 ≫= fun d => json_path d p2.
Proof.
  revert data. induction p1 as [|k p1 IH]; intros data; [reflexivity|].
  cbn [app]. rewrite !json_path_cons.
  destruct (json_getitem data k) as [d|e]; [|reflexivity].
  rewrite !bind_Ok. apply IH.
Qed.

(** The reference the driver reads for a metric whose preferred
    reference is not among the references of the record. *)
Lemma choose_reference_fallback (proj mc mdl met ref : string) (list_ref : list string) :
  ref ∉ list_ref ->
  Driver.choose_reference stack_message str_list proj mc mdl met ref list_ref =
    if bool_decide ("ERA-Interim" ∈ list_ref)
    then Ok ("ERA-Interim", [Driver.reference_warning stack_message proj mc mdl met "ERA-Interim" ref])
    else if bool_decide ("ERA-Interim_ERA-Interim" ∈ list_ref)
         then Ok ("ERA-Interim_ERA-Interim",
                  [Driver.reference_warning stack_message proj mc mdl met "ERA-Interim_ERA-Interim" ref])
         else Raise (MyError (Driver.reference_error stack_message str_list proj mc mdl met list_ref)).
Proof.
  intros Hnot. unfold Driver.choose_reference.
  rewrite bool_decide_eq_false_2 by exact Hnot.
  destruct (bool_decide ("ERA-Interim" ∈ list_ref)); [reflexivity|].
  destruct (bool_decide ("ERA-Interim_ERA-Interim" ∈ list_ref)); reflexivity.
Qed.

(** C7.  When the reference of a metric is not among the references of
    the metric record, the driver reads "ERA-Interim" if the record has
    it, else "ERA-Interim_ERA-Interim" if the record has it, and prints a
    warning in both cases; when the record has neither, it raises an
    error whose text names the project, the metric collection, the model
    and the metric.  The body of the loop over the metrics prints that
    warning, or stops on that error. *)
Theorem reference_fallback (proj mc mdl met : string) (data_mod entry data_met : json)
    (keys : list string) :
  json_getitem data_mod met = Ok entry ->
  json_getitem entry "metric" = Ok data_met ->
  json_keys data_met = Ok keys ->
  let ref := default "Tropflux" (Driver.get_reference metric_reference mc met) in
  let list_ref := sorted_by str_upper keys in
  ref ∉ keys ->
  ("ERA-Interim" ∈ keys ->
     Driver.choose_reference stack_message str_list proj mc mdl met ref list_ref
     = Ok ("ERA-Interim", [Driver.reference_warning stack_message proj mc mdl met "ERA-Interim" ref])
     /\ forall value warnings,
          Driver.read_metric metric_reference stack_message str_list proj mc mdl data_mod met = Ok (value, warnings) ->
          warnings = [Driver.reference_warning stack_message proj mc mdl met "ERA-Interim" ref])
  /\ ("ERA-Interim" ∉ keys -> "ERA-Interim_ERA-Interim" ∈ keys ->
        Driver.choose_reference stack_message str_list proj mc mdl met ref list_ref
        = Ok ("ERA-Interim_ERA-Interim",
              [Driver.reference_warning stack_message proj mc mdl met "ERA-Interim_ERA-Interim" ref])
        /\ forall value warnings,
             Driver.read_metric metric_reference stack_message str_list proj mc mdl data_mod met = Ok (value, warnings) ->
             warnings
             = [Driver.reference_warning stack_message proj mc mdl met "ERA-Interim_ERA-Interim" ref])
  /\ ("ERA-Interim" ∉ keys -> "ERA-Interim_ERA-Interim" ∉ keys ->
        Driver.choose_reference stack_message str_list proj mc mdl met ref list_ref
        = Raise (MyError (Driver.reference_error stack_message str_list proj mc mdl met list_ref))
        /\ Driver.read_metric metric_reference stack_message str_list proj mc mdl data_mod met
           = Raise (MyError (Driver.reference_error stack_message str_list proj mc mdl met list_ref)))
  /\ (forall my_ref,
        Driver.reference_warning stack_message proj mc mdl met my_ref ref
        = ["WARNING" ++ stack_message ++ ": reference changed";
           where_strings proj mc mdl met;
           blanks 10 ++ "reference set to '" ++ my_ref ++ "' instead of '" ++ ref ++ "'"])
  /\ Driver.reference_error stack_message str_list proj mc mdl met list_ref
     = ["ERROR" ++ stack_message ++ ": cannot fing a proper reference";
        blanks 5 ++ "project '" ++ proj ++ "', MC '" ++ mc ++ "', model '" ++ mdl ++
        "', metric '" ++ met ++ "'";
        blanks 10 ++ "input references = " ++ str_list list_ref].
Proof.
  intros Hentry Hmetric Hkeys ref list_ref Hnot.
  assert (Hnot' : ref ∉ list_ref) by (unfold list_ref; rewrite sorted_by_elem; exact Hnot).
  assert (Hchoose := choose_reference_fallback proj mc mdl met ref list_ref Hnot').
  assert (Hread : Driver.read_metric metric_reference stack_message str_list proj mc mdl data_mod met
                  = Driver.choose_reference stack_message str_list proj mc mdl met ref list_ref ≫= fun '(my_ref, warnings) =>
                    if contains "Taux" met && String.eqb mdl "BCC-ESM1"
                    then Ok (masked, warnings)
                    else
                      json_getitem data_met my_ref ≫= fun entry =>
                      json_getitem entry "value" ≫= fun value =>
                      match value with
                      | JNull => Ok (masked, warnings)
                      | _ => Ok (value, warnings)
                      end).
  { unfold Driver.read_metric. rewrite Hentry, bind_Ok, Hmetric, bind_Ok, Hkeys, bind_Ok.
    reflexivity. }
  assert (Hwarn : forall my_ref w value warnings,
            Driver.choose_reference stack_message str_list proj mc mdl met ref list_ref = Ok (my_ref, w) ->
            Driver.read_metric metric_reference stack_message str_list proj mc mdl data_mod met = Ok (value, warnings) ->
            warnings = w).
  { intros my_ref w value warnings Hc Hr. rewrite Hread, Hc, bind_Ok in Hr.
    destruct (contains "Taux" met && String.eqb mdl "BCC-ESM1").
    - apply Ok_pair_inj in Hr as [_ <-]. reflexivity.
    - destruct (json_getitem data_met my_ref) as [e1|?]; [|discriminate Hr].
      rewrite bind_Ok in Hr; cbv beta in Hr.
      destruct (json_getitem e1 "value") as [v|?]; [|discriminate Hr].
      rewrite bind_Ok in Hr; cbv beta in Hr.
      destruct v; apply Ok_pair_inj in Hr as [_ <-]; reflexivity. }
  split; [|split; [|split; [|split]]].
  - intros Hera.
    rewrite bool_decide_eq_true_2 in Hchoose
      by (unfold list_ref; rewrite sorted_by_elem; exact Hera).
    split; [exact Hchoose|]. intros value warnings. exact (Hwarn _ _ _ _ Hchoose).
  - intros Hera Hera2.
    rewrite bool_decide_eq_false_2, bool_decide_eq_true_2 in Hchoose
      by (unfold list_ref; rewrite sorted_by_elem; assumption).
    split; [exact Hchoose|]. intros value warnings. exact (Hwarn _ _ _ _ Hchoose).
  - intros Hera Hera2.
    rewrite !bool_decide_eq_false_2 in Hchoose
      by (unfold list_ref; rewrite sorted_by_elem; assumption).
    split; [exact Hchoose|]. rewrite Hread, Hchoose. reflexivity.
  - reflexivity.
  - reflexivity.
Qed.

(** C8.  For a project and a metric collection the driver opens the
    first name of the input directory, in the order the directory is
    listed, that matches
    [<project>_<experiment>_<metric collection>_v2019????_modified.json]
    (a hidden name does not match a pattern that does not start with a
    dot), and keeps what the file holds at RESULTS, model.  The number it
    plots for a model and a metric is the one at RESULTS, model, the
    model, value, the metric, metric, the reference, value of the file,
    replaced by the mask value 1e20 when it is null, or when the metric
    is a Taux metric of the model BCC-ESM1. *)
Theorem read_data_path (proj mc : string) :
  let pattern := proj ++ "_" ++ experiment ++ "_" ++ mc ++ "_v2019????_modified.json" in
  let matches := fun name =>
    fnmatch pattern name && (starts_with_dot pattern || negb (starts_with_dot name)) in
  (forall filename_js data_json,
     Driver.read_data listdir json_load proj mc = Ok (filename_js, data_json) ->
     exists before name after data,
       listdir = (before ++ name :: after)%list /\
       (forall other, other ∈ before -> matches other = false) /\
       matches name = true /\
       filename_js = path_in ++ "/" ++ name /\
       json_load filename_js = Some data /\
       json_path data ["RESULTS"; "model"] = Ok data_json /\
       forall mdl data_mod met value warnings,
         json_path data_json [mdl; "value"] = Ok data_mod ->
         Driver.read_metric metric_reference stack_message str_list proj mc mdl data_mod met = Ok (value, warnings) ->
         exists data_met keys my_ref,
           json_path data_mod [met; "metric"] = Ok data_met /\
           json_keys data_met = Ok keys /\
           Driver.choose_reference stack_message str_list proj mc mdl met (default "Tropflux" (Driver.get_reference metric_reference mc met))
             (sorted_by str_upper keys) = Ok (my_ref, warnings) /\
           if contains "Taux" met && String.eqb mdl "BCC-ESM1" then value = masked
           else exists v,
             json_path data ["RESULTS"; "model"; mdl; "value"; met; "metric"; my_ref;
                             "value"] = Ok v /\
             value = match v with JNull => masked | _ => v end)
  /\ (forall before name after data data_json,
        listdir = (before ++ name :: after)%list ->
        (forall other, other ∈ before -> matches other = false) ->
        matches name = true ->
        json_load (path_in ++ "/" ++ name) = Some data ->
        json_path data ["RESULTS"; "model"] = Ok data_json ->
        Driver.read_data listdir json_load proj mc = Ok (path_in ++ "/" ++ name, data_json))
  /\ ((forall name, name ∈ listdir -> matches name = false) ->
      Driver.read_data listdir json_load proj mc = Raise IndexError).
Proof.
  intros pattern matches.
  assert (Hglob : GLOBiglob listdir path_in pattern
                  = OSpath__join path_in <$> List.filter matches listdir).
  { unfold GLOBiglob, matches. f_equal.
    destruct (starts_with_dot pattern); cbn [orb].
    - apply filter_ext. intros a. rewrite andb_true_r. reflexivity.
    - induction listdir as [|a l IH]; [reflexivity|]. cbn [List.filter].
      destruct (starts_with_dot a); cbn [negb].
      + rewrite andb_false_r. exact IH.
      + rewrite andb_true_r. cbn [List.filter].
        destruct (fnmatch pattern a); [f_equal|]; exact IH. }
  split; [|split].
  - intros filename_js data_json H. unfold Driver.read_data in H.
    fold pattern in H. rewrite Hglob in H.
    destruct (List.filter matches listdir) as [|name rest] eqn:Hfilter;
      [discriminate H|].
    cbn [fmap list_fmap] in H.
    destruct (json_load (OSpath__join path_in name)) as [data|] eqn:Hload;
      [|discriminate H].
    destruct (json_getitem data "RESULTS") as [results|e] eqn:Hres; [|discriminate H].
    rewrite bind_Ok in H; cbv beta in H.
    destruct (json_getitem results "model") as [model|e] eqn:Hmodel; [|discriminate H].
    rewrite bind_Ok in H; cbv beta in H. apply Ok_pair_inj in H as [<- <-].
    destruct (filter_first _ _ _ _ Hfilter) as (before & after & Hlist & Hbefore & Hname).
    exists before, name, after, data.
    split; [exact Hlist|]. split; [exact Hbefore|]. split; [exact Hname|].
    split; [reflexivity|]. split; [exact Hload|].
    assert (Hroot : json_path data ["RESULTS"; "model"] = Ok model).
    { unfold json_path. cbn [for_each]. follow Hres. follow Hmodel. reflexivity. }
    split; [exact Hroot|].
    intros mdl data_mod met value warnings Hmod Hread.
    unfold json_path in Hmod. cbn [for_each] in Hmod.
    destruct (json_getitem model mdl) as [e1|?] eqn:He1; [|discriminate Hmod].
    rewrite bind_Ok in Hmod; cbv beta in Hmod.
    destruct (json_getitem e1 "value") as [e2|?] eqn:He2; [|discriminate Hmod].
    rewrite bind_Ok in Hmod. apply Ok_inj in Hmod. subst e2.
    unfold Driver.read_metric in Hread.
    destruct (json_getitem data_mod met) as [e3|?] eqn:He3; [|discriminate Hread].
    rewrite bind_Ok in Hread; cbv beta in Hread.
    destruct (json_getitem e3 "metric") as [data_met|?] eqn:He4; [|discriminate Hread].
    rewrite bind_Ok in Hread; cbv beta in Hread.
    destruct (json_keys data_met) as [keys|?] eqn:Hkeys; [|discriminate Hread].
    rewrite bind_Ok in Hread; cbv beta in Hread.
    destruct (Driver.choose_reference _ _ _ _ _ _ _ _) as [[my_ref w]|?] eqn:Hc;
      [|discriminate Hread].
    rewrite bind_Ok in Hread; cbv beta in Hread.
    exists data_met, keys, my_ref.
    split; [unfold json_path; cbn [for_each]; follow He3; follow He4; reflexivity|].
    split; [exact Hkeys|].
    destruct (contains "Taux" met && String.eqb mdl "BCC-ESM1").
    + apply Ok_pair_inj in Hread as [<- <-]. split; [exact Hc|reflexivity].
    + destruct (json_getitem data_met my_ref) as [e5|?] eqn:He5; [|discriminate Hread].
      rewrite bind_Ok in Hread; cbv beta in Hread.
      destruct (json_getitem e5 "value") as [v|?] eqn:He6; [|discriminate Hread].
      rewrite bind_Ok in Hread; cbv beta in Hread.
      assert (Hpath : json_path data ["RESULTS"; "model"; mdl; "value"; met; "metric";
                                      my_ref; "value"] = Ok v).
      { unfold json_path. cbn [for_each]. follow Hres. follow Hmodel. follow He1.
        follow He2. follow He3. follow He4. follow He5. follow He6. reflexivity. }
      destruct v; apply Ok_pair_inj in Hread as [<- <-];
        (split; [exact Hc|]); eexists; (split; [exact Hpath|reflexivity]).
  - intros before name after data data_json Hlist Hbefore Hname Hload Hpath.
    unfold Driver.read_data. fold pattern. rewrite Hglob, Hlist.
    rewrite (filter_first_app _ _ _ _ Hbefore Hname). cbn [fmap list_fmap].
    unfold OSpath__join. rewrite Hload.
    unfold json_path in Hpath. cbn [for_each] in Hpath.
    destruct (json_getitem data "RESULTS") as [results|e]; [|discriminate Hpath].
    rewrite bind_Ok in Hpath; cbv beta in Hpath. rewrite bind_Ok; cbv beta.
    destruct (json_getitem results "model") as [model|e]; [|discriminate Hpath].
    rewrite bind_Ok in Hpath. apply Ok_inj in Hpath. subst model.
    rewrite bind_Ok. reflexivity.
  - intros Hnone. unfold Driver.read_data. fold pattern. rewrite Hglob.
    replace (List.filter matches listdir) with (@nil string); [reflexivity|].
    symmetry. clear Hglob. induction listdir as [|a l IH]; [reflexivity|].
    cbn [List.filter]. rewrite (Hnone a) by apply list_elem_of_here.
    apply IH. intros x Hx. apply Hnone, list_elem_of_further, Hx.
Qed.

End DriverFacts.

Lemma reference_fallback_witness :
  Driver.choose_reference "" (fun _ => "") "cmip5" "ENSO_perf" "CNRM-CM5"
    "BiasSstLonRmse" "Tropflux" ["ERA-Interim"; "HadISST"]
  = Ok ("ERA-Interim",
        [Driver.reference_warning "" "cmip5" "ENSO_perf" "CNRM-CM5" "BiasSstLonRmse"
           "ERA-Interim" "Tropflux"]).
Proof.
  assert (Hnot : "Tropflux" ∉ ["HadISST"; "ERA-Interim"]) by not_in_list.
  assert (Hera : "ERA-Interim" ∈ ["HadISST"; "ERA-Interim"]) by in_list.
  exact (proj1 (proj1 (reference_fallback (fun _ _ => None) "" (fun _ => "")
                         "cmip5" "ENSO_perf" "CNRM-CM5" "BiasSstLonRmse"
                         example_record _ _ ["HadISST"; "ERA-Interim"]
                         eq_refl eq_refl eq_refl Hnot) Hera)).
Defined.

Lemma read_data_path_witness :
  Driver.read_data example_listdir example_json_load "cmip5" "ENSO_perf"
  = Ok (example_filename,
        Driver.JObj [("CNRM-CM5", Driver.JObj [("value", example_record)])]).
Proof.
  destruct (read_data_path example_listdir example_json_load (fun _ _ => None) ""
              (fun _ => "") "cmip5" "ENSO_perf") as (_ & Hopen & _).
  apply (Hopen ["notes.txt"] "cmip5_historical_ENSO_perf_v20190901_modified.json"
           ["cmip5_historical_ENSO_perf_v20191001_modified.json"] example_file).
  - reflexivity.
  - intros other Hother. apply list_elem_of_singleton in Hother. subst other.
    vm_compute. reflexivity.
  - vm_compute. reflexivity.
  - vm_compute. reflexivity.
  - vm_compute. reflexivity.
Defined.

(** ** The plotting driver: the metrics kept, the files read, the table *)

Lemma append_cons (c : ascii) (s t : string) : String c s ++ t = String c (s ++ t).
Proof. reflexivity. Qed.

Lemma append_nil (t : string) : "" ++ t = t.
Proof. reflexivity. Qed.

Lemma prefix_spec (p s : string) :
  String.prefix p s = true <-> exists rest, s = p ++ rest.
Proof.
  revert s. induction p as [|c p IH]; intros s.
  - destruct s; cbn; split; eauto.
  - destruct s as [|d s]; cbn.
    + split; [discriminate|]. intros [rest H]. discriminate H.
    + destruct (Ascii.ascii_dec c d) as [->|Hne].
      * rewrite IH. split; intros [rest H]; exists rest.
        -- rewrite append_cons, H. reflexivity.
        -- rewrite append_cons in H. injection H as H. exact H.
      * split; [discriminate|]. intros [rest H]. rewrite append_cons in H.
        congruence.
Qed.

Lemma contains_spec (needle s : string) :
  Driver.contains needle s = true <-> occurs_in needle s.
Proof.
  unfold occurs_in. induction s as [|c s IH].
  - cbn [Driver.contains]. rewrite orb_false_r, prefix_spec. split.
    + intros [rest H]. exists "", rest. exact H.
    + intros ([|b before] & after & H).
      * exists after. exact H.
      * discriminate H.
  - cbn [Driver.contains]. rewrite orb_true_iff, prefix_spec, IH. split.
    + intros [[rest H]|(before & after & H)].
      * exists "", rest. exact H.
      * exists (String c before), after. rewrite append_cons, H. reflexivity.
    + intros ([|b before] & after & H).
      * left. exists after. exact H.
      * right. rewrite append_cons in H. injection H as _ H.
        exists before, after. exact H.
Qed.

Section RemovalFacts.
Import DriverLoops.

Lemma list_remove_length (x : string) (l : list string) :
  x ∈ l -> S (length (list_remove x l)) = length l.
Proof.
  induction l as [|y l IH]; intros Hin; [inversion Hin|]. cbn [list_remove].
  destruct (String.eqb_spec y x) as [->|Hne]; [reflexivity|].
  apply elem_of_cons in Hin as [->|Hin]; [congruence|].
  cbn [length]. rewrite (IH Hin). reflexivity.
Qed.

Lemma list_remove_filter (x : string) (l : list string) :
  List.filter (fun y => negb (String.eqb y x)) (list_remove x l)
  = List.filter (fun y => negb (String.eqb y x)) l.
Proof.
  induction l as [|y l IH]; [reflexivity|]. cbn [list_remove].
  destruct (String.eqb y x) eqn:Hy; cbn [List.filter]; rewrite Hy; cbn [negb].
  - reflexivity.
  - rewrite IH. reflexivity.
Qed.

Lemma filter_absent (x : string) (l : list string) :
  x ∉ l -> List.filter (fun y => negb (String.eqb y x)) l = l.
Proof.
  induction l as [|y l IH]; intros Hnot; [reflexivity|]. cbn [List.filter].
  destruct (String.eqb_spec y x) as [->|Hne].
  - exfalso. apply Hnot, list_elem_of_here.
  - cbn [negb]. rewrite IH; [reflexivity|]. intros Hin.
    apply Hnot, list_elem_of_further, Hin.
Qed.

(** The [while] loop ends within as many turns as the list is long, and
    leaves the list without [met]. *)
Lemma remove_while_filter (fuel : nat) (met : string) (l : list string) :
  (length l <= fuel)%nat ->
  remove_while fuel met l = Some (List.filter (fun y => negb (String.eqb y met)) l).
Proof.
  revert l. induction fuel as [|fuel IH]; intros l Hlen; cbn [remove_while].
  - destruct l; [|cbn in Hlen; lia]. rewrite bool_decide_eq_false_2 by apply not_elem_of_nil.
    reflexivity.
  - destruct (bool_decide (met ∈ l)) eqn:Hin.
    + apply bool_decide_eq_true in Hin. rewrite IH.
      * rewrite list_remove_filter. reflexivity.
      * pose proof (list_remove_length met l Hin). lia.
    + apply bool_decide_eq_false in Hin. rewrite (filter_absent _ _ Hin). reflexivity.
Qed.

Lemma filter_and {A} (f g : A -> bool) (l : list A) :
  List.filter f (List.filter g l) = List.filter (fun x => g x && f x) l.
Proof.
  induction l as [|a l IH]; [reflexivity|]. cbn [List.filter].
  destruct (g a); cbn [List.filter andb]; [destruct (f a)|]; rewrite IH; reflexivity.
Qed.

Lemma filter_id {A} (f : A -> bool) (l : list A) :
  (forall x, x ∈ l -> f x = true) -> List.filter f l = l.
Proof.
  induction l as [|a l IH]; intros H; [reflexivity|]. cbn [List.filter].
  rewrite (H a) by apply list_elem_of_here. f_equal. apply IH.
  intros x Hx. apply H, list_elem_of_further, Hx.
Qed.

Lemma filter_same {A} (f g : A -> bool) (l : list A) :
  (forall x, x ∈ l -> f x = g x) -> List.filter f l = List.filter g l.
Proof.
  induction l as [|a l IH]; intros H; [reflexivity|]. cbn [List.filter].
  rewrite (H a) by apply list_elem_of_here. rewrite IH; [reflexivity|].
  intros x Hx. apply H, list_elem_of_further, Hx.
Qed.

Lemma remove_pass_fold (test : string -> bool) (todo acc : list string) :
  foldl (fun acc met =>
           list_met1 ← acc;
           if test met then remove_while (length list_met1) met list_met1
           else Some list_met1) (Some acc) todo
  = Some (List.filter (fun x => negb (test x && bool_decide (x ∈ todo))) acc).
Proof.
  revert acc. induction todo as [|met todo IH]; intros acc; cbn [foldl].
  - f_equal. symmetry. apply filter_id. intros x _.
    rewrite bool_decide_eq_false_2 by apply not_elem_of_nil.
    rewrite andb_false_r. reflexivity.
  - cbn [mbind option_bind]. destruct (test met) eqn:Ht.
    + rewrite remove_while_filter by lia. rewrite IH, filter_and. f_equal.
      apply filter_same. intros x _.
      destruct (String.eqb_spec x met) as [->|Hne]; cbn [negb andb].
      * rewrite Ht, bool_decide_eq_true_2 by apply list_elem_of_here. reflexivity.
      * f_equal. f_equal. apply bool_decide_ext. rewrite elem_of_cons. tauto.
    + rewrite IH. f_equal. apply filter_same. intros x _.
      destruct (String.eqb_spec x met) as [->|Hne].
      * rewrite Ht. reflexivity.
      * f_equal. f_equal. apply bool_decide_ext. rewrite elem_of_cons. tauto.
Qed.

(** A pass removes the metrics the test holds of, and only them. *)
Lemma remove_pass_filter (test : string -> bool) (l : list string) :
  remove_pass test l = Some (List.filter (fun x => negb (test x)) l).
Proof.
  unfold remove_pass. rewrite remove_pass_fold. f_equal. apply filter_same.
  intros x Hx. rewrite bool_decide_eq_true_2 by exact Hx.
  rewrite andb_true_r. reflexivity.
Qed.

(** X1.  The five passes of [remove_metrics], each a [for] over a copy
    of the list with a [while ... in ...: remove] inside, come to an end
    and keep, in their order, the metrics that are not in the list of
    the collection and have none of "Ssh", "Slp", "Nina" and "Std" in
    their name: the function is one filter of its argument. *)
Theorem remove_metrics_loops (list_met : list string) (mc : string) :
  DriverLoops.remove_metrics list_met mc = Some (Driver.remove_metrics list_met mc).
Proof.
  unfold DriverLoops.remove_metrics, Driver.remove_metrics.
  rewrite remove_pass_filter. cbn [mbind option_bind].
  rewrite remove_pass_filter. cbn [mbind option_bind].
  rewrite remove_pass_filter. cbn [mbind option_bind].
  rewrite remove_pass_filter. cbn [mbind option_bind].
  rewrite remove_pass_filter. rewrite !filter_and. f_equal.
  apply filter_same. intros x _. rewrite !andb_assoc. reflexivity.
Qed.

End RemovalFacts.

Lemma filter_sublist {A} (f : A -> bool) (l : list A) : sublist (List.filter f l) l.
Proof.
  induction l as [|a l IH]; [constructor|]. cbn [List.filter].
  destruct (f a); [apply sublist_skip|apply sublist_cons]; exact IH.
Qed.

(** X2.  What [remove_metrics] keeps: a metric is in the result exactly
    when it is in the argument, is not in the list of the collection,
    and has none of the words "Ssh", "Slp", "Nina", "Std" anywhere in its
    name; the metrics kept are in the order they came in; a second call
    removes nothing more. *)
Theorem remove_metrics_kept (list_met : list string) (mc : string) :
  (forall met,
     met ∈ Driver.remove_metrics list_met mc <->
     met ∈ list_met /\ (met ∉ Driver.to_remove mc) /\
     ~ occurs_in "Ssh" met /\ ~ occurs_in "Slp" met /\
     ~ occurs_in "Nina" met /\ ~ occurs_in "Std" met)
  /\ sublist (Driver.remove_metrics list_met mc) list_met
  /\ Driver.remove_metrics (Driver.remove_metrics list_met mc) mc
     = Driver.remove_metrics list_met mc.
Proof.
  unfold Driver.remove_metrics. split; [|split].
  - intros met. rewrite list_elem_of_In, filter_In, <- list_elem_of_In.
    rewrite !andb_true_iff, !negb_true_iff, bool_decide_eq_false.
    rewrite <- !contains_spec, <- !not_true_iff_false. tauto.
  - apply filter_sublist.
  - apply filter_filter_same.
Qed.

Lemma string_app_assoc (a b c : string) : (a ++ b) ++ c = a ++ (b ++ c).
Proof.
  induction a as [|x a IH]; [reflexivity|]. rewrite !append_cons, IH. reflexivity.
Qed.

Section MatchFacts.
Import Driver.

Lemma fnmatch_nil (name : string) : fnmatch "" name = true <-> name = "".
Proof. destruct name; cbn; split; congruence. Qed.

Lemma fnmatch_question (pat name : string) :
  fnmatch (String "?" pat) name = true <->
  exists c rest, name = String c rest /\ fnmatch pat rest = true.
Proof.
  destruct name as [|d name]; cbn.
  - split; [discriminate|]. intros (c & rest & H & _). discriminate H.
  - split.
    + intros H. exists d, name. split; [reflexivity|exact H].
    + intros (c & rest & H & Hm). injection H as -> ->. exact Hm.
Qed.

Lemma fnmatch_plain (lit pat name : string) :
  plain lit = true ->
  fnmatch (lit ++ pat) name = true <->
  exists rest, name = lit ++ rest /\ fnmatch pat rest = true.
Proof.
  revert name. induction lit as [|c lit IH]; intros name Hplain.
  - rewrite append_nil. split.
    + intros H. exists name. split; [reflexivity|exact H].
    + intros (rest & -> & H). exact H.
  - cbn [plain] in Hplain. rewrite !andb_true_iff, !negb_true_iff in Hplain.
    destruct Hplain as [[[Hq Hs] _] Hlit].
    rewrite append_cons. cbn [fnmatch]. rewrite Hq, Hs.
    destruct name as [|d name].
    + split; [discriminate|]. intros (rest & H & _). rewrite append_cons in H.
      discriminate H.
    + rewrite andb_true_iff, Ascii.eqb_eq, (IH name Hlit). split.
      * intros [-> (rest & -> & H)]. exists rest. split; [|exact H].
        rewrite append_cons. reflexivity.
      * intros (rest & H & Hm). rewrite append_cons in H. injection H as -> ->.
        split; [reflexivity|]. exists rest. split; [reflexivity|exact Hm].
Qed.

(** The names the pattern of a project and a metric collection matches. *)
Lemma pattern_matches (proj mc name : string) :
  plain proj = true -> plain mc = true ->
  fnmatch (proj ++ "_" ++ experiment ++ "_" ++ mc ++ "_v2019????_modified.json") name
  = true <->
  exists a b c d : ascii,
    name = proj ++ "_historical_" ++ mc ++ "_v2019" ++
           String a (String b (String c (String d "_modified.json"))).
Proof.
  intros Hproj Hmc.
  change (proj ++ "_" ++ experiment ++ "_" ++ mc ++ "_v2019????_modified.json")
    with (proj ++ "_historical_" ++ mc ++ "_v2019" ++ "????" ++ "_modified.json" ++ "").
  rewrite (fnmatch_plain proj _ _ Hproj). split.
  - intros (r1 & -> & H).
    apply (fnmatch_plain "_historical_") in H as (r2 & -> & H); [|reflexivity].
    apply (fnmatch_plain mc) in H as (r3 & -> & H); [|exact Hmc].
    apply (fnmatch_plain "_v2019") in H as (r4 & -> & H); [|reflexivity].
    change ("????" ++ "_modified.json" ++ "")
      with (String "?" (String "?" (String "?" (String "?" ("_modified.json" ++ "")))))
      in H.
    apply fnmatch_question in H as (a & r5 & -> & H).
    apply fnmatch_question in H as (b & r6 & -> & H).
    apply fnmatch_question in H as (c & r7 & -> & H).
    apply fnmatch_question in H as (d & r8 & -> & H).
    apply (fnmatch_plain "_modified.json") in H as (r9 & -> & H); [|reflexivity].
    apply fnmatch_nil in H as ->.
    exists a, b, c, d. reflexivity.
  - intros (a & b & c & d & ->). eexists. split; [reflexivity|].
    apply (fnmatch_plain "_historical_"); [reflexivity|]. eexists. split; [reflexivity|].
    apply (fnmatch_plain mc); [exact Hmc|]. eexists. split; [reflexivity|].
    apply (fnmatch_plain "_v2019"); [reflexivity|]. eexists. split; [reflexivity|].
    reflexivity.
Qed.

End MatchFacts.

Section ReadFacts.
Import Driver.
Variable listdir : list string.
Variable json_load : string -> option json.
Variable metric_reference : string -> string -> option string.
Variable stack_message : string.
Variable str_list : list string -> string.

(** X3.  The file [read_data] opens for a project and a metric
    collection whose names have no wildcard character is named
    [<project>_historical_<collection>_v2019dddd_modified.json] for four
    characters [dddd], in the input directory; it is one of the names
    [os.listdir] gives. *)
Theorem read_data_file_name (proj mc filename_js : string) (data_json : json) :
  plain proj = true -> plain mc = true ->
  Driver.read_data listdir json_load proj mc = Ok (filename_js, data_json) ->
  exists a b c d : ascii,
    let name := proj ++ "_historical_" ++ mc ++ "_v2019" ++
                String a (String b (String c (String d "_modified.json"))) in
    filename_js = path_in ++ "/" ++ name /\ name ∈ listdir.
Proof.
  intros Hproj Hmc H. unfold Driver.read_data, GLOBiglob in H.
  set (pattern := proj ++ "_" ++ experiment ++ "_" ++ mc ++ "_v2019????_modified.json")
    in H.
  set (names := if starts_with_dot pattern then listdir else _) in H.
  destruct (List.filter (fnmatch pattern) names) as [|name rest] eqn:Hfilter;
    [discriminate H|].
  cbn [fmap list_fmap] in H.
  destruct (json_load (OSpath__join path_in name)) as [data|]; [|discriminate H].
  destruct (json_getitem data "RESULTS") as [results|e]; [|discriminate H].
  rewrite bind_Ok in H; cbv beta in H.
  destruct (json_getitem results "model") as [model|e]; [|discriminate H].
  rewrite bind_Ok in H. apply Ok_pair_inj in H as [<- _].
  assert (Hin : In name (List.filter (fnmatch pattern) names))
    by (rewrite Hfilter; left; reflexivity).
  apply filter_In in Hin as [Hname Hmatch].
  apply (pattern_matches proj mc name Hproj Hmc) in Hmatch as (a & b & c & d & ->).
  exists a, b, c, d. split; [reflexivity|].
  apply list_elem_of_In. unfold names in Hname.
  destruct (starts_with_dot pattern); [exact Hname|].
  apply filter_In in Hname as [Hname _]. exact Hname.
Qed.

(** The number read for a metric is never null. *)
Lemma read_metric_not_null (proj mc mdl met : string) (data_mod value : json)
    (warnings : list (list string)) :
  Driver.read_metric metric_reference stack_message str_list proj mc mdl data_mod met
  = Ok (value, warnings) ->
  value <> JNull.
Proof.
  intros H. unfold Driver.read_metric in H.
  destruct (json_getitem data_mod met) as [e1|?]; [|discriminate H].
  rewrite bind_Ok in H; cbv beta in H.
  destruct (json_getitem e1 "metric") as [data_met|?]; [|discriminate H].
  rewrite bind_Ok in H; cbv beta in H.
  destruct (json_keys data_met) as [keys|?]; [|discriminate H].
  rewrite bind_Ok in H; cbv beta in H.
  destruct (Driver.choose_reference _ _ _ _ _ _ _ _) as [[my_ref w]|?];
    [|discriminate H].
  rewrite bind_Ok in H; cbv beta iota in H.
  destruct (contains "Taux" met && String.eqb mdl "BCC-ESM1").
  - apply Ok_pair_inj in H as [<- _]. discriminate.
  - destruct (json_getitem data_met my_ref) as [e3|?]; [|discriminate H].
    rewrite bind_Ok in H; cbv beta in H.
    destruct (json_getitem e3 "value") as [v|?]; [|discriminate H].
    rewrite bind_Ok in H; cbv beta in H.
    destruct v; apply Ok_pair_inj in H as [<- _]; discriminate.
Qed.

(** X4.  The number [read_metric] gives for a metric is never null (a
    null is replaced by the mask value); at most one warning is printed
    for it, and none when the reference of the metric is among the
    references of the record, in which case the number comes from that
    reference. *)
Theorem read_metric_value (proj mc mdl met : string) (data_mod value : json)
    (warnings : list (list string)) :
  Driver.read_metric metric_reference stack_message str_list proj mc mdl data_mod met
  = Ok (value, warnings) ->
  value <> JNull
  /\ (length warnings <= 1)%nat
  /\ exists data_met keys,
       json_path data_mod [met; "metric"] = Ok data_met /\
       json_keys data_met = Ok keys /\
       let ref := default "Tropflux" (Driver.get_reference metric_reference mc met) in
       (ref ∈ keys <-> warnings = []) /\
       (ref ∈ keys -> contains "Taux" met && String.eqb mdl "BCC-ESM1" = false ->
        exists v, json_path data_met [ref; "value"] = Ok v /\
                  value = match v with JNull => masked | _ => v end).
Proof.
  intros H. unfold Driver.read_metric in H.
  destruct (json_getitem data_mod met) as [e1|?] eqn:He1; [|discriminate H].
  rewrite bind_Ok in H; cbv beta in H.
  destruct (json_getitem e1 "metric") as [data_met|?] eqn:He2; [|discriminate H].
  rewrite bind_Ok in H; cbv beta in H.
  destruct (json_keys data_met) as [keys|?] eqn:Hkeys; [|discriminate H].
  rewrite bind_Ok in H; cbv beta in H.
  set (ref := default "Tropflux" (Driver.get_reference metric_reference mc met))
    in H |- *.
  assert (Hchoice :
    exists my_ref w, Driver.choose_reference stack_message str_list proj mc mdl met ref
                       (sorted_by str_upper keys) = Ok (my_ref, w) /\
                     (length w <= 1)%nat /\ (ref ∈ keys <-> w = []) /\
                     (ref ∈ keys -> my_ref = ref)).
  { unfold Driver.choose_reference in H |- *.
    destruct (bool_decide (ref ∈ sorted_by str_upper keys)) eqn:Hin.
    - apply bool_decide_eq_true in Hin. apply sorted_by_elem in Hin.
      exists ref, []. split; [reflexivity|]. split; [cbn; lia|].
      split; [split; [reflexivity|intros _; exact Hin]|reflexivity].
    - apply bool_decide_eq_false in Hin. rewrite sorted_by_elem in Hin.
      destruct (bool_decide ("ERA-Interim" ∈ sorted_by str_upper keys)).
      + rewrite bind_Ok. eexists _, _. split; [reflexivity|].
        split; [cbn; lia|].
        split; [split; [intros Hk; contradiction|discriminate]
               |intros Hk; contradiction].
      + destruct (bool_decide ("ERA-Interim_ERA-Interim" ∈ sorted_by str_upper keys)).
        * rewrite bind_Ok. eexists _, _. split; [reflexivity|].
          split; [cbn; lia|].
          split; [split; [intros Hk; contradiction|discriminate]
                 |intros Hk; contradiction].
        * discriminate H. }
  destruct Hchoice as (my_ref & w & Hc & Hlen & Hiff & Href).
  rewrite Hc, bind_Ok in H.
  assert (Hmasked : masked <> JNull) by discriminate.
  assert (Hpath : json_path data_mod [met; "metric"] = Ok data_met).
  { unfold json_path. cbn [for_each]. rewrite He1, bind_Ok; cbv beta.
    rewrite He2, bind_Ok. reflexivity. }
  destruct (contains "Taux" met && String.eqb mdl "BCC-ESM1").
  - apply Ok_pair_inj in H as [<- <-].
    split; [exact Hmasked|]. split; [exact Hlen|].
    exists data_met, keys. split; [exact Hpath|]. split; [exact Hkeys|].
    split; [exact Hiff|]. intros _ Hf. discriminate Hf.
  - destruct (json_getitem data_met my_ref) as [e3|?] eqn:He3; [|discriminate H].
    rewrite bind_Ok in H; cbv beta in H.
    destruct (json_getitem e3 "value") as [v|?] eqn:He4; [|discriminate H].
    rewrite bind_Ok in H; cbv beta in H.
    assert (Hval : value = match v with JNull => masked | _ => v end /\ warnings = w).
    { destruct v; apply Ok_pair_inj in H as [<- <-]; split; reflexivity. }
    destruct Hval as [-> ->].
    split; [destruct v; solve [exact Hmasked | discriminate]|].
    split; [exact Hlen|].
    exists data_met, keys. split; [exact Hpath|]. split; [exact Hkeys|].
    split; [exact Hiff|]. intros Hin _. rewrite (Href Hin) in He3.
    exists v. split; [|reflexivity].
    unfold json_path. cbn [for_each]. rewrite He3, bind_Ok; cbv beta.
    rewrite He4, bind_Ok. reflexivity.
Qed.

End ReadFacts.

(** A loop that fills a dictionary, one key a turn, with what [f] gives
    for the key: at the end every key of the list holds what [f] gives
    for it, and the other keys are as they were. *)
Lemma insert_loop {V W : Type} (f : string -> result (V * list W))
    (l : list string) (d0 d : gmap string V) (w0 w : list W) :
  for_each (fun '(d, ws) k => '(v, new) ← f k; Ok (<[k := v]> d, (ws ++ new)%list))
    l (d0, w0) = Ok (d, w) ->
  (forall k, k ∈ l -> exists v w', f k = Ok (v, w') /\ d !! k = Some v)
  /\ (forall k, k ∉ l -> d !! k = d0 !! k).
Proof.
  revert d0 w0. induction l as [|a l IH]; intros d0 w0 H.
  - cbn [for_each] in H. apply Ok_pair_inj in H as [<- _]. split.
    + intros k Hk. inversion Hk.
    + reflexivity.
  - cbn [for_each] in H.
    destruct (f a) as [[v new]|e] eqn:Hfa; [|discriminate H].
    rewrite bind_Ok in H; cbv beta iota in H. rewrite bind_Ok in H.
    destruct (IH _ _ H) as [Hin Hout]. split.
    + intros k Hk. destruct (decide (k ∈ l)) as [Hl|Hl]; [exact (Hin k Hl)|].
      apply elem_of_cons in Hk as [->|Hk]; [|contradiction].
      exists v, new. split; [exact Hfa|]. rewrite (Hout a Hl).
      apply lookup_insert_eq.
    + intros k Hk. apply not_elem_of_cons in Hk as [Hne Hk].
      rewrite (Hout k Hk). apply lookup_insert_ne. congruence.
Qed.

Section LoopFacts.
Import Driver.
Variable listdir : list string.
Variable json_load : string -> option json.
Variable metric_reference : string -> string -> option string.
Variable stack_message : string.
Variable str_list : list string -> string.

(** X5.  The dictionary [read_model] builds for a model has one entry
    for each metric of the record that [remove_metrics] keeps, and no
    other; each entry is the number [read_metric] gives for the metric,
    never a null. *)
Theorem read_model_entries (proj mc mdl : string) (data_json : json)
    (dict2 : gmap string json) (warnings : list (list string)) :
  Driver.read_model metric_reference stack_message str_list proj mc data_json mdl
  = Ok (dict2, warnings) ->
  exists data_mod keys,
    json_path data_json [mdl; "value"] = Ok data_mod /\
    json_keys data_mod = Ok keys /\
    (forall met, is_Some (dict2 !! met) <-> met ∈ remove_metrics keys mc) /\
    (forall met value, dict2 !! met = Some value ->
       value <> JNull /\
       exists w, Driver.read_metric metric_reference stack_message str_list
                   proj mc mdl data_mod met = Ok (value, w)).
Proof.
  intros H. unfold Driver.read_model in H.
  destruct (json_getitem data_json mdl) as [e1|?] eqn:He1; [|discriminate H].
  rewrite bind_Ok in H; cbv beta in H.
  destruct (json_getitem e1 "value") as [data_mod|?] eqn:He2; [|discriminate H].
  rewrite bind_Ok in H; cbv beta in H.
  destruct (json_keys data_mod) as [keys|?] eqn:Hkeys; [|discriminate H].
  rewrite bind_Ok in H; cbv beta in H.
  apply (insert_loop
           (Driver.read_metric metric_reference stack_message str_list proj mc mdl
              data_mod)) in H as [Hin Hout].
  assert (Hsame : forall met, met ∈ remove_metrics (sorted_by str_upper keys) mc
                              <-> met ∈ remove_metrics keys mc).
  { intros met. unfold remove_metrics.
    rewrite !list_elem_of_In, !filter_In, <- !list_elem_of_In, sorted_by_elem.
    reflexivity. }
  exists data_mod, keys.
  split; [unfold json_path; cbn [for_each]; rewrite He1, bind_Ok; cbv beta;
          rewrite He2, bind_Ok; reflexivity|].
  split; [exact Hkeys|]. split.
  - intros met. rewrite <- Hsame. split.
    + intros Hsome.
      destruct (decide (met ∈ remove_metrics (sorted_by str_upper keys) mc))
        as [Hk|Hk]; [exact Hk|].
      rewrite (Hout met Hk), lookup_empty in Hsome. destruct Hsome as [? Hsome].
      discriminate Hsome.
    + intros Hk. destruct (Hin met Hk) as (v & w & _ & Hv). rewrite Hv. eauto.
  - intros met value Hv.
    destruct (decide (met ∈ remove_metrics (sorted_by str_upper keys) mc)) as [Hk|Hk].
    + destruct (Hin met Hk) as (v & w & Hread & Hv'). rewrite Hv in Hv'.
      injection Hv' as <-. split; [|exists w; exact Hread].
      exact (read_metric_not_null metric_reference stack_message str_list
               proj mc mdl met data_mod value w Hread).
    + rewrite (Hout met Hk), lookup_empty in Hv. discriminate Hv.
Qed.

(** X6.  [dict1], the table of a metric collection, holds the models of
    the cmip5 file and those of the cmip6 file; a model both files have
    is there with its cmip6 record, which replaces the cmip5 one. *)
Theorem read_collection_models (mc : string)
    (dict1 : gmap string (gmap string json)) (warnings : list (list string)) :
  Driver.read_collection listdir json_load metric_reference stack_message str_list mc
  = Ok (dict1, warnings) ->
  exists file5 data5 keys5 file6 data6 keys6,
    Driver.read_data listdir json_load "cmip5" mc = Ok (file5, data5) /\
    json_keys data5 = Ok keys5 /\
    Driver.read_data listdir json_load "cmip6" mc = Ok (file6, data6) /\
    json_keys data6 = Ok keys6 /\
    (forall mdl, mdl ∈ keys6 ->
       exists dict2 w,
         Driver.read_model metric_reference stack_message str_list "cmip6" mc data6 mdl
         = Ok (dict2, w) /\ dict1 !! mdl = Some dict2) /\
    (forall mdl, mdl ∉ keys6 -> mdl ∈ keys5 ->
       exists dict2 w,
         Driver.read_model metric_reference stack_message str_list "cmip5" mc data5 mdl
         = Ok (dict2, w) /\ dict1 !! mdl = Some dict2) /\
    (forall mdl, mdl ∉ keys5 -> mdl ∉ keys6 -> dict1 !! mdl = None).
Proof.
  intros H. unfold Driver.read_collection, list_project in H. cbn [for_each] in H.
  destruct (Driver.read_data listdir json_load "cmip5" mc) as [[file5 data5]|?]
    eqn:Hr5; [|discriminate H].
  rewrite bind_Ok in H; cbv beta iota in H.
  destruct (json_keys data5) as [keys5|?] eqn:Hkeys5; [|discriminate H].
  rewrite bind_Ok in H; cbv beta in H.
  destruct (for_each _ (sorted_by str_upper keys5) _) as [[d5 w5]|?] eqn:H5;
    [|discriminate H].
  rewrite bind_Ok in H; cbv beta iota in H.
  destruct (Driver.read_data listdir json_load "cmip6" mc) as [[file6 data6]|?]
    eqn:Hr6; [|discriminate H].
  rewrite bind_Ok in H; cbv beta iota in H.
  destruct (json_keys data6) as [keys6|?] eqn:Hkeys6; [|discriminate H].
  rewrite bind_Ok in H; cbv beta in H.
  destruct (for_each _ (sorted_by str_upper keys6) _) as [[d6 w6]|?] eqn:H6;
    [|discriminate H].
  rewrite bind_Ok in H. apply Ok_pair_inj in H as [<- _].
  apply (insert_loop
           (Driver.read_model metric_reference stack_message str_list "cmip5" mc data5))
    in H5 as [Hin5 Hout5].
  apply (insert_loop
           (Driver.read_model metric_reference stack_message str_list "cmip6" mc data6))
    in H6 as [Hin6 Hout6].
  exists file5, data5, keys5, file6, data6, keys6.
  split; [reflexivity|]. split; [exact Hkeys5|]. split; [reflexivity|].
  split; [exact Hkeys6|]. split; [|split].
  - intros mdl Hk. apply Hin6, sorted_by_elem, Hk.
  - intros mdl Hk6 Hk5. rewrite Hout6 by (rewrite sorted_by_elem; exact Hk6).
    apply Hin5, sorted_by_elem, Hk5.
  - intros mdl Hk5 Hk6. rewrite Hout6 by (rewrite sorted_by_elem; exact Hk6).
    rewrite Hout5 by (rewrite sorted_by_elem; exact Hk5). apply lookup_empty.
Qed.

End LoopFacts.

(** ** Sorting by a key *)

Lemma leb_refl (s : string) : String.leb s s = true.
Proof. destruct (String.leb_total s s); assumption. Qed.

Lemma insert_by_perm (f : string -> string) (x : string) (l : list string) :
  insert_by f x l ≡ₚ x :: l.
Proof.
  induction l as [|a l IH]; cbn [insert_by]; [reflexivity|].
  destruct (String.leb (f x) (f a)); [reflexivity|].
  rewrite IH. apply Permutation_swap.
Qed.

Lemma sorted_by_perm (f : string -> string) (l : list string) : sorted_by f l ≡ₚ l.
Proof.
  unfold sorted_by. induction l as [|a l IH]; cbn [foldr]; [reflexivity|].
  rewrite insert_by_perm, IH. reflexivity.
Qed.

Lemma insert_by_sorted (f : string -> string) (x : string) (l : list string) :
  Sorted (key_le f) l -> Sorted (key_le f) (insert_by f x l).
Proof.
  induction l as [|a l IH]; intros Hs; cbn [insert_by].
  - repeat constructor.
  - destruct (String.leb (f x) (f a)) eqn:Hxa.
    + constructor; [exact Hs|]. constructor. exact Hxa.
    + apply Sorted_inv in Hs as [Hs Hhd]. constructor; [exact (IH Hs)|].
      destruct l as [|b l]; cbn [insert_by].
      * constructor. unfold key_le. destruct (String.leb_total (f x) (f a)); congruence.
      * destruct (String.leb (f x) (f b)).
        -- constructor. unfold key_le.
           destruct (String.leb_total (f x) (f a)); congruence.
        -- constructor. apply HdRel_inv in Hhd. exact Hhd.
Qed.

Lemma insert_by_stable (f : string -> string) (x : string) (l : list string)
    (k : string) :
  List.filter (fun y => String.eqb (f y) k) (insert_by f x l)
  = List.filter (fun y => String.eqb (f y) k) (x :: l).
Proof.
  induction l as [|a l IH]; cbn [insert_by]; [reflexivity|].
  destruct (String.leb (f x) (f a)) eqn:Hxa; [reflexivity|].
  cbn [List.filter] in *. rewrite IH.
  destruct (String.eqb_spec (f x) k) as [Hx|Hx]; [|reflexivity].
  destruct (String.eqb_spec (f a) k) as [Ha|Ha]; [|reflexivity].
  rewrite Hx, Ha, leb_refl in Hxa. discriminate Hxa.
Qed.

(** X8.  [sorted(l, key=f)], as the driver sorts the models, the metrics
    and the references by their upper-case name and EnsoPrJjaTel sorts
    its regions by their lower-case name: the result has the elements of
    [l], each as many times; consecutive elements are in the order of
    their keys; and the elements of one key keep the order they had. *)
Theorem sorted_by_key (f : string -> string) (l : list string) :
  sorted_by f l ≡ₚ l
  /\ Sorted (key_le f) (sorted_by f l)
  /\ forall k, List.filter (fun y => String.eqb (f y) k) (sorted_by f l)
               = List.filter (fun y => String.eqb (f y) k) l.
Proof.
  split; [apply sorted_by_perm|]. split.
  - unfold sorted_by. induction l as [|a l IH]; cbn [foldr]; [constructor|].
    apply insert_by_sorted, IH.
  - intros k. unfold sorted_by. induction l as [|a l IH]; cbn [foldr]; [reflexivity|].
    rewrite insert_by_stable. cbn [List.filter]. rewrite IH. reflexivity.
Qed.

(** ** The table of a metric collection *)

Section ShapeFacts.
Import Shaping.
Variable dict_keys : gmap string Driver.json -> list string.
Variable list_of_set : list string -> list string.
Hypothesis dict_keys_spec : forall d k, k ∈ dict_keys d <-> is_Some (d !! k).
Hypothesis list_of_set_spec :
  forall l, NoDup (list_of_set l) /\ forall x, x ∈ list_of_set l <-> x ∈ l.

Lemma gather_fold (dict1 : gmap string (gmap string Driver.json))
    (models : list string) (acc : option (list string)) :
  match foldl (fun my_metrics mdl =>
                 match dict1 !! mdl with
                 | None => my_metrics
                 | Some dict2 =>
                     match my_metrics with
                     | None => Some (dict_keys dict2)
                     | Some l => Some (l ++ dict_keys dict2)%list
                     end
                 end) acc models with
  | None => acc = None /\ forall mdl, mdl ∈ models -> dict1 !! mdl = None
  | Some l =>
      (acc = None -> exists mdl, mdl ∈ models /\ is_Some (dict1 !! mdl)) /\
      forall met, met ∈ l <->
        (exists l0, acc = Some l0 /\ met ∈ l0) \/
        exists mdl dict2, mdl ∈ models /\ dict1 !! mdl = Some dict2
                          /\ is_Some (dict2 !! met)
  end.
Proof.
  revert acc. induction models as [|a models IH]; intros acc; cbn [foldl].
  - destruct acc as [l0|].
    + split; [discriminate|]. intros met. split.
      * intros H. left. exists l0. split; [reflexivity|exact H].
      * intros [(l1 & Heq & H)|(mdl & d & Hin & _)].
        -- injection Heq as <-. exact H.
        -- inversion Hin.
    + split; [reflexivity|]. intros mdl H. inversion H.
  - specialize (IH (match dict1 !! a with
                    | None => acc
                    | Some dict2 =>
                        match acc with
                        | None => Some (dict_keys dict2)
                        | Some l => Some (l ++ dict_keys dict2)%list
                        end
                    end)).
    destruct (foldl _ _ models) as [l|].
    + destruct IH as [Hsome Hmem]. split.
      * intros ->. destruct (dict1 !! a) as [d|] eqn:Ha.
        -- exists a. split; [apply list_elem_of_here|]. rewrite Ha. eauto.
        -- destruct (Hsome eq_refl) as (mdl & Hin & Hs).
           exists mdl. split; [apply list_elem_of_further, Hin|exact Hs].
      * intros met. rewrite Hmem. clear Hmem Hsome. split.
        -- intros [(l0 & Heq & Hin)|(mdl & d & Hin & Hd & Hm)].
           ++ destruct (dict1 !! a) as [da|] eqn:Ha.
              ** destruct acc as [l1|]; injection Heq as <-.
                 --- apply elem_of_app in Hin as [Hin|Hin].
                     +++ left. exists l1. split; [reflexivity|exact Hin].
                     +++ right. exists a, da. split; [apply list_elem_of_here|].
                         split; [exact Ha|]. apply dict_keys_spec, Hin.
                 --- right. exists a, da. split; [apply list_elem_of_here|].
                     split; [exact Ha|]. apply dict_keys_spec, Hin.
              ** left. exists l0. split; [exact Heq|exact Hin].
           ++ right. exists mdl, d. split; [apply list_elem_of_further, Hin|].
              split; [exact Hd|exact Hm].
        -- intros [(l0 & -> & Hin)|(mdl & d & Hin & Hd & Hm)].
           ++ left. destruct (dict1 !! a) as [da|].
              ** eexists. split; [reflexivity|]. apply elem_of_app. left. exact Hin.
              ** exists l0. split; [reflexivity|exact Hin].
           ++ apply elem_of_cons in Hin as [->|Hin].
              ** left. rewrite Hd. destruct acc as [l1|]; eexists;
                   (split; [reflexivity|]).
                 --- apply elem_of_app. right. apply dict_keys_spec, Hm.
                 --- apply dict_keys_spec, Hm.
              ** right. exists mdl, d. split; [exact Hin|]. split; [exact Hd|exact Hm].
    + destruct IH as [Hacc Hnone]. destruct (dict1 !! a) as [da|] eqn:Ha.
      * destruct acc; discriminate Hacc.
      * split; [exact Hacc|]. intros mdl Hin.
        apply elem_of_cons in Hin as [->|Hin]; [exact Ha|exact (Hnone mdl Hin)].
Qed.

(** X7.  The metrics of the table of a collection are those of the
    models of the driver's own list that the files hold, whatever other
    model the files hold: each once, sorted by upper-case name.  When the
    files hold none of the models of the list, the name [my_metrics] is
    never bound and the driver stops on a [NameError]. *)
Theorem my_metrics_of_known_models (dict1 : gmap string (gmap string Driver.json)) :
  ((forall mdl, mdl ∈ my_models -> dict1 !! mdl = None) <->
   my_metrics dict_keys list_of_set dict1 = Raise NameError)
  /\ forall metrics,
       my_metrics dict_keys list_of_set dict1 = Ok metrics ->
       NoDup metrics
       /\ Sorted (key_le str_upper) metrics
       /\ forall met,
            met ∈ metrics <->
            exists mdl dict2, mdl ∈ my_models /\ dict1 !! mdl = Some dict2
                              /\ is_Some (dict2 !! met).
Proof.
  unfold my_metrics, gather_metrics.
  pose proof (gather_fold dict1 my_models None) as H.
  destruct (foldl _ None my_models) as [l|].
  - destruct H as [Hsome Hmem]. split.
    + split; [|discriminate]. intros Hnone.
      destruct (Hsome eq_refl) as (mdl & Hin & [d Hd]).
      rewrite (Hnone mdl Hin) in Hd. discriminate Hd.
    + intros metrics Hm. apply Ok_inj in Hm. subst metrics.
      destruct (list_of_set_spec l) as [Hnd Hset].
      split; [rewrite sorted_by_perm; exact Hnd|].
      split; [apply sorted_by_key|].
      intros met. rewrite sorted_by_elem, Hset, Hmem. split.
      * intros [(l0 & Heq & _)|Hr]; [discriminate Heq|exact Hr].
      * intros Hr. right. exact Hr.
  - destruct H as [_ Hnone]. split.
    + split; [reflexivity|]. intros _. exact Hnone.
    + intros metrics Hm. discriminate Hm.
Qed.

End ShapeFacts.

(** ** The grid of the combined plot *)

Section LayoutFacts.
Import Layout.

Lemma panel_rows_lookup (tab : list nat) (count : Z) (k : nat) (a b : Z) :
  panel_rows count tab !! k = Some (a, b) ->
  exists len_tmp, tab !! k = Some len_tmp /\
                  a = count + rows_above tab k /\ b = a + Z.of_nat len_tmp.
Proof.
  unfold rows_above. revert count k. induction tab as [|h tab IH]; intros count k H.
  - destruct k; discriminate H.
  - destruct k as [|k]; cbn [panel_rows] in H.
    + cbn in H. injection H as <- <-. exists h. cbn. split; [reflexivity|]. lia.
    + cbn [lookup list_lookup] in H. apply IH in H as (len & Hk & -> & ->).
      exists len. split; [exact Hk|]. cbn [take fmap list_fmap foldr]. lia.
Qed.

Lemma sum_take_le (tab : list nat) (k : nat) :
  foldr Z.add 0 (Z.of_nat <$> take k tab) <= foldr Z.add 0 (Z.of_nat <$> tab).
Proof.
  revert k. induction tab as [|h tab IH]; intros k.
  - destruct k; cbn; lia.
  - destruct k; cbn [take fmap list_fmap foldr].
    + assert (0 <= foldr Z.add 0 (Z.of_nat <$> tab)).
      { clear. induction tab; cbn; lia. }
      lia.
    + specialize (IH k). lia.
Qed.

End LayoutFacts.

Section LayoutTheorem.
Import Layout.

Lemma sum_snoc (l : list nat) (n : nat) :
  foldr Z.add 0 (Z.of_nat <$> (l ++ [n])%list)
  = foldr Z.add 0 (Z.of_nat <$> l) + Z.of_nat n.
Proof. induction l as [|a l IH]; cbn in *; lia. Qed.

Lemma rows_above_S (tab : list nat) (k len_tmp : nat) :
  tab !! k = Some len_tmp ->
  rows_above tab (S k) = rows_above tab k + Z.of_nat len_tmp + 3.
Proof.
  intros Hk. unfold rows_above. rewrite (take_S_r _ _ _ Hk), sum_snoc. lia.
Qed.

Lemma panel_rows_length (tab : list nat) (count : Z) :
  length (panel_rows count tab) = length tab.
Proof.
  revert count. induction tab as [|h tab IH]; intros count; [reflexivity|].
  cbn [panel_rows length]. rewrite IH. reflexivity.
Qed.

(** X9.  The grid of [multiportraitplot] has the rows its panels need:
    panel [k] takes as many rows as its table has, from the row that
    follows the panels before it and three free rows after each of them;
    no panel starts before row 0 or ends after row [nbrl], two panels
    that follow each other are three rows apart, and the last panel ends
    on the last row of the grid. *)
Theorem panel_rows_fit (tab : list nat) :
  length (panel_rows 0 tab) = length tab
  /\ forall k a b,
       panel_rows 0 tab !! k = Some (a, b) ->
       (exists len_tmp, tab !! k = Some len_tmp /\ b = a + Z.of_nat len_tmp)
       /\ a = rows_above tab k
       /\ 0 <= a /\ b <= nbrl tab
       /\ (S k = length tab -> b = nbrl tab)
       /\ (forall a' b', panel_rows 0 tab !! S k = Some (a', b') -> a' = b + 3).
Proof.
  split; [apply panel_rows_length|]. intros k a b H.
  apply panel_rows_lookup in H as (len & Hk & Ha & Hb).
  rewrite Z.add_0_l in Ha.
  assert (Hlt : (k < length tab)%nat) by (apply lookup_lt_is_Some; eauto).
  assert (Hnext := rows_above_S tab k len Hk).
  assert (Hle : rows_above tab (S k) - 3 <= nbrl tab).
  { unfold rows_above, nbrl. pose proof (sum_take_le tab (S k)). lia. }
  assert (H0 : 0 <= rows_above tab k).
  { unfold rows_above.
    assert (0 <= foldr Z.add 0 (Z.of_nat <$> take k tab)).
    { generalize (take k tab). intros l. induction l; cbn; lia. }
    lia. }
  split; [exists len; split; [exact Hk|exact Hb]|].
  split; [exact Ha|]. split; [lia|]. split; [lia|]. split.
  - intros Hlast. subst a b.
    assert (Hall : rows_above tab (S k) = nbrl tab + 3).
    { unfold rows_above, nbrl. rewrite take_ge by lia. lia. }
    lia.
  - intros a' b' H'. apply panel_rows_lookup in H' as (len' & _ & Ha' & _).
    rewrite Z.add_0_l in Ha'. lia.
Qed.

End LayoutTheorem.

(** ** The metric functions: keywords, event definition, fluxes *)

Section KeywordFacts.
Context `{T : Toolkit}.

(** X10.  The loop that opens every metric function gives a default to
    the needed keywords the caller left out and touches nothing else: a
    keyword the caller passed keeps its value, a keyword that is not
    needed is not added, and a second run of the loop changes nothing.
    The function then works on these keywords. *)
Theorem fill_defaults_lookup (needed : list string) (kw : kwargs) :
  (forall k,
     fill_defaults needed kw !! k =
     match kw !! k with
     | Some v => Some v
     | None => if bool_decide (k ∈ needed) then Some (DefaultArgValues k) else None
     end)
  /\ fill_defaults needed (fill_defaults needed kw) = fill_defaults needed kw
  /\ forall (c : metric_call) (p : prepared),
       needed = needed_kwarg c -> prepare c kw = Ok p ->
       forall k v, kw !! k = Some v -> p_kwargs p !! k = Some v.
Proof.
  assert (Hlookup : forall kw k,
     fill_defaults needed kw !! k =
     match kw !! k with
     | Some v => Some v
     | None => if bool_decide (k ∈ needed) then Some (DefaultArgValues k) else None
     end).
  { clear kw. intros kw k. destruct (kw !! k) as [v|] eqn:Hk.
    - apply fill_defaults_Some, Hk.
    - destruct (bool_decide (k ∈ needed)) eqn:Hin.
      + apply bool_decide_eq_true in Hin. apply fill_defaults_None_in; assumption.
      + apply bool_decide_eq_false in Hin. apply fill_defaults_None_notin; assumption. }
  split; [apply Hlookup|]. split.
  - apply map_eq. intros k. rewrite (Hlookup (fill_defaults needed kw) k).
    destruct (fill_defaults needed kw !! k) as [v|] eqn:Hk; [reflexivity|].
    rewrite Hlookup in Hk. destruct (kw !! k); [discriminate Hk|].
    destruct (bool_decide (k ∈ needed)); [discriminate Hk|reflexivity].
  - intros c p -> Hp k v Hk. rewrite (prepare_kwargs c kw p Hp).
    apply fill_defaults_Some, Hk.
Qed.

Lemma dict_getitem_None (d : list (string * pyval)) (k : string) :
  (list_to_map d : gmap string pyval) !! k = None ->
  dict_getitem d k = Raise (KeyError k).
Proof. intros H. unfold dict_getitem. rewrite H. reflexivity. Qed.

Lemma dict_getitem_Some (d : list (string * pyval)) (k : string) :
  is_Some ((list_to_map d : gmap string pyval) !! k) ->
  exists v, dict_getitem d k = Ok v.
Proof. intros [v H]. exists v. unfold dict_getitem. rewrite H. reflexivity. Qed.

Lemma setting_variables_missing (ed : list (string * pyval)) :
  let d := (list_to_map ed : gmap string pyval) in
  (d !! "region_ev" = None ->
   setting_variables ed = Raise (KeyError "region_ev"))
  /\ (is_Some (d !! "region_ev") -> d !! "season_ev" = None ->
      setting_variables ed = Raise (KeyError "season_ev"))
  /\ (is_Some (d !! "region_ev") -> is_Some (d !! "season_ev") ->
      d !! "threshold" = None ->
      setting_variables ed = Raise (KeyError "threshold")).
Proof.
  intros d. unfold setting_variables. split; [|split].
  - intros H. rewrite (dict_getitem_None _ _ H). reflexivity.
  - intros H1 H2. destruct (dict_getitem_Some _ _ H1) as [v ->].
    rewrite bind_Ok, (dict_getitem_None _ _ H2). reflexivity.
  - intros H1 H2 H3. destruct (dict_getitem_Some _ _ H1) as [v ->].
    destruct (dict_getitem_Some _ _ H2) as [w ->].
    rewrite !bind_Ok, (dict_getitem_None _ _ H3). reflexivity.
Qed.

Lemma run_setting_variables (c : metric_call) (ed : list (string * pyval))
    (kwargs0 : kwargs) (e : pyerror) :
  event_definition_of c = Some ed -> setting_variables ed = Raise e ->
  run c kwargs0 = Raise e.
Proof.
  intros Hc He. rewrite run_phases. unfold prepare.
  destruct c; try discriminate Hc; cbn [event_definition_of] in Hc;
    injection Hc as ->; rewrite He; reflexivity.
Qed.

(** X11.  The five metrics built on ENSO events (EnsoPrJjaTel, the
    Nina/Nino SstLonRmse and SstTsRmse) read 'region_ev', 'season_ev' and
    'threshold' off [event_definition] before anything else: when one is
    missing the call ends with the [KeyError] of the first that is,
    whatever the keywords and the files. *)
Theorem event_definition_needed (c : metric_call) (ed : list (string * pyval))
    (kwargs0 : kwargs) :
  event_definition_of c = Some ed ->
  let d := (list_to_map ed : gmap string pyval) in
  (d !! "region_ev" = None -> run c kwargs0 = Raise (KeyError "region_ev"))
  /\ (is_Some (d !! "region_ev") -> d !! "season_ev" = None ->
      run c kwargs0 = Raise (KeyError "season_ev"))
  /\ (is_Some (d !! "region_ev") -> is_Some (d !! "season_ev") ->
      d !! "threshold" = None ->
      run c kwargs0 = Raise (KeyError "threshold")).
Proof.
  intros Hc d. destruct (setting_variables_missing ed) as (H1 & H2 & H3).
  split; [|split].
  - intros H. apply (run_setting_variables c ed _ _ Hc), H1, H.
  - intros Ha Hb. apply (run_setting_variables c ed _ _ Hc), H2; assumption.
  - intros Ha Hb Hd. apply (run_setting_variables c ed _ _ Hc), H3; assumption.
Qed.

End KeywordFacts.

Section FluxFacts.
Context `{T : Toolkit}.

Lemma read_each_enough (fs : list pyval) (names : list string) (ii : nat)
    (box : string) (kw : kwargs) :
  (ii + length fs <= length names)%nat ->
  exists dict_var, read_each fs (PyList (PyStr <$> names)) ii box kw = Ok dict_var.
Proof.
  revert ii. induction fs as [|f fs IH]; intros ii Hlen; cbn [read_each].
  - eauto.
  - cbn [length] in Hlen. unfold getindex.
    destruct ((PyStr <$> names) !! ii) as [n|] eqn:Hn.
    + rewrite bind_Ok. destruct (IH (S ii)) as [rest ->]; [lia|].
      rewrite bind_Ok. eauto.
    + apply lookup_ge_None in Hn. rewrite length_fmap in Hn. lia.
Qed.

Lemma interpreter_missing (kwargs0 : kwargs) :
  kwargs0 !! "project_interpreter_var2" = None ->
  getitem (fill_defaults needed_kwarg_single kwargs0) "project_interpreter_var2"
  = Raise (KeyError "project_interpreter_var2").
Proof.
  intros H. apply getitem_None, fill_defaults_None_notin; [exact H|].
  unfold needed_kwarg_single. not_in_list.
Qed.

(** X12.  EnsoAlphaLwr, EnsoAlphaSwr and EnsoAlphaThf, whose flux may be
    derived from several variables, read
    [kwargs['project_interpreter_var2']], which is not among the
    keywords they give a default to: a call without that keyword ends
    with its [KeyError] once the flux files are read, whether the flux
    comes as one file with its variable name or as a list of files with
    the list of their variable names. *)
Theorem derived_flux_needs_interpreter (f : feedback_function) (sst : dataset)
    (sstbox : string) (flux : dataset) (fluxbox : string) (kwargs0 : kwargs) :
  (fd_derived (feedback_descr_of f) = true <->
   f = fEnsoAlphaLwr \/ f = fEnsoAlphaSwr \/ f = fEnsoAlphaThf)
  /\ ("project_interpreter_var2" ∉ needed_kwarg (CallFeedback f sst sstbox flux fluxbox))
  /\ (fd_derived (feedback_descr_of f) = true ->
      kwargs0 !! "project_interpreter_var2" = None ->
      ((exists s n, file flux = PyStr s /\ name flux = PyStr n) \/
       (exists fs names,
          (file flux = PyList fs \/ file flux = PyTuple fs) /\
          name flux = PyList (PyStr <$> names) /\
          (length fs <= length names)%nat)) ->
      run (CallFeedback f sst sstbox flux fluxbox) kwargs0
      = Raise (KeyError "project_interpreter_var2")).
Proof.
  split; [|split].
  - destruct f; cbn; split; intros H;
      first [discriminate H | reflexivity | tauto
            | destruct H as [H|[H|H]]; discriminate H].
  - cbn [needed_kwarg]. unfold needed_kwarg_single. not_in_list.
  - intros Hd Hnone Hfile. cbn [run]. unfold feedback_metric, feedback_select, read_flux.
    rewrite Hd, (interpreter_missing kwargs0 Hnone).
    destruct Hfile as [(s & n & -> & _)|(fs & names & Hf & -> & Hlen)].
    + reflexivity.
    + destruct (read_each_enough fs names 0 fluxbox
                  (fill_defaults needed_kwarg_single kwargs0) Hlen) as [dv Hdv].
      destruct Hf as [->| ->]; rewrite Hdv; reflexivity.
Qed.



End FluxFacts.

Section OrderFacts.
Context `{T : Toolkit}.

Lemma prepare_two_series (c : metric_call) (kwargs0 : kwargs) (p : prepared) :
  two_datasets c = true -> prepare c kwargs0 = Ok p ->
  exists sel, p_series p = two_series sel.
Proof.
  intros Hc Hp. unfold prepare in Hp.
  revert Hp. generalize (fill_defaults (needed_kwarg c) kwargs0) as kw. intros kw Hp.
  destruct c; try discriminate Hc;
    repeat match type of Hp with
      | (?m ≫= _) = Ok _ =>
          destruct m; [rewrite bind_Ok in Hp; cbv beta in Hp|discriminate Hp]
      | (match ?x with (_, _) => _ end) = Ok _ => destruct x
      end;
    apply Ok_inj in Hp; subst p; cbn [p_series]; eauto.
Qed.

(** X14.  In the metrics that compare a model with observations the
    length of the model series is checked first: when it is shorter than
    [min_time_steps] the error is about the modeled period, whatever the
    length of the observed series; the error is about the observed
    period only when the model series is long enough; and when both are,
    the computation goes on. *)
Theorem model_series_checked_first (c : metric_call) (kwargs0 : kwargs)
    (p : prepared) (mini : pyval) :
  two_datasets c = true ->
  prepare c kwargs0 = Ok p ->
  kwargs0 !! "min_time_steps" = Some mini ->
  isinstance_int mini = true ->
  exists tab_model tab_obs,
    p_series p = [("modeled", tab_model); ("observed", tab_obs)]
    /\ (array_len tab_model < int_value mini ->
        run c kwargs0
        = Raise (too_short_error c "modeled" (array_len tab_model) mini))
    /\ (int_value mini <= array_len tab_model ->
        array_len tab_obs < int_value mini ->
        run c kwargs0
        = Raise (too_short_error c "observed" (array_len tab_obs) mini))
    /\ (int_value mini <= array_len tab_model ->
        int_value mini <= array_len tab_obs ->
        run c kwargs0 = p_compute p).
Proof.
  intros Hc Hp Hmini Hint.
  destruct (prepare_two_series c kwargs0 p Hc Hp) as [sel Hsel].
  exists (tab_model sel), (tab_obs sel). split; [exact Hsel|].
  assert (Hrun : run c kwargs0
                 = (length_check c (p_kwargs p) (p_series p) ≫= fun _ => p_compute p)).
  { rewrite run_phases, Hp, bind_Ok. reflexivity. }
  assert (Hget : getitem (p_kwargs p) "min_time_steps" = Ok mini).
  { apply getitem_Some. rewrite (prepare_kwargs c kwargs0 p Hp).
    apply fill_defaults_Some, Hmini. }
  rewrite Hrun, Hsel. unfold length_check. rewrite Hget, bind_Ok, Hint.
  unfold two_series. cbn [first_short].
  split; [|split].
  - intros Hm. apply Z.ltb_lt in Hm. rewrite Hm. reflexivity.
  - intros Hm Ho. apply Z.ltb_ge in Hm. apply Z.ltb_lt in Ho. rewrite Hm, Ho.
    reflexivity.
  - intros Hm Ho. apply Z.ltb_ge in Hm. apply Z.ltb_ge in Ho. rewrite Hm, Ho.
    reflexivity.
Qed.

End OrderFacts.

(** ** The properties above on the example inputs *)

Lemma remove_metrics_kept_witness :
  "EnsoAmpl" ∈ Driver.remove_metrics example_metrics "ENSO_perf"
  /\ sublist (Driver.remove_metrics example_metrics "ENSO_perf") example_metrics.
Proof.
  destruct (remove_metrics_kept example_metrics "ENSO_perf") as (Hmem & Hsub & _).
  split; [|exact Hsub]. apply Hmem.
  split; [unfold example_metrics; in_list|].
  split; [unfold Driver.to_remove; cbn [String.eqb Ascii.eqb Bool.eqb]; not_in_list|].
  repeat split; intros H; apply contains_spec in H; discriminate H.
Defined.

Lemma read_data_file_name_witness :
  exists a b c d : ascii,
    example_filename
    = Driver.path_in ++ "/" ++ "cmip5" ++ "_historical_" ++ "ENSO_perf" ++ "_v2019" ++
      String a (String b (String c (String d "_modified.json"))).
Proof.
  assert (Hread : Driver.read_data example_listdir example_json_load "cmip5" "ENSO_perf"
                  = Ok (example_filename, example_models))
    by (vm_compute; reflexivity).
  destruct (read_data_file_name example_listdir example_json_load "cmip5" "ENSO_perf"
              example_filename example_models eq_refl eq_refl Hread)
    as (a & b & c & d & Hname & _).
  exists a, b, c, d. exact Hname.
Defined.

Lemma read_metric_value_witness :
  exists value warnings,
    Driver.read_metric (fun _ _ => None) "" (fun _ => "") "cmip5" "ENSO_perf"
      "CNRM-CM5" example_record "BiasSstLonRmse" = Ok (value, warnings)
    /\ value <> Driver.JNull /\ (length warnings <= 1)%nat.
Proof.
  assert (Hok : is_ok (Driver.read_metric (fun _ _ => None) "" (fun _ => "") "cmip5"
                         "ENSO_perf" "CNRM-CM5" example_record "BiasSstLonRmse") = true)
    by (vm_compute; reflexivity).
  destruct (Driver.read_metric (fun _ _ => None) "" (fun _ => "") "cmip5" "ENSO_perf"
              "CNRM-CM5" example_record "BiasSstLonRmse")
    as [[value warnings]|e] eqn:Hr; [|discriminate Hok].
  destruct (read_metric_value (fun _ _ => None) "" (fun _ => "") "cmip5" "ENSO_perf"
              "CNRM-CM5" "BiasSstLonRmse" example_record value warnings Hr)
    as (Hnull & Hlen & _).
  exists value, warnings. split; [reflexivity|]. split; assumption.
Defined.

Lemma read_model_entries_witness :
  exists dict2 warnings,
    Driver.read_model (fun _ _ => None) "" (fun _ => "") "cmip5" "ENSO_perf"
      example_models "CNRM-CM5" = Ok (dict2, warnings)
    /\ forall met, is_Some (dict2 !! met) <->
                   met ∈ Driver.remove_metrics ["BiasSstLonRmse"] "ENSO_perf".
Proof.
  assert (Hok : is_ok (Driver.read_model (fun _ _ => None) "" (fun _ => "") "cmip5"
                         "ENSO_perf" example_models "CNRM-CM5") = true)
    by (vm_compute; reflexivity).
  destruct (Driver.read_model (fun _ _ => None) "" (fun _ => "") "cmip5" "ENSO_perf"
              example_models "CNRM-CM5") as [[dict2 warnings]|e] eqn:Hr;
    [|discriminate Hok].
  destruct (read_model_entries (fun _ _ => None) "" (fun _ => "") "cmip5" "ENSO_perf"
              "CNRM-CM5" example_models dict2 warnings Hr)
    as (data_mod & keys & Hpath & Hkeys & Hdom & _).
  exists dict2, warnings. split; [reflexivity|].
  assert (Hk : keys = ["BiasSstLonRmse"]).
  { vm_compute in Hpath. apply Ok_inj in Hpath. subst data_mod.
    vm_compute in Hkeys. apply Ok_inj in Hkeys. symmetry. exact Hkeys. }
  rewrite <- Hk. exact Hdom.
Defined.

Lemma read_collection_models_witness :
  exists dict1 warnings,
    Driver.read_collection both_projects (fun _ => Some example_file)
      (fun _ _ => None) "" (fun _ => "") "ENSO_perf" = Ok (dict1, warnings)
    /\ is_Some (dict1 !! "CNRM-CM5").
Proof.
  assert (Hok : is_ok (Driver.read_collection both_projects (fun _ => Some example_file)
                         (fun _ _ => None) "" (fun _ => "") "ENSO_perf") = true)
    by (vm_compute; reflexivity).
  destruct (Driver.read_collection both_projects (fun _ => Some example_file)
              (fun _ _ => None) "" (fun _ => "") "ENSO_perf")
    as [[dict1 warnings]|e] eqn:Hr; [|discriminate Hok].
  destruct (read_collection_models both_projects (fun _ => Some example_file)
              (fun _ _ => None) "" (fun _ => "") "ENSO_perf" dict1 warnings Hr)
    as (f5 & d5 & k5 & f6 & d6 & k6 & _ & _ & Hr6 & Hk6 & Hin6 & _).
  exists dict1, warnings. split; [reflexivity|].
  assert (Hk : k6 = ["CNRM-CM5"]).
  { vm_compute in Hr6. apply Ok_pair_inj in Hr6 as [_ <-].
    vm_compute in Hk6. apply Ok_inj in Hk6. symmetry. exact Hk6. }
  destruct (Hin6 "CNRM-CM5") as (dict2 & w & _ & Hd).
  - rewrite Hk. apply list_elem_of_here.
  - rewrite Hd. eauto.
Defined.

Lemma example_dict_keys_spec (d : gmap string Driver.json) (k : string) :
  k ∈ example_dict_keys d <-> is_Some (d !! k).
Proof.
  unfold example_dict_keys. rewrite list_elem_of_fmap. split.
  - intros ([k' v] & -> & Hin). apply elem_of_map_to_list in Hin. eauto.
  - intros [v Hv]. exists (k, v). split; [reflexivity|].
    apply elem_of_map_to_list, Hv.
Qed.

Lemma example_list_of_set_spec (l : list string) :
  NoDup (example_list_of_set l) /\ forall x, x ∈ example_list_of_set l <-> x ∈ l.
Proof.
  split; [apply NoDup_remove_dups|]. intros x. apply elem_of_remove_dups.
Qed.

Lemma my_metrics_of_known_models_witness :
  Shaping.my_metrics example_dict_keys example_list_of_set ∅ = Raise NameError.
Proof.
  apply (my_metrics_of_known_models example_dict_keys example_list_of_set
           example_dict_keys_spec example_list_of_set_spec ∅).
  intros mdl _. apply lookup_empty.
Defined.

Lemma panel_rows_fit_witness :
  14 = Layout.rows_above [3; 5; 2]%nat 2 /\ 16 = Layout.nbrl [3; 5; 2]%nat.
Proof.
  destruct (panel_rows_fit [3; 5; 2]%nat) as [_ H].
  destruct (H 2%nat 14 16 eq_refl) as (_ & Ha & _ & _ & Hlast & _).
  split; [exact Ha|exact (Hlast eq_refl)].
Defined.

Lemma fill_defaults_lookup_witness :
  exists p, prepare (T := example_toolkit) short_call short_kwargs = Ok p
            /\ p_kwargs p !! "min_time_steps" = Some (PyInt 360).
Proof.
  assert (Hok : is_ok (prepare (T := example_toolkit) short_call short_kwargs) = true)
    by (vm_compute; reflexivity).
  destruct (prepare (T := example_toolkit) short_call short_kwargs) as [p|e] eqn:Hp;
    [|discriminate Hok].
  destruct (fill_defaults_lookup (T := example_toolkit) (needed_kwarg short_call)
              short_kwargs) as (_ & _ & Hkeep).
  exists p. split; [reflexivity|].
  apply (Hkeep short_call p eq_refl Hp). apply lookup_singleton_eq.
Defined.

Lemma event_definition_needed_witness :
  run (T := example_toolkit)
    (CallSstLonRmse false (example_dataset 360) (example_dataset 360)
       "equatorial_pacific" example_no_season (PyInt 0) (PyInt 1)) ∅
  = Raise (KeyError "season_ev").
Proof.
  destruct (event_definition_needed (T := example_toolkit)
              (CallSstLonRmse false (example_dataset 360) (example_dataset 360)
                 "equatorial_pacific" example_no_season (PyInt 0) (PyInt 1))
              example_no_season ∅ eq_refl) as (_ & Hseason & _).
  apply Hseason.
  - vm_compute. eauto.
  - vm_compute. reflexivity.
Defined.

Lemma derived_flux_needs_interpreter_witness :
  run (T := example_toolkit)
    (CallFeedback fEnsoAlphaLwr (example_dataset 360) "nino3" example_flux "nino3") ∅
  = Raise (KeyError "project_interpreter_var2").
Proof.
  destruct (derived_flux_needs_interpreter (T := example_toolkit) fEnsoAlphaLwr
              (example_dataset 360) "nino3" example_flux "nino3" ∅) as (_ & _ & H).
  apply H; [reflexivity|apply lookup_empty|].
  left. exists "rlds.nc", "rlds". split; reflexivity.
Defined.


Lemma model_series_checked_first_witness :
  exists p tab_model tab_obs,
    prepare (T := example_toolkit) short_call short_kwargs = Ok p
    /\ p_series p = [("modeled", tab_model); ("observed", tab_obs)]
    /\ run (T := example_toolkit) short_call short_kwargs
       = Raise (too_short_error (T := example_toolkit) short_call "modeled"
                  (Z.of_nat (length tab_model)) (PyInt 360)).
Proof.
  assert (Hs : p_series <$> prepare (T := example_toolkit) short_call short_kwargs
               = Ok [("modeled", replicate 12 0%Q); ("observed", replicate 24 0%Q)])
    by (vm_compute; reflexivity).
  destruct (prepare (T := example_toolkit) short_call short_kwargs) as [p|e] eqn:Hp;
    [|discriminate Hs].
  apply Ok_inj in Hs.
  destruct (model_series_checked_first (T := example_toolkit) short_call short_kwargs
              p (PyInt 360) eq_refl Hp (lookup_singleton_eq _ _) eq_refl)
    as (tm & to & Hseries & Hmodel & _).
  exists p, tm, to. split; [reflexivity|]. split; [exact Hseries|].
  apply Hmodel. rewrite Hseries in Hs. injection Hs as -> _. vm_compute. reflexivity.
Defined.
